(** * CricSaga-Bot: ranked matchmaking, rating and anti-cheat core

    A shallow embedding of the ranking subsystem of [bb.py] and the
    properties of its specification.

    Conventions of the embedding.
    - Python [int] is [Z].  Telegram user ids are [Z].
    - Python [float] values that the code obtains from integers with
      [+ - * /] are exact rationals [Q]; the one transcendental step,
      [10 ** x] in [calculate_elo_change], is the real power [Rpower], so
      that function is stated over [R].  [int(x)] on a float truncates
      toward zero ([py_int], [py_int_R]).
    - A module-level [dict] whose iteration order is observable
      ([ranked_queue], sorted with a stable sort) is an association list in
      insertion order; dictionaries and tables that are only looked up by
      key are [gmap]s.
    - Clock readings ([time.time()], [datetime.now()], [NOW()]) are
      integers, in microseconds; only their order and differences are used.
    - The database is a record of tables; every statement assumes that a
      connection is obtained and that no query raises.  Each handler runs
      to completion: interleaving of coroutines at an [await] is not
      modelled. *)

From Stdlib Require Import ZArith QArith Reals Lra Lia String Ascii List Bool Sorted.
From Stdlib Require Import Qfield Permutation.
From stdpp Require Import gmap strings pretty.

Open Scope Z_scope.

(* ================================================================== *)
(** * Part I: the embedding                                            *)
(* ================================================================== *)

(** ** Python primitives used by the code *)
Module Py.

(** [c.lower()] on one character: only [A]..[Z] change.  Tier names are
    ASCII words, optionally prefixed by an emoji whose bytes lie outside
    that range. *)
Definition lower_ascii (c : ascii) : ascii :=
  let n := N_of_ascii c in
  if ((65 <=? n) && (n <=? 90))%N then ascii_of_N (n + 32) else c.

Fixpoint lower (s : string) : string :=
  match s with
  | EmptyString => EmptyString
  | String c s' => String (lower_ascii c) (lower s')
  end.

(** [sub in s] for strings. *)
Fixpoint py_in (sub s : string) : bool :=
  String.prefix sub s ||
  match s with
  | EmptyString => false
  | String _ s' => py_in sub s'
  end.

(** [s.startswith(p)]. *)
Definition startswith (s p : string) : bool := String.prefix p s.

(** [a / b] on integers (true division), for [b <> 0]. *)
Definition truediv (a b : Z) : Q := (inject_Z a / inject_Z b)%Q.

(** [int(x)] on a float: truncation toward zero. *)
Definition py_int (x : Q) : Z := Z.quot (Qnum x) (Zpos (Qden x)).

Definition py_int_R (x : R) : Z :=
  if Rlt_dec x 0 then - Int_part (- x) else Int_part x.

(** Position of [s] in [l] ([l.index(s)]); the length of [l] when absent. *)
Fixpoint index_of (s : string) (l : list string) : nat :=
  match l with
  | [] => 0%nat
  | x :: l' => if String.eqb x s then 0%nat else S (index_of s l')
  end.

End Py.

(** ** RatingModel: K-factor, streak bonus, ELO delta, tier lookup *)
Module Rating.
Import Py.
Local Open Scope string_scope.
Local Open Scope Z_scope.

(** [get_k_factor_by_rank] *)
Definition get_k_factor_by_rank (rank_tier : string) (total_ranked_matches : Z) : Z :=
  if total_ranked_matches <? 5 then 48 else
  let rank_lower := lower rank_tier in
  if py_in "bronze" rank_lower || py_in "silver" rank_lower then 40
  else if py_in "gold" rank_lower || py_in "platinum" rank_lower then 32
  else if py_in "diamond" rank_lower || py_in "ruby" rank_lower then 24
  else if py_in "immortal" rank_lower then 16
  else 32.

(** [calculate_win_streak_bonus] *)
Definition calculate_win_streak_bonus
    (current_streak : Z) (rank_tier : string) (is_winner : bool)
    (total_ranked_matches : Z) : Z :=
  if negb is_winner then 0 else
  if total_ranked_matches <? 5 then 0 else
  let rank_lower := lower rank_tier in
  if py_in "platinum" rank_lower || py_in "diamond" rank_lower
     || py_in "ruby" rank_lower || py_in "immortal" rank_lower then 0 else
  if current_streak >=? 5 then 4
  else if current_streak >=? 3 then 2
  else 0.

(** [expected1], [expected2] of [calculate_elo_change]:
    [1 / (1 + 10 ** ((rb - ra) / 400))]. *)
Definition expected_score (ra rb : Z) : R :=
  (1 / (1 + Rpower 10 ((IZR rb - IZR ra) / 400)))%R.

(** The actual scores chosen from [winner] (0 draw, 1, otherwise 2). *)
Definition actual_scores (winner : Z) : R * R :=
  if winner =? 0 then ((1 / 2)%R, (1 / 2)%R)
  else if winner =? 1 then (1%R, 0%R)
  else (0%R, 1%R).

(** [calculate_elo_change] *)
Definition calculate_elo_change (rating1 rating2 winner k_factor : Z) : Z * Z :=
  let expected1 := expected_score rating1 rating2 in
  let expected2 := expected_score rating2 rating1 in
  let '(actual1, actual2) := actual_scores winner in
  let change1 := py_int_R (IZR k_factor * (actual1 - expected1)) in
  let change2 := py_int_R (IZR k_factor * (actual2 - expected2)) in
  (change1, change2).

(** [get_rank_tier] *)
Definition get_rank_tier (rating : Z) : string :=
  if rating <? 200 then "🥉 Bronze I" else
  if rating <? 400 then "🥉 Bronze II" else
  if rating <? 600 then "🥉 Bronze III" else
  if rating <? 800 then "🥈 Silver I" else
  if rating <? 1000 then "🥈 Silver II" else
  if rating <? 1200 then "🥈 Silver III" else
  if rating <? 1400 then "🥇 Gold I" else
  if rating <? 1600 then "🥇 Gold II" else
  if rating <? 1800 then "🥇 Gold III" else
  if rating <? 2000 then "💎 Platinum I" else
  if rating <? 2200 then "💎 Platinum II" else
  if rating <? 2400 then "💎 Platinum III" else
  if rating <? 2600 then "💠 Diamond I" else
  if rating <? 2800 then "💠 Diamond II" else
  if rating <? 3000 then "💠 Diamond III" else
  if rating <? 3300 then "⚜️ Master I" else
  if rating <? 3600 then "⚜️ Master II" else
  if rating <? 4000 then "⚜️ Master III" else
  if rating <? 4400 then "👑 Grandmaster I" else
  if rating <? 4800 then "👑 Grandmaster II" else
  if rating <? 5200 then "👑 Grandmaster III" else
  "🔥 Immortal".

(** [get_rank_from_rating] *)
Definition get_rank_from_rating (rating : Z) : string :=
  if rating <? 0 then "Unranked" else
  if rating <? 200 then "Bronze I" else
  if rating <? 400 then "Bronze II" else
  if rating <? 600 then "Bronze III" else
  if rating <? 800 then "Silver I" else
  if rating <? 1000 then "Silver II" else
  if rating <? 1200 then "Silver III" else
  if rating <? 1400 then "Gold I" else
  if rating <? 1600 then "Gold II" else
  if rating <? 1800 then "Gold III" else
  if rating <? 2000 then "Platinum I" else
  if rating <? 2200 then "Platinum II" else
  if rating <? 2400 then "Platinum III" else
  if rating <? 2600 then "Diamond I" else
  if rating <? 2800 then "Diamond II" else
  if rating <? 3000 then "Diamond III" else
  if rating <? 3300 then "Master I" else
  if rating <? 3600 then "Master II" else
  if rating <? 4000 then "Master III" else
  if rating <? 4400 then "Grandmaster I" else
  if rating <? 4800 then "Grandmaster II" else
  if rating <? 5200 then "Grandmaster III" else
  if rating <? 5600 then "Immortal I" else
  if rating <? 6000 then "Immortal II" else
  "Immortal III".

(** The list [tier_order] of [get_rank_tier_distance]. *)
Definition tier_order : list string :=
  [ "Bronze I"; "Bronze II"; "Bronze III";
    "Silver I"; "Silver II"; "Silver III";
    "Gold I"; "Gold II"; "Gold III";
    "Platinum I"; "Platinum II"; "Platinum III";
    "Diamond I"; "Diamond II"; "Diamond III";
    "Master I"; "Master II"; "Master III";
    "Grandmaster I"; "Grandmaster II"; "Grandmaster III";
    "Immortal I"; "Immortal II"; "Immortal III" ].

(** The labels of the two lookups, lowest band first.  Those of
    [get_rank_from_rating] are ["Unranked"] followed by [tier_order]. *)
Definition rank_tier_labels : list string :=
  [ "🥉 Bronze I"; "🥉 Bronze II"; "🥉 Bronze III";
    "🥈 Silver I"; "🥈 Silver II"; "🥈 Silver III";
    "🥇 Gold I"; "🥇 Gold II"; "🥇 Gold III";
    "💎 Platinum I"; "💎 Platinum II"; "💎 Platinum III";
    "💠 Diamond I"; "💠 Diamond II"; "💠 Diamond III";
    "⚜️ Master I"; "⚜️ Master II"; "⚜️ Master III";
    "👑 Grandmaster I"; "👑 Grandmaster II"; "👑 Grandmaster III";
    "🔥 Immortal" ].

Definition rank_from_rating_labels : list string := "Unranked" :: tier_order.

(** Lower bounds of the bands above the lowest one. *)
Definition rank_tier_bounds : list Z :=
  [ 200; 400; 600; 800; 1000; 1200; 1400; 1600; 1800; 2000; 2200; 2400;
    2600; 2800; 3000; 3300; 3600; 4000; 4400; 4800; 5200 ].

Definition rank_from_rating_bounds : list Z := 0 :: rank_tier_bounds ++ [5600; 6000].

(** Number of band bounds that [rating] has reached. *)
Definition band (bounds : list Z) (rating : Z) : nat :=
  List.length (List.filter (fun b => b <=? rating) bounds).

(** An [if]/[elif] chain over increasing bounds, as a function of the
    bounds and the labels it returns. *)
Fixpoint band_label (bounds : list Z) (labels : list string) (rating : Z) : string :=
  match bounds, labels with
  | b :: bs, l :: ls => if rating <? b then l else band_label bs ls rating
  | _, l :: _ => l
  | _, [] => ""
  end.

(** Position of a label in the band order of each lookup. *)
Definition tier_level (label : string) : nat := index_of label rank_tier_labels.
Definition rank_level (label : string) : nat := index_of label rank_from_rating_labels.

End Rating.

(** ** Persistent tables *)
Module Db.

(** A row of [career_stats], with the columns the code reads or writes.
    [total_ranked_matches] is read with [stats.get(..., 0)] but no
    statement of the code writes or selects it by name: it is [None] when
    the row carries no such key. *)
Record career := {
  username : string;
  rating : Z;
  rank_tier : string;
  total_matches : Z;
  wins : Z;
  losses : Z;
  current_streak : Z;
  streak_type : string;
  trust_score : Z;
  rating_suspended : bool;
  account_flagged : bool;
  total_ranked_matches : option Z
}.

(** A row of [match_patterns], keyed by [(player_id, opponent_id)]. *)
Record pattern := {
  p_total_matches : Z;
  p_wins : Z;
  p_losses : Z;
  matches_last_24h : Z;
  is_flagged : bool
}.

(** Which rule of [check_match_patterns] fired.  The code returns the
    message text; the embedding keeps the rule and the numbers that the
    text interpolates ([share] is [opponent_percentage]). *)
Inductive reason :=
| NoReason
| MatchesIn24h (matches_24h : Z)
| SameOpponentShare (share : Q)
| BalancedRecord (wins losses : Z).

(** A row of [suspicious_activities]; [details] is the reason of a
    pattern check or a text. *)
Record activity := {
  a_user_id : Z;
  activity_type : string;
  a_opponent_id : option Z;
  details : reason + string;
  trust_score_impact : Z;
  cleared : bool
}.

(** A row of [match_history_detailed]; [winner_id] is NULL for a draw. *)
Record history := {
  match_id : string;
  h_player1_id : Z;
  h_player2_id : Z;
  winner_id : option Z;
  match_type : string;
  rating_change_p1 : Z;
  rating_change_p2 : Z;
  match_date : Z
}.

(** A row of [ranked_matches]. *)
Record ranked_match := {
  rm_player1_id : Z;
  rm_player2_id : Z;
  rm_winner_id : Z;
  p1_rating_before : Z;
  p1_rating_after : Z;
  p1_rating_change : Z;
  p2_rating_before : Z;
  p2_rating_after : Z;
  p2_rating_change : Z
}.

(** A row of [challenge_cooldowns], keyed by [(challenger_id, target_id)];
    times are in microseconds. *)
Record cooldown := { expires_at : Z }.

(** A row of [pending_challenges], keyed by [challenge_id]. *)
Record challenge := {
  challenger_id : Z;
  target_id : Z;
  challenger_name : string;
  target_name : string;
  status : string
}.

Record t := {
  career_stats : gmap Z career;
  match_patterns : gmap (Z * Z) pattern;
  suspicious_activities : list activity;
  match_history_detailed : list history;
  ranked_matches : list ranked_match;
  challenge_cooldowns : gmap (Z * Z) cooldown;
  pending_challenges : gmap string challenge
}.

Definition set_career_stats (db : t) (cs : gmap Z career) : t :=
  {| career_stats := cs;
     match_patterns := match_patterns db;
     suspicious_activities := suspicious_activities db;
     match_history_detailed := match_history_detailed db;
     ranked_matches := ranked_matches db;
     challenge_cooldowns := challenge_cooldowns db;
     pending_challenges := pending_challenges db |}.

Definition set_suspicious_activities (db : t) (l : list activity) : t :=
  {| career_stats := career_stats db;
     match_patterns := match_patterns db;
     suspicious_activities := l;
     match_history_detailed := match_history_detailed db;
     ranked_matches := ranked_matches db;
     challenge_cooldowns := challenge_cooldowns db;
     pending_challenges := pending_challenges db |}.

Definition set_match_history_detailed (db : t) (l : list history) : t :=
  {| career_stats := career_stats db;
     match_patterns := match_patterns db;
     suspicious_activities := suspicious_activities db;
     match_history_detailed := l;
     ranked_matches := ranked_matches db;
     challenge_cooldowns := challenge_cooldowns db;
     pending_challenges := pending_challenges db |}.

Definition set_ranked_matches (db : t) (l : list ranked_match) : t :=
  {| career_stats := career_stats db;
     match_patterns := match_patterns db;
     suspicious_activities := suspicious_activities db;
     match_history_detailed := match_history_detailed db;
     ranked_matches := l;
     challenge_cooldowns := challenge_cooldowns db;
     pending_challenges := pending_challenges db |}.

Definition set_pending_challenges (db : t) (m : gmap string challenge) : t :=
  {| career_stats := career_stats db;
     match_patterns := match_patterns db;
     suspicious_activities := suspicious_activities db;
     match_history_detailed := match_history_detailed db;
     ranked_matches := ranked_matches db;
     challenge_cooldowns := challenge_cooldowns db;
     pending_challenges := m |}.

Definition empty : t :=
  {| career_stats := ∅; match_patterns := ∅; suspicious_activities := [];
     match_history_detailed := []; ranked_matches := [];
     challenge_cooldowns := ∅; pending_challenges := ∅ |}.

End Db.

(** ** TrustModel and PatternDetector *)
Module AntiCheat.
Import Py.
Import Db(reason, NoReason, MatchesIn24h, SameOpponentShare, BalancedRecord).
Local Open Scope string_scope.
Local Open Scope Z_scope.

Definition SUSPICIOUS_OPPONENT_FREQUENCY : Z := 5.
Definition SUSPICIOUS_OPPONENT_PERCENTAGE : Q := 0.30%Q.
Definition WIN_TRADING_CONSECUTIVE_THRESHOLD : Z := 3.
Definition MIN_TRUST_SCORE : Z := 30.
Definition SUSPEND_TRUST_SCORE : Z := 10.

(** [RATING_MULTIPLIER_BY_MATCHES]; the upper bound [float('inf')] is
    [None]. *)
Definition RATING_MULTIPLIER_BY_MATCHES : list ((Z * option Z) * Q) :=
  [ ((0, Some 5), 0.30%Q); ((6, Some 10), 0.50%Q);
    ((11, Some 20), 0.75%Q); ((21, None), 1.00%Q) ].

(** The entries of [TRUST_SCORE_ADJUSTMENTS] that the code uses. *)
Definition ADJ_unique_opponent : Z := 2.
Definition ADJ_no_flags : Z := 20.
Definition ADJ_alternating_wins : Z := -30.
Definition ADJ_excessive_rematches : Z := -20.

(** The [pattern_data] dictionary; an absent key is [None]. *)
Record pattern_data := {
  pd_total : option Z;
  pd_recent : option Z;
  pd_wins : option Z;
  pd_losses : option Z;
  pd_percentage : option Q;
  pd_win_rate : option Q
}.

Definition no_data : pattern_data :=
  {| pd_total := None; pd_recent := None; pd_wins := None;
     pd_losses := None; pd_percentage := None; pd_win_rate := None |}.

(** [check_match_patterns].  The quotients are compared with 0.30, 0.45
    and 0.55 as exact rationals; for the share test this is the float
    comparison of the code as long as the player's total is below 10^15
    (the double nearest to 0.30 lies 1.1e-17 below it, and a quotient
    [a / b] other than 3/10 is at least [1 / (10 b)] away from it). *)
Definition check_match_patterns (db : Db.t) (player1_id player2_id : Z)
  : bool * reason * pattern_data :=
  match Db.match_patterns db !! (player1_id, player2_id) with
  | None => (false, NoReason, no_data)
  | Some pattern =>
    let total_matches := Db.p_total_matches pattern in
    let wins := Db.p_wins pattern in
    let losses := Db.p_losses pattern in
    let matches_24h := Db.matches_last_24h pattern in
    (* Check 1: too many matches in 24 hours *)
    if matches_24h >=? SUSPICIOUS_OPPONENT_FREQUENCY then
      (true, MatchesIn24h matches_24h,
       {| pd_total := Some total_matches; pd_recent := Some matches_24h;
          pd_wins := Some wins; pd_losses := Some losses;
          pd_percentage := None; pd_win_rate := None |})
    else
    (* Check 3, reached when check 2 does not return *)
    let check3 :=
      let win_rate :=
        if total_matches >? 0 then truediv wins total_matches else 0%Q in
      if (total_matches >=? 6) &&
         (Qle_bool 0.45%Q win_rate && Qle_bool win_rate 0.55%Q
          && (total_matches >=? 10))
      then
        (true, BalancedRecord wins losses,
         {| pd_total := Some total_matches; pd_recent := None;
            pd_wins := Some wins; pd_losses := Some losses;
            pd_percentage := None;
            pd_win_rate := Some win_rate |})
      else
        (false, NoReason,
         {| pd_total := Some total_matches; pd_recent := None;
            pd_wins := Some wins; pd_losses := Some losses;
            pd_percentage := None; pd_win_rate := None |}) in
    (* Check 2: share of the player's matches played against this opponent *)
    match Db.career_stats db !! player1_id with
    | Some stats =>
      let total_user_matches := Db.total_matches stats in
      if total_user_matches >? 0 then
        let opponent_percentage := truediv total_matches total_user_matches in
        if Qle_bool SUSPICIOUS_OPPONENT_PERCENTAGE opponent_percentage
           && (total_matches >=? 10)
        then
          (true, SameOpponentShare opponent_percentage,
           {| pd_total := Some total_matches; pd_recent := None;
              pd_wins := Some wins; pd_losses := Some losses;
              pd_percentage := Some opponent_percentage;
              pd_win_rate := None |})
        else check3
      else check3
    | None => check3
    end
  end.

(** Stable insertion sort by an integer key ([sorted(..., key=...)] and
    [ORDER BY]). *)
Fixpoint insert_by {A} (key : A -> Z) (x : A) (l : list A) : list A :=
  match l with
  | [] => [x]
  | y :: l' => if key x <=? key y then x :: l else y :: insert_by key x l'
  end.

Definition sorted_by {A} (key : A -> Z) (l : list A) : list A :=
  fold_right (insert_by key) [] l.

(** The query of [detect_win_trading]: the matches between the two
    players, newest first, at most ten; one row is [winner_id]. *)
Definition head_to_head (db : Db.t) (player1_id player2_id : Z) : list (option Z) :=
  let between (h : Db.history) :=
    ((Db.h_player1_id h =? player1_id) && (Db.h_player2_id h =? player2_id))
    || ((Db.h_player1_id h =? player2_id) && (Db.h_player2_id h =? player1_id)) in
  map Db.winner_id
    (firstn 10
       (sorted_by (fun h => - Db.match_date h)
          (List.filter between (Db.match_history_detailed db)))).

Definition winner_differs (a b : option Z) : bool :=
  match a, b with
  | Some x, Some y => negb (x =? y)
  | None, None => false
  | _, _ => true
  end.

(** The loop of [detect_win_trading] from index [i] on, entered with
    [alternating_count]; [Some n] when it returns [True] with
    [alternating_count = n]. *)
Fixpoint scan_alternating (alternating_count : Z) (matches : list (option Z))
  : option Z :=
  match matches with
  | a :: ((b :: _) as rest) =>
    let alternating_count :=
      if winner_differs a b then alternating_count + 1 else 0 in
    if alternating_count >=? WIN_TRADING_CONSECUTIVE_THRESHOLD
    then Some alternating_count
    else scan_alternating alternating_count rest
  | _ => None
  end.

(** [detect_win_trading] *)
Definition detect_win_trading (db : Db.t) (player1_id player2_id : Z)
  : bool * string :=
  let matches := head_to_head db player1_id player2_id in
  if Z.of_nat (List.length matches) <? WIN_TRADING_CONSECUTIVE_THRESHOLD
  then (false, "")
  else
    match scan_alternating 0 matches with
    | Some alternating_count =>
      (true, "Alternating wins detected (" +:+ pretty (alternating_count + 1)
             +:+ " consecutive)")
    | None => (false, "")
    end.

(** [get_rating_multiplier] *)
Definition get_rating_multiplier (db : Db.t) (user_id : Z) : Q :=
  match Db.career_stats db !! user_id with
  | None => 0.30%Q
  | Some stats =>
    let total_matches := Db.total_matches stats in
    let fix find (bands : list ((Z * option Z) * Q)) : Q :=
      match bands with
      | [] => 1.0%Q
      | ((min_matches, max_matches), multiplier) :: bands' =>
        if (min_matches <=? total_matches)
           && match max_matches with
              | Some m => total_matches <=? m
              | None => true
              end
        then multiplier else find bands'
      end in
    find RATING_MULTIPLIER_BY_MATCHES
  end.

(** [calculate_trust_score]: the score, and the table with the score
    stored. *)
Definition calculate_trust_score (db : Db.t) (user_id : Z) : Z * Db.t :=
  match Db.career_stats db !! user_id with
  | None => (50, db)
  | Some stats =>
    let base_score := 50 in
    let of_player (m : gmap (Z * Z) Db.pattern) :=
      List.filter (fun kv => fst (fst kv) =? user_id) (map_to_list m) in
    let unique_opponents := Z.of_nat (List.length (of_player (Db.match_patterns db))) in
    let opponent_bonus := Z.min (unique_opponents * ADJ_unique_opponent) 30 in
    let flags :=
      List.filter (fun a => (Db.a_user_id a =? user_id) && negb (Db.cleared a))
        (Db.suspicious_activities db) in
    let flag_adjustment :=
      if Z.of_nat (List.length flags) >? 0
      then fold_right Z.add 0 (map Db.trust_score_impact flags)
      else ADJ_no_flags in
    let flagged_patterns :=
      Z.of_nat (List.length
        (List.filter (fun kv => Db.is_flagged (snd kv))
           (of_player (Db.match_patterns db)))) in
    let pattern_adjustment :=
      if flagged_patterns >? 0 then -25 * flagged_patterns else 0 in
    let final_score :=
      base_score + (opponent_bonus + flag_adjustment + pattern_adjustment) in
    let final_score := Z.max 0 (Z.min 100 final_score) in
    (final_score,
     Db.set_career_stats db
       (<[user_id :=
            {| Db.username := Db.username stats;
               Db.rating := Db.rating stats;
               Db.rank_tier := Db.rank_tier stats;
               Db.total_matches := Db.total_matches stats;
               Db.wins := Db.wins stats;
               Db.losses := Db.losses stats;
               Db.current_streak := Db.current_streak stats;
               Db.streak_type := Db.streak_type stats;
               Db.trust_score := final_score;
               Db.rating_suspended := Db.rating_suspended stats;
               Db.account_flagged := Db.account_flagged stats;
               Db.total_ranked_matches := Db.total_ranked_matches stats |}]>
          (Db.career_stats db)))
  end.

(** [flag_suspicious_activity] *)
Definition flag_suspicious_activity (db : Db.t) (user_id : Z)
    (activity_type : string) (opponent_id : option Z)
    (details : reason + string) (trust_impact : Z) : Db.t :=
  let db :=
    Db.set_suspicious_activities db
      (Db.suspicious_activities db ++
       [ {| Db.a_user_id := user_id; Db.activity_type := activity_type;
            Db.a_opponent_id := opponent_id; Db.details := details;
            Db.trust_score_impact := trust_impact; Db.cleared := false |} ]) in
  match Db.career_stats db !! user_id with
  | None => db
  | Some stats =>
    Db.set_career_stats db
      (<[user_id :=
           {| Db.username := Db.username stats;
              Db.rating := Db.rating stats;
              Db.rank_tier := Db.rank_tier stats;
              Db.total_matches := Db.total_matches stats;
              Db.wins := Db.wins stats;
              Db.losses := Db.losses stats;
              Db.current_streak := Db.current_streak stats;
              Db.streak_type := Db.streak_type stats;
              Db.trust_score := Z.max 0 (Db.trust_score stats + trust_impact);
              Db.rating_suspended := Db.rating_suspended stats;
              Db.account_flagged := true;
              Db.total_ranked_matches := Db.total_ranked_matches stats |}]>
         (Db.career_stats db))
  end.

(** *** Specification-side notions *)

(** The order that [sorted_by key] establishes. *)
Definition key_le {A} (key : A -> Z) (a b : A) : Prop := key a <= key b.

(** The first [n] adjacent pairs of [l] have different winners. *)
Fixpoint alt_run (n : nat) (l : list (option Z)) : Prop :=
  match n with
  | O => True
  | S n' =>
    match l with
    | a :: ((b :: _) as rest) => a <> b /\ alt_run n' rest
    | _ => False
    end
  end.

(** Somewhere in [l] the winner alternates across three consecutive
    adjacent pairs (four consecutive matches). *)
Definition alternating_window (l : list (option Z)) : Prop :=
  exists pre a b c d post,
    l = (pre ++ a :: b :: c :: d :: post)%list /\ a <> b /\ b <> c /\ c <> d.

End AntiCheat.

(** ** MatchmakingQueue and ranked match creation *)
Module Queue.
Import Py.
Local Open Scope string_scope.
Local Open Scope Z_scope.

Definition RANKED_RATING_RANGE : Z := 200.
(** [QUEUE_JOIN_COOLDOWN], 30 seconds, in microseconds. *)
Definition QUEUE_JOIN_COOLDOWN : Z := 30000000.

(** A player id as a game dictionary holds it: ranked games store the
    integer user id, games of the unranked flow store [str(user.id)].
    An [int] never compares equal to a [str]. *)
Inductive pyid :=
| IdInt (n : Z)
| IdStr (s : string).

(** [game.get(key) == user_id] for an integer [user_id]. *)
Definition id_is (field : option pyid) (user_id : Z) : bool :=
  match field with
  | Some (IdInt n) => n =? user_id
  | _ => false
  end.

(** The entries of a game dictionary that matchmaking reads, and the
    identifying ones among those that [create_ranked_match] writes (the
    score counters it initialises to zero are left out). *)
Record game := {
  match_id : string;
  creator : option pyid;
  creator_name : string;
  joiner : option pyid;
  joiner_name : string;
  status : string;
  chat_id : Z;
  mode : string;
  max_wickets : Z;
  max_overs : Z;
  ranked_match : bool;
  player1_rating : option Z;
  player2_rating : option Z
}.

(** A value of [ranked_queue]; [message] is the handle of the player's
    status message.  [joined_at] is a [time.time()] reading in
    microseconds; every entry is created by [add_to_ranked_queue], which
    sets it. *)
Record queue_entry := {
  username : string;
  rating : Z;
  rank_tier : string;
  joined_at : Z;
  message : Z
}.

(** The dictionary handed to [create_ranked_match] and returned by
    [find_ranked_opponent]. *)
Record player_data := {
  pd_user_id : Z;
  pd_username : string;
  pd_rating : Z;
  pd_rank_tier : string;
  pd_message : option Z
}.

(** Process state: the module-level dictionaries [games], [ranked_queue]
    (in insertion order), [queue_search_tasks] (the users that own a
    search task), [user_queue_cooldown], and the rows of the
    [ranked_queue] table that mirrors the queue. *)
Record state := {
  games : gmap string game;
  ranked_queue : list (Z * queue_entry);
  queue_search_tasks : gset Z;
  user_queue_cooldown : gmap Z Z;
  ranked_queue_rows : gset Z
}.

Definition in_queue (q : list (Z * queue_entry)) (user_id : Z) : bool :=
  existsb (fun kv => fst kv =? user_id) q.

(** [del ranked_queue[user_id]] *)
Definition queue_del (q : list (Z * queue_entry)) (user_id : Z)
  : list (Z * queue_entry) :=
  List.filter (fun kv => negb (fst kv =? user_id)) q.

(** [add_to_ranked_queue] *)
Definition add_to_ranked_queue (st : state) (now user_id : Z)
    (username : string) (rating : Z) (rank_tier : string) (message : Z)
  : bool * state :=
  if in_queue (ranked_queue st) user_id then (false, st)
  else
    (true,
     {| games := games st;
        ranked_queue :=
          ranked_queue st ++
          [ (user_id,
             {| username := username; rating := rating;
                rank_tier := rank_tier; joined_at := now;
                message := message |}) ];
        queue_search_tasks := queue_search_tasks st;
        user_queue_cooldown := user_queue_cooldown st;
        ranked_queue_rows := {[ user_id ]} ∪ ranked_queue_rows st |}).

(** [remove_from_ranked_queue]; its result, always [True] when no query
    raises, is not used by the callers. *)
Definition remove_from_ranked_queue (st : state) (user_id : Z) : state :=
  {| games := games st;
     ranked_queue := queue_del (ranked_queue st) user_id;
     queue_search_tasks := queue_search_tasks st ∖ {[ user_id ]};
     user_queue_cooldown := user_queue_cooldown st;
     ranked_queue_rows := ranked_queue_rows st ∖ {[ user_id ]} |}.

(** [check_challenge_cooldown]: remaining whole seconds, or 0. *)
Definition check_challenge_cooldown (db : Db.t) (now challenger_id target_id : Z) : Z :=
  match Db.challenge_cooldowns db !! (challenger_id, target_id) with
  | Some row =>
    if Db.expires_at row >? now
    then Z.max 0 (Z.quot (Db.expires_at row - now) 1000000)
    else 0
  | None => 0
  end.

(** The loop over [games.items()] that looks for a game of [user_id]. *)
Definition player_in_game (g : game) (user_id : Z) : bool :=
  id_is (creator g) user_id || id_is (joiner g) user_id.

Definition in_any_game (games : gmap string game) (user_id : Z) : bool :=
  existsb (fun kv => player_in_game (snd kv) user_id) (map_to_list games).

Definition opponent_of (opponent_id : Z) (opponent_data : queue_entry) : player_data :=
  {| pd_user_id := opponent_id;
     pd_username := username opponent_data;
     pd_rating := rating opponent_data;
     pd_rank_tier := rank_tier opponent_data;
     pd_message := Some (message opponent_data) |}.

(** The search loop of [find_ranked_opponent] over the sorted queue. *)
Fixpoint search_queue (st : state) (db : Db.t) (now user_id user_rating : Z)
    (sorted_queue : list (Z * queue_entry)) : option player_data :=
  let min_rating := user_rating - RANKED_RATING_RANGE in
  let max_rating := user_rating + RANKED_RATING_RANGE in
  match sorted_queue with
  | [] => None
  | (opponent_id, opponent_data) :: rest =>
    if opponent_id =? user_id then
      search_queue st db now user_id user_rating rest
    else if in_any_game (games st) opponent_id then
      search_queue st db now user_id user_rating rest
    else if check_challenge_cooldown db now user_id opponent_id >? 0 then
      search_queue st db now user_id user_rating rest
    else if check_challenge_cooldown db now opponent_id user_id >? 0 then
      search_queue st db now user_id user_rating rest
    else
      let opponent_rating := rating opponent_data in
      if (min_rating <=? opponent_rating) && (opponent_rating <=? max_rating)
      then Some (opponent_of opponent_id opponent_data)
      else search_queue st db now user_id user_rating rest
  end.

(** [find_ranked_opponent] *)
Definition find_ranked_opponent (st : state) (db : Db.t) (now user_id user_rating : Z)
  : option player_data :=
  let sorted_queue :=
    AntiCheat.sorted_by (fun x => joined_at (snd x)) (ranked_queue st) in
  search_queue st db now user_id user_rating sorted_queue.

(** [create_ranked_match]; [rnd] is the draw of [random.randint(1000, 9999)]. *)
Definition create_ranked_match (st : state)
    (player1_data player2_data : player_data) (chat_id rnd : Z)
  : option string * state :=
  if existsb
       (fun kv =>
          player_in_game (snd kv) (pd_user_id player1_data)
          || player_in_game (snd kv) (pd_user_id player2_data))
       (map_to_list (games st))
  then (None, st)
  else
    let st := remove_from_ranked_queue st (pd_user_id player1_data) in
    let st := remove_from_ranked_queue st (pd_user_id player2_data) in
    let game_key := pretty chat_id in
    match games st !! game_key with
    | Some _ => (None, st)
    | None =>
      let match_id := "R" +:+ pretty rnd in
      (Some match_id,
       {| games :=
            <[game_key :=
                {| match_id := match_id;
                   creator := Some (IdInt (pd_user_id player1_data));
                   creator_name := pd_username player1_data;
                   joiner := Some (IdInt (pd_user_id player2_data));
                   joiner_name := pd_username player2_data;
                   status := "toss";
                   chat_id := chat_id;
                   mode := "blitz";
                   max_wickets := 3;
                   max_overs := 3;
                   ranked_match := true;
                   player1_rating := Some (pd_rating player1_data);
                   player2_rating := Some (pd_rating player2_data) |}]>
              (games st);
          ranked_queue := ranked_queue st;
          queue_search_tasks := queue_search_tasks st;
          user_queue_cooldown := user_queue_cooldown st;
          ranked_queue_rows := ranked_queue_rows st |})
    end.

(** The tests of one turn of the search loop, as the code evaluates them:
    a candidate passes when none of the four [continue] branches is taken
    and the rating is in range.  The game test is [in_any_game], which
    compares the stored ids with the integer id, and a cooldown counts
    while [check_challenge_cooldown] is positive. *)
Definition passes_search_tests (st : state) (db : Db.t) (now user_id user_rating : Z)
    (candidate : Z * queue_entry) : bool :=
  negb (fst candidate =? user_id)
  && negb (in_any_game (games st) (fst candidate))
  && (check_challenge_cooldown db now user_id (fst candidate) <=? 0)
  && (check_challenge_cooldown db now (fst candidate) user_id <=? 0)
  && (user_rating - RANKED_RATING_RANGE <=? rating (snd candidate))
  && (rating (snd candidate) <=? user_rating + RANKED_RATING_RANGE).

(** No integer id is stored as creator or joiner by two games. *)
Definition one_game_per_player (games : gmap string game) : Prop :=
  forall user_id k1 k2 g1 g2,
    games !! k1 = Some g1 -> games !! k2 = Some g2 ->
    player_in_game g1 user_id = true -> player_in_game g2 user_id = true ->
    k1 = k2.

End Queue.

(** ** ChallengeCoordinator: the timeout task *)
Module Challenge.
Import Py.
Local Open Scope string_scope.
Local Open Scope Z_scope.

(** What the task shows in the group once it has expired the challenge. *)
Record expiry_notice := {
  n_challenger_id : Z;
  n_target_id : Z;
  n_challenger_name : string;
  n_target_name : string
}.

(** [challenge_timeout_task], after its 60 seconds of sleep. *)
Definition challenge_timeout_task (db : Db.t) (challenge_id : string)
    (challenger_id target_id : Z) : Db.t * option expiry_notice :=
  match Db.pending_challenges db !! challenge_id with
  | None => (db, None)
  | Some result =>
    let status := Db.status result in
    if negb (String.eqb status "") && startswith status "pending_" then
      (Db.set_pending_challenges db
         (<[challenge_id :=
              {| Db.challenger_id := Db.challenger_id result;
                 Db.target_id := Db.target_id result;
                 Db.challenger_name := Db.challenger_name result;
                 Db.target_name := Db.target_name result;
                 Db.status := "expired" |}]>
            (Db.pending_challenges db)),
       Some {| n_challenger_id := challenger_id; n_target_id := target_id;
               n_challenger_name := Db.challenger_name result;
               n_target_name := Db.target_name result |})
    else (db, None)
  end.

(** The statuses that the code writes to [pending_challenges]. *)
Definition statuses : list string :=
  [ "pending"; "accepted"; "declined"; "expired"; "canceled" ].

End Challenge.

(** ** Career rows *)
Module Career.
Local Open Scope string_scope.
Local Open Scope Z_scope.

(** Modelled from the spec: the column defaults of [career_stats], whose
    [CREATE TABLE] is not part of the sources.  [get_career_stats]
    inserts [(user_id, '', 1000, 'Silver III', 0, 0, 0)]; the remaining
    columns take the defaults that the data model of the spec gives (no
    streak, trust 50, not suspended). *)
Definition new_career : Db.career :=
  {| Db.username := ""; Db.rating := 1000; Db.rank_tier := "Silver III";
     Db.total_matches := 0; Db.wins := 0; Db.losses := 0;
     Db.current_streak := 0; Db.streak_type := "none";
     Db.trust_score := 50; Db.rating_suspended := false;
     Db.account_flagged := false; Db.total_ranked_matches := None |}.

(** [get_career_stats]: the player's row, created when absent. *)
Definition get_career_stats (db : Db.t) (user_id : Z) : Db.career * Db.t :=
  match Db.career_stats db !! user_id with
  | Some result => (result, db)
  | None =>
    (new_career,
     Db.set_career_stats db (<[user_id := new_career]> (Db.career_stats db)))
  end.

End Career.

(** ** The [/ranked] command, up to the queue entry *)
Module Entry.
Import Queue.
Local Open Scope string_scope.
Local Open Scope Z_scope.

Inductive ranked_reply :=
| AlreadyInGame
| AlreadySearching
| CooldownActive
| AccessSuspended
| RatingSuspended
| ServerError
| Searching.

(** [ranked], from its first check to the update of the join cooldown
    that follows [add_to_ranked_queue]; [message] is the handle of the
    searching message it has just sent, and [now] stands for each of its
    clock readings. *)
Definition ranked (st : state) (db : Db.t) (now user_id chat_id : Z)
    (username : string) (message : Z) : ranked_reply * state * Db.t :=
  match games st !! pretty chat_id with
  | Some _ => (AlreadyInGame, st, db)
  | None =>
    if in_queue (ranked_queue st) user_id then (AlreadySearching, st, db)
    else if match user_queue_cooldown st !! user_id with
            | Some last => now - last <? QUEUE_JOIN_COOLDOWN
            | None => false
            end
    then (CooldownActive, st, db)
    else
      let '(stats, db) := Career.get_career_stats db user_id in
      let trust_score := Db.trust_score stats in
      if trust_score <? AntiCheat.SUSPEND_TRUST_SCORE then (AccessSuspended, st, db)
      else if Db.rating_suspended stats then (RatingSuspended, st, db)
      else
        let rating := Db.rating stats in
        let rank_tier := Db.rank_tier stats in
        let '(success, st) :=
          add_to_ranked_queue st now user_id username rating rank_tier message in
        if negb success then (ServerError, st, db)
        else
          (Searching,
           {| games := games st;
              ranked_queue := ranked_queue st;
              queue_search_tasks := queue_search_tasks st;
              user_queue_cooldown := <[user_id := now]> (user_queue_cooldown st);
              ranked_queue_rows := ranked_queue_rows st |},
           db)
  end.

End Entry.

(** ** RankedMatchCoordinator: settlement in [handle_game_end] *)
Module Settlement.
Import Py Rating AntiCheat.
Import Db(reason, NoReason, MatchesIn24h, SameOpponentShare, BalancedRecord).
Local Open Scope string_scope.
Local Open Scope Z_scope.

(** The entries of the game dictionary that the rating part of
    [handle_game_end] reads; an optional entry is one read with [get]. *)
Record finished_game := {
  id : option string;
  creator : Z;
  joiner : Z;
  creator_name : string;
  joiner_name : string;
  bowler : Z;
  batsman : Z;
  ranked_match : bool;
  is_ranked : bool;
  player1_rating : option Z;
  p1_rating : option Z;
  player2_rating : option Z;
  p2_rating : option Z;
  target : Z
}.

(** [game.get(k1) or game.get(k2, 1000)] *)
Definition rating_or (first second : option Z) : Z :=
  match first with
  | Some r => if r =? 0 then default 1000 second else r
  | None => default 1000 second
  end.

(** What the settlement computes, and the database it leaves. *)
Record outcome := {
  winner : Z;
  first_batsman_k : Z;
  second_batsman_k : Z;
  avg_k : Q;
  base_change_first : Z;
  base_change_second : Z;
  first_streak_bonus : Z;
  second_streak_bonus : Z;
  rating_change_p1 : Z;
  rating_change_p2 : Z;
  pattern_p1 : bool * reason * pattern_data;
  pattern_p2 : bool * reason * pattern_data;
  win_trading : bool * string;
  fetched_multiplier_p1 : Q;
  fetched_multiplier_p2 : Q;
  trust_p1 : Z;
  trust_p2 : Z;
  multiplier_p1 : Q;
  multiplier_p2 : Q;
  trust_mult_p1 : Q;
  trust_mult_p2 : Q;
  pattern_mult : Q;
  final_change_p1 : Z;
  final_change_p2 : Z;
  new_rating_p1 : Z;
  new_rating_p2 : Z;
  new_rank_p1 : string;
  new_rank_p2 : string;
  db_after : Db.t
}.

(** [record_match_detailed]: [INSERT ... ON CONFLICT (match_id) DO NOTHING]. *)
Definition record_match_detailed (db : Db.t) (game : finished_game)
    (winner_id : option Z) (match_type : string)
    (p1_rating_change p2_rating_change now : Z) : Db.t :=
  let game_id :=
    default (pretty (creator game) +:+ "_" +:+ pretty (joiner game)) (id game) in
  if existsb (fun h => String.eqb (Db.match_id h) game_id)
       (Db.match_history_detailed db)
  then db
  else
    Db.set_match_history_detailed db
      (Db.match_history_detailed db ++
       [ {| Db.match_id := game_id;
            Db.h_player1_id := creator game;
            Db.h_player2_id := joiner game;
            Db.winner_id := winner_id;
            Db.match_type := match_type;
            Db.rating_change_p1 := p1_rating_change;
            Db.rating_change_p2 := p2_rating_change;
            Db.match_date := now |} ]).

(** The [UPDATE career_stats ... WHERE user_id = %s] of the settlement. *)
Definition update_career (db : Db.t) (user_id rating_change : Z)
    (new_rank name : string) (won lost new_streak : Z) (streak_type : string)
  : Db.t :=
  match Db.career_stats db !! user_id with
  | None => db
  | Some row =>
    Db.set_career_stats db
      (<[user_id :=
           {| Db.username := name;
              Db.rating := Db.rating row + rating_change;
              Db.rank_tier := new_rank;
              Db.total_matches := Db.total_matches row + 1;
              Db.wins := Db.wins row + won;
              Db.losses := Db.losses row + lost;
              Db.current_streak := new_streak;
              Db.streak_type := streak_type;
              Db.trust_score := Db.trust_score row;
              Db.rating_suspended := Db.rating_suspended row;
              Db.account_flagged := Db.account_flagged row;
              Db.total_ranked_matches := Db.total_ranked_matches row |}]>
         (Db.career_stats db))
  end.

(** The rating part of [handle_game_end] for a ranked game. *)
Definition settle_ranked (db : Db.t) (game : finished_game)
    (current_score : Z) (is_chase_successful : bool) (now : Z) : outcome :=
  let runs_short := target game - current_score - 1 in
  let first_batsman_id := bowler game in
  let second_batsman_id := batsman game in
  let player1_id := creator game in
  let player2_id := joiner game in
  let player1_rating := rating_or (player1_rating game) (p1_rating game) in
  let player2_rating := rating_or (player2_rating game) (p2_rating game) in
  let first_is_p1 := first_batsman_id =? player1_id in
  let first_batsman_rating := if first_is_p1 then player1_rating else player2_rating in
  let second_batsman_rating := if first_is_p1 then player2_rating else player1_rating in
  let winner :=
    if runs_short =? 0 then 0 else if is_chase_successful then 2 else 1 in
  let '(player1_stats, db) := Career.get_career_stats db player1_id in
  let '(player2_stats, db) := Career.get_career_stats db player2_id in
  let first_batsman_stats := if first_is_p1 then player1_stats else player2_stats in
  let second_batsman_stats := if first_is_p1 then player2_stats else player1_stats in
  let first_batsman_k :=
    get_k_factor_by_rank (Db.rank_tier first_batsman_stats)
      (default 0 (Db.total_ranked_matches first_batsman_stats)) in
  let second_batsman_k :=
    get_k_factor_by_rank (Db.rank_tier second_batsman_stats)
      (default 0 (Db.total_ranked_matches second_batsman_stats)) in
  let avg_k := (inject_Z (first_batsman_k + second_batsman_k) / 2)%Q in
  let '(rating_change_first, rating_change_second) :=
    calculate_elo_change first_batsman_rating second_batsman_rating winner
      (py_int avg_k) in
  let scale := negb (Qle_bool avg_k 0) in
  let rating_change_first :=
    if scale
    then py_int (inject_Z rating_change_first * (inject_Z first_batsman_k / avg_k))%Q
    else rating_change_first in
  let rating_change_second :=
    if scale
    then py_int (inject_Z rating_change_second * (inject_Z second_batsman_k / avg_k))%Q
    else rating_change_second in
  let first_streak_bonus :=
    calculate_win_streak_bonus (Db.current_streak first_batsman_stats)
      (Db.rank_tier first_batsman_stats) (winner =? 1)
      (default 0 (Db.total_ranked_matches first_batsman_stats)) in
  let second_streak_bonus :=
    calculate_win_streak_bonus (Db.current_streak second_batsman_stats)
      (Db.rank_tier second_batsman_stats) (winner =? 2)
      (default 0 (Db.total_ranked_matches second_batsman_stats)) in
  let base_change_first := rating_change_first in
  let base_change_second := rating_change_second in
  let rating_change_first := rating_change_first + first_streak_bonus in
  let rating_change_second := rating_change_second + second_streak_bonus in
  let rating_change_p1 := if first_is_p1 then rating_change_first else rating_change_second in
  let rating_change_p2 := if first_is_p1 then rating_change_second else rating_change_first in
  (* anti-cheat processing *)
  let pattern_p1 := check_match_patterns db player1_id player2_id in
  let pattern_p2 := check_match_patterns db player2_id player1_id in
  let win_trading := detect_win_trading db player1_id player2_id in
  let fetched_multiplier_p1 := get_rating_multiplier db player1_id in
  let fetched_multiplier_p2 := get_rating_multiplier db player2_id in
  let '(trust_p1, db) := calculate_trust_score db player1_id in
  let '(trust_p2, db) := calculate_trust_score db player2_id in
  (* no penalties: all multipliers set to 1.0 *)
  let trust_mult_p1 := 1.0%Q in
  let trust_mult_p2 := 1.0%Q in
  let pattern_mult := 1.0%Q in
  let multiplier_p1 := 1.0%Q in
  let multiplier_p2 := 1.0%Q in
  let final_change_p1 :=
    py_int (inject_Z rating_change_p1 * multiplier_p1 * trust_mult_p1 * pattern_mult)%Q in
  let final_change_p2 :=
    py_int (inject_Z rating_change_p2 * multiplier_p2 * trust_mult_p2 * pattern_mult)%Q in
  (* flag suspicious activities *)
  let db :=
    if fst (fst pattern_p1)
    then flag_suspicious_activity db player1_id "opponent_frequency"
           (Some player2_id) (inl (snd (fst pattern_p1))) ADJ_excessive_rematches
    else db in
  let db :=
    if fst (fst pattern_p2)
    then flag_suspicious_activity db player2_id "opponent_frequency"
           (Some player1_id) (inl (snd (fst pattern_p2))) ADJ_excessive_rematches
    else db in
  let db :=
    if fst win_trading
    then
      let text := inr ("Win trading detected: " +:+ snd win_trading) in
      let db := flag_suspicious_activity db player1_id "win_trading"
                  (Some player2_id) text ADJ_alternating_wins in
      flag_suspicious_activity db player2_id "win_trading"
        (Some player1_id) text ADJ_alternating_wins
    else db in
  (* detailed history *)
  let winner_id :=
    if winner =? 1 then Some player1_id
    else if winner =? 2 then Some player2_id else None in
  let db :=
    record_match_detailed db game winner_id "ranked"
      final_change_p1 final_change_p2 now in
  let rating_change_p1' := final_change_p1 in
  let rating_change_p2' := final_change_p2 in
  (* update ratings in the database *)
  let new_rating_p1 := player1_rating + rating_change_p1' in
  let new_rank_p1 := get_rank_from_rating new_rating_p1 in
  let new_streak_p1 :=
    if winner =? 1 then Db.current_streak player1_stats + 1 else 0 in
  let streak_type_p1 := if winner =? 1 then "win" else "none" in
  let db :=
    update_career db player1_id rating_change_p1' new_rank_p1 (creator_name game)
      (if winner =? 1 then 1 else 0) (if winner =? 2 then 1 else 0)
      new_streak_p1 streak_type_p1 in
  let new_rating_p2 := player2_rating + rating_change_p2' in
  let new_rank_p2 := get_rank_from_rating new_rating_p2 in
  let new_streak_p2 :=
    if winner =? 2 then Db.current_streak player2_stats + 1 else 0 in
  let streak_type_p2 := if winner =? 2 then "win" else "none" in
  let db :=
    update_career db player2_id rating_change_p2' new_rank_p2 (joiner_name game)
      (if winner =? 2 then 1 else 0) (if winner =? 1 then 1 else 0)
      new_streak_p2 streak_type_p2 in
  let db :=
    Db.set_ranked_matches db
      (Db.ranked_matches db ++
       [ {| Db.rm_player1_id := player1_id;
            Db.rm_player2_id := player2_id;
            Db.rm_winner_id := if winner =? 1 then player1_id else player2_id;
            Db.p1_rating_before := player1_rating;
            Db.p1_rating_after := new_rating_p1;
            Db.p1_rating_change := rating_change_p1';
            Db.p2_rating_before := player2_rating;
            Db.p2_rating_after := new_rating_p2;
            Db.p2_rating_change := rating_change_p2' |} ]) in
  {| winner := winner;
     first_batsman_k := first_batsman_k;
     second_batsman_k := second_batsman_k;
     avg_k := avg_k;
     base_change_first := base_change_first;
     base_change_second := base_change_second;
     first_streak_bonus := first_streak_bonus;
     second_streak_bonus := second_streak_bonus;
     rating_change_p1 := rating_change_p1;
     rating_change_p2 := rating_change_p2;
     pattern_p1 := pattern_p1;
     pattern_p2 := pattern_p2;
     win_trading := win_trading;
     fetched_multiplier_p1 := fetched_multiplier_p1;
     fetched_multiplier_p2 := fetched_multiplier_p2;
     trust_p1 := trust_p1;
     trust_p2 := trust_p2;
     multiplier_p1 := multiplier_p1;
     multiplier_p2 := multiplier_p2;
     trust_mult_p1 := trust_mult_p1;
     trust_mult_p2 := trust_mult_p2;
     pattern_mult := pattern_mult;
     final_change_p1 := final_change_p1;
     final_change_p2 := final_change_p2;
     new_rating_p1 := new_rating_p1;
     new_rating_p2 := new_rating_p2;
     new_rank_p1 := new_rank_p1;
     new_rank_p2 := new_rank_p2;
     db_after := db |}.

(** [handle_game_end], rating part: only a game marked ranked is settled. *)
Definition handle_game_end (db : Db.t) (game : finished_game)
    (current_score : Z) (is_chase_successful : bool) (now : Z)
  : option outcome :=
  if ranked_match game || is_ranked game
  then Some (settle_ranked db game current_score is_chase_successful now)
  else None.

(** The database on which the anti-cheat checks of a settlement run:
    the one that the two fetches of career rows leave. *)
Definition db_fetched (db : Db.t) (game : finished_game) : Db.t :=
  snd (Career.get_career_stats
         (snd (Career.get_career_stats db (creator game))) (joiner game)).

(** The rating and the suspension flag stored for a player. *)
Definition stored (db : Db.t) (user_id : Z) : option (Z * bool) :=
  (fun row => (Db.rating row, Db.rating_suspended row))
    <$> Db.career_stats db !! user_id.

End Settlement.

(** ** Concrete inputs used by the examples and counterexamples *)
Module Examples.
Local Open Scope string_scope.
Local Open Scope Z_scope.

(** A career row with the defaults of [get_career_stats] except for the
    given fields. *)
Definition career_row (rating : Z) (rank_tier : string) (total_matches : Z)
    (suspended : bool) (ranked_matches : option Z) : Db.career :=
  {| Db.username := ""; Db.rating := rating; Db.rank_tier := rank_tier;
     Db.total_matches := total_matches; Db.wins := 0; Db.losses := 0;
     Db.current_streak := 0; Db.streak_type := "none";
     Db.trust_score := 50; Db.rating_suspended := suspended;
     Db.account_flagged := false;
     Db.total_ranked_matches := ranked_matches |}.

(** Player 1 has played 10 matches, 5 of them against player 2, none in
    the last 24 hours. *)
Definition db_half_share : Db.t :=
  {| Db.career_stats := {[ 1 := career_row 1000 "Silver III" 10 false None ]};
     Db.match_patterns :=
       {[ (1, 2) := {| Db.p_total_matches := 5; Db.p_wins := 3;
                       Db.p_losses := 2; Db.matches_last_24h := 0;
                       Db.is_flagged := false |} ]};
     Db.suspicious_activities := [];
     Db.match_history_detailed := [];
     Db.ranked_matches := [];
     Db.challenge_cooldowns := ∅;
     Db.pending_challenges := ∅ |}.

(** Player 1 has played 30 matches, 12 of them against player 2, none in
    the last 24 hours. *)
Definition db_frequent_pair : Db.t :=
  {| Db.career_stats := {[ 1 := career_row 1000 "Silver III" 30 false None ]};
     Db.match_patterns :=
       {[ (1, 2) := {| Db.p_total_matches := 12; Db.p_wins := 9;
                       Db.p_losses := 3; Db.matches_last_24h := 0;
                       Db.is_flagged := false |} ]};
     Db.suspicious_activities := [];
     Db.match_history_detailed := [];
     Db.ranked_matches := [];
     Db.challenge_cooldowns := ∅;
     Db.pending_challenges := ∅ |}.

Definition history_row (id : string) (p1 p2 : Z) (winner : option Z) (date : Z)
  : Db.history :=
  {| Db.match_id := id; Db.h_player1_id := p1; Db.h_player2_id := p2;
     Db.winner_id := winner; Db.match_type := "ranked";
     Db.rating_change_p1 := 0; Db.rating_change_p2 := 0;
     Db.match_date := date |}.

Definition db_with_history (h : list Db.history) : Db.t :=
  Db.set_match_history_detailed Db.empty h.

(** Four matches between players 1 and 2 whose winners alternate, and one
    match of player 1 against somebody else. *)
Definition db_alternating : Db.t :=
  db_with_history
    [ history_row "R1" 1 2 (Some 1) 100; history_row "R2" 2 1 (Some 2) 200;
      history_row "R3" 1 3 (Some 3) 250;
      history_row "R4" 1 2 (Some 1) 300; history_row "R5" 1 2 (Some 2) 400 ].

(** Four matches between players 1 and 2, all won by player 1. *)
Definition db_one_sided : Db.t :=
  db_with_history
    [ history_row "R1" 1 2 (Some 1) 100; history_row "R2" 2 1 (Some 1) 200;
      history_row "R4" 1 2 (Some 1) 300; history_row "R5" 1 2 (Some 1) 400 ].

(** A challenge of player 1 to player 2 that nobody has answered. *)
Definition db_pending_challenge : Db.t :=
  Db.set_pending_challenges Db.empty
    {[ "CH1234" := {| Db.challenger_id := 1; Db.target_id := 2;
                      Db.challenger_name := "A"; Db.target_name := "B";
                      Db.status := "pending" |} ]}.

Definition waiting (name : string) (rating joined_at : Z) : Queue.queue_entry :=
  {| Queue.username := name; Queue.rating := rating;
     Queue.rank_tier := Rating.get_rank_from_rating rating;
     Queue.joined_at := joined_at; Queue.message := 0 |}.

(** Three players wait, joined at 10 < 20 < 30 (stored out of order); no
    game runs. *)
Definition three_waiting : Queue.state :=
  {| Queue.games := ∅;
     Queue.ranked_queue :=
       [ (12, waiting "second" 1100 20); (13, waiting "third" 1000 30);
         (11, waiting "first" 900 10) ];
     Queue.queue_search_tasks := {[ 11; 12; 13 ]};
     Queue.user_queue_cooldown := ∅;
     Queue.ranked_queue_rows := {[ 11; 12; 13 ]} |}.

Definition player (user_id : Z) (name : string) (rating : Z) : Queue.player_data :=
  {| Queue.pd_user_id := user_id; Queue.pd_username := name;
     Queue.pd_rating := rating;
     Queue.pd_rank_tier := Rating.get_rank_from_rating rating;
     Queue.pd_message := None |}.

(** Players 1 and 2, both rated 1000; player 1 is rating-suspended. *)
Definition db_suspended : Db.t :=
  Db.set_career_stats Db.empty
    {[ 1 := career_row 1000 "Silver III" 12 true (Some 12);
       2 := career_row 1000 "Silver III" 12 false (Some 12) ]}.

(** A ranked game created by player 1, who batted first and set a target
    of 50. *)
Definition game_1_vs_2 : Settlement.finished_game :=
  {| Settlement.id := None;
     Settlement.creator := 1; Settlement.joiner := 2;
     Settlement.creator_name := "A"; Settlement.joiner_name := "B";
     Settlement.bowler := 1; Settlement.batsman := 2;
     Settlement.ranked_match := true; Settlement.is_ranked := false;
     Settlement.player1_rating := Some 1000; Settlement.p1_rating := None;
     Settlement.player2_rating := Some 1000; Settlement.p2_rating := None;
     Settlement.target := 50 |}.

End Examples.

(** ** Rank progress: next rank, current bounds, tier distance *)
Module RankInfo.
Import Py Rating.
Local Open Scope string_scope.
Local Open Scope Z_scope.

(** The table [thresholds] of [get_next_rank_info]. *)
Definition thresholds : list (Z * string) :=
  [ (200, "Bronze II"); (400, "Bronze III"); (600, "Silver I");
    (800, "Silver II"); (1000, "Silver III"); (1200, "Gold I");
    (1400, "Gold II"); (1600, "Gold III"); (1800, "Platinum I");
    (2000, "Platinum II"); (2200, "Platinum III"); (2400, "Diamond I");
    (2600, "Diamond II"); (2800, "Diamond III"); (3000, "Master I");
    (3300, "Master II"); (3600, "Master III"); (4000, "Grandmaster I");
    (4400, "Grandmaster II"); (4800, "Grandmaster III"); (5200, "Immortal I");
    (5600, "Immortal II"); (6000, "Immortal III") ].

(** [get_next_rank_info]: the first threshold above the rating, or
    [(None, "MAX RANK")]. *)
Definition get_next_rank_info (rating : Z) : option Z * string :=
  match List.find (fun p => rating <? fst p) thresholds with
  | Some (threshold, name) => (Some threshold, name)
  | None => (None, "MAX RANK")
  end.

(** The table [bounds] of [get_current_rank_bounds]. *)
Definition bounds : list (Z * Z * string) :=
  [ (0, 200, "Bronze I"); (200, 400, "Bronze II"); (400, 600, "Bronze III");
    (600, 800, "Silver I"); (800, 1000, "Silver II"); (1000, 1200, "Silver III");
    (1200, 1400, "Gold I"); (1400, 1600, "Gold II"); (1600, 1800, "Gold III");
    (1800, 2000, "Platinum I"); (2000, 2200, "Platinum II");
    (2200, 2400, "Platinum III");
    (2400, 2600, "Diamond I"); (2600, 2800, "Diamond II");
    (2800, 3000, "Diamond III");
    (3000, 3300, "Master I"); (3300, 3600, "Master II"); (3600, 4000, "Master III");
    (4000, 4400, "Grandmaster I"); (4400, 4800, "Grandmaster II");
    (4800, 5200, "Grandmaster III");
    (5200, 5600, "Immortal I"); (5600, 6000, "Immortal II");
    (6000, 10000, "Immortal III") ].

(** [get_current_rank_bounds] *)
Definition get_current_rank_bounds (rating : Z) : Z * Z * string :=
  match
    List.find (fun b => (fst (fst b) <=? rating) && (rating <? snd (fst b))) bounds
  with
  | Some b => b
  | None => (6000, 10000, "Immortal III")
  end.

(** Whitespace for [str.split()], among the characters below 128. *)
Definition is_space (c : ascii) : bool :=
  let n := N_of_ascii c in
  (((9 <=? n) && (n <=? 13)) || ((28 <=? n) && (n <=? 32)))%N.

(** [s.split()]: the maximal runs of non-whitespace characters; [word] is
    the run being read, in reverse. *)
Fixpoint split_from (word : list ascii) (s : string) : list string :=
  let flush :=
    match word with
    | [] => []
    | _ => [string_of_list_ascii (rev word)]
    end in
  match s with
  | EmptyString => flush
  | String c s' =>
    if is_space c then (flush ++ split_from [] s')%list
    else split_from (c :: word) s'
  end.

Definition split (s : string) : list string := split_from [] s.

(** [clean_tier] of [get_rank_tier_distance]: the last two words joined
    by a space when there are at least two, else the string itself. *)
Definition clean_tier (tier : string) : string :=
  let parts := split tier in
  if (2 <=? List.length parts)%nat then
    match skipn (List.length parts - 2) parts with
    | [a; b] => a +:+ " " +:+ b
    | _ => tier
    end
  else tier.

(** [tier_order.index(x)]; [None] where Python raises [ValueError]. *)
Fixpoint index (x : string) (l : list string) : option Z :=
  match l with
  | [] => None
  | y :: l' => if String.eqb y x then Some 0 else option_map Z.succ (index x l')
  end.

(** [get_rank_tier_distance] *)
Definition get_rank_tier_distance (tier1 tier2 : string) : Z :=
  let clean_tier1 := clean_tier tier1 in
  let clean_tier2 := clean_tier tier2 in
  match index clean_tier1 tier_order, index clean_tier2 tier_order with
  | Some idx1, Some idx2 => Z.abs (idx1 - idx2)
  | _, _ => 999
  end.

(** A table of bands that follow one another from [a] to [b]. *)
Fixpoint contiguous (l : list (Z * Z * string)) (a b : Z) : bool :=
  match l with
  | [] => a =? b
  | (lo, hi, _) :: l' => (lo =? a) && (lo <? hi) && contiguous l' hi b
  end.

(** What the three rank tables agree on, entry by entry. *)
Definition bounds_entry_ok (b : Z * Z * string) : bool :=
  let '(lo, hi, name) := b in
  (lo <? hi) && (0 <=? lo)
  && (band rank_from_rating_bounds lo =? band rank_from_rating_bounds (hi - 1))%nat
  && String.eqb (nth (band rank_from_rating_bounds lo) rank_from_rating_labels "") name
  && ((6000 <? hi) && (lo =? 6000)
      || negb (band rank_from_rating_bounds hi =? band rank_from_rating_bounds lo)%nat
         && (band (map fst thresholds) lo =? band (map fst thresholds) (hi - 1))%nat
         && match nth_error thresholds (band (map fst thresholds) lo) with
            | Some (t, n) => (t =? hi) && String.eqb n (get_rank_from_rating hi)
            | None => false
            end).

(** The distance between the labels at two positions of a label table. *)
Definition distance_at (labels : list string) (i j : nat) : Z :=
  get_rank_tier_distance (nth i labels "") (nth j labels "").

End RankInfo.

(** ** Queue life cycle: timeout, cancellation, availability *)
Module QueueOps.
Import Queue.
Local Open Scope string_scope.
Local Open Scope Z_scope.

(** [RANKED_SEARCH_TIMEOUT], in seconds. *)
Definition RANKED_SEARCH_TIMEOUT : Z := 120.

(** [ranked_queue.get(user_id)] *)
Definition queue_get (q : list (Z * queue_entry)) (user_id : Z) : option queue_entry :=
  option_map snd (List.find (fun kv => fst kv =? user_id) q).

(** [handle_queue_timeout]: the state, and whether the timeout message
    is sent. *)
Definition handle_queue_timeout (st : state) (user_id : Z) : state * bool :=
  match queue_get (ranked_queue st) user_id with
  | None => (st, false)
  | Some _ => (remove_from_ranked_queue st user_id, true)
  end.

Inductive search_step :=
| SearchOver
| SearchTimedOut
| SearchContinues.

(** One turn of the [while] loop of [update_search_message], entered at
    clock reading [now] with the [start_time] read before the loop;
    [elapsed] is [int(time.time() - start_time)], in whole seconds. *)
Definition update_search_message_step (st : state) (now user_id start_time : Z)
  : search_step * state :=
  if in_queue (ranked_queue st) user_id then
    let elapsed := Z.quot (now - start_time) 1000000 in
    if elapsed >=? RANKED_SEARCH_TIMEOUT
    then (SearchTimedOut, fst (handle_queue_timeout st user_id))
    else (SearchContinues, st)
  else (SearchOver, st).

Inductive cancel_reply :=
| NotInQueue
| SearchCanceled.

(** [cancel_queue] *)
Definition cancel_queue (st : state) (user_id : Z) : cancel_reply * state :=
  if negb (in_queue (ranked_queue st) user_id) then (NotInQueue, st)
  else (SearchCanceled, remove_from_ranked_queue st user_id).

(** [is_player_available]; a queue entry older than 300 seconds is
    deleted on the way. *)
Definition is_player_available (st : state) (now user_id : Z) : bool * state :=
  if existsb (fun kv => player_in_game (snd kv) user_id) (map_to_list (games st))
  then (false, st)
  else
    match queue_get (ranked_queue st) user_id with
    | Some queue_entry =>
      if now - joined_at queue_entry >? 300 * 1000000 then
        (true,
         {| games := games st;
            ranked_queue := queue_del (ranked_queue st) user_id;
            queue_search_tasks := queue_search_tasks st;
            user_queue_cooldown := user_queue_cooldown st;
            ranked_queue_rows := ranked_queue_rows st |})
      else (false, st)
    | None => (true, st)
    end.

(** [add_challenge_cooldown]: [INSERT ... ON CONFLICT DO UPDATE]. *)
Definition add_challenge_cooldown (db : Db.t) (now challenger_id target_id : Z)
    (cooldown_minutes : Z) : Db.t :=
  let expires_at := now + cooldown_minutes * 60 * 1000000 in
  {| Db.career_stats := Db.career_stats db;
     Db.match_patterns := Db.match_patterns db;
     Db.suspicious_activities := Db.suspicious_activities db;
     Db.match_history_detailed := Db.match_history_detailed db;
     Db.ranked_matches := Db.ranked_matches db;
     Db.challenge_cooldowns :=
       <[(challenger_id, target_id) := {| Db.expires_at := expires_at |}]>
         (Db.challenge_cooldowns db);
     Db.pending_challenges := Db.pending_challenges db |}.

End QueueOps.

(** ** Declining a challenge *)
Module ChallengeOps.
Local Open Scope string_scope.
Local Open Scope Z_scope.

Inductive decline_reply :=
| ChallengeNotFound
| NotForYou
| NoLongerAvailable (status : string)
| Declined.

(** [handle_challenge_decline]; [target_id] is the user who pressed the
    button. *)
Definition handle_challenge_decline (db : Db.t) (challenge_id : string)
    (target_id : Z) : decline_reply * Db.t :=
  match Db.pending_challenges db !! challenge_id with
  | None => (ChallengeNotFound, db)
  | Some result =>
    if negb (target_id =? Db.target_id result) then (NotForYou, db)
    else if negb (String.eqb (Db.status result) "pending")
    then (NoLongerAvailable (Db.status result), db)
    else
      (Declined,
       Db.set_pending_challenges db
         (<[challenge_id :=
              {| Db.challenger_id := Db.challenger_id result;
                 Db.target_id := Db.target_id result;
                 Db.challenger_name := Db.challenger_name result;
                 Db.target_name := Db.target_name result;
                 Db.status := "declined" |}]>
            (Db.pending_challenges db)))
  end.

End ChallengeOps.

(** ** Notions used by the properties of the trust model and of the
    settlement *)
Module Ledger.
Local Open Scope string_scope.
Local Open Scope Z_scope.

(** The id under which [record_match_detailed] stores a game that has no
    ['id'] entry. *)
Definition fallback_id (creator joiner : Z) : string :=
  pretty creator +:+ "_" +:+ pretty joiner.

Fixpoint distinct (l : list string) : bool :=
  match l with
  | [] => true
  | x :: l' => negb (existsb (String.eqb x) l') && distinct l'
  end.

(** Every row of [match_history_detailed] is stored under the fallback id
    of its players, and no [match_id] occurs twice (the uniqueness that
    [ON CONFLICT (match_id)] relies on). *)
Definition fallback_history (l : list Db.history) : bool :=
  forallb
    (fun h =>
       String.eqb (Db.match_id h)
         (fallback_id (Db.h_player1_id h) (Db.h_player2_id h))) l
  && distinct (map Db.match_id l).

(** The sum of the impacts of the uncleared flags of [user_id]. *)
Definition uncleared_impacts (db : Db.t) (user_id : Z) : Z :=
  fold_right Z.add 0
    (map Db.trust_score_impact
       (List.filter (fun a => (Db.a_user_id a =? user_id) && negb (Db.cleared a))
          (Db.suspicious_activities db))).

(** The part of a career row that the trust model does not write. *)
Definition account (row : Db.career) :=
  (Db.username row, Db.rating row, Db.rank_tier row, Db.total_matches row,
   Db.wins row, Db.losses row, Db.current_streak row, Db.streak_type row,
   Db.rating_suspended row, Db.total_ranked_matches row).

(** That part of the row stored for [user_id]. *)
Definition accounts (db : Db.t) (user_id : Z) :=
  account <$> Db.career_stats db !! user_id.

(** The tables that a settlement only reads. *)
Definition read_only_tables (db : Db.t) :=
  (Db.match_patterns db, Db.challenge_cooldowns db, Db.pending_challenges db).

(** [db'] differs from [db] at most in trust scores, account flags and
    flag records. *)
Definition frame (db db' : Db.t) : Prop :=
  (forall u, accounts db' u = accounts db u) /\
  Db.ranked_matches db' = Db.ranked_matches db /\
  Db.match_history_detailed db' = Db.match_history_detailed db /\
  read_only_tables db' = read_only_tables db.

End Ledger.

(** ** Further concrete inputs *)
Module MoreExamples.
Local Open Scope string_scope.
Local Open Scope Z_scope.

(** A ranked game created by player 1 in which player 2, the joiner,
    batted first and set a target of 50. *)
Definition game_joiner_first : Settlement.finished_game :=
  {| Settlement.id := None;
     Settlement.creator := 1; Settlement.joiner := 2;
     Settlement.creator_name := "A"; Settlement.joiner_name := "B";
     Settlement.bowler := 2; Settlement.batsman := 1;
     Settlement.ranked_match := true; Settlement.is_ranked := false;
     Settlement.player1_rating := Some 1000; Settlement.p1_rating := None;
     Settlement.player2_rating := Some 1000; Settlement.p2_rating := None;
     Settlement.target := 50 |}.

(** Players 1 and 2 with rows that carry no [total_ranked_matches]. *)
Definition db_placement : Db.t :=
  Db.set_career_stats Db.empty
    {[ 1 := Examples.career_row 1000 "Silver III" 40 false None;
       2 := Examples.career_row 1300 "Gold I" 55 false None ]}.

End MoreExamples.

(** ** The [/ranked] command in full, and the periodic check *)
Module RankedCommand.
Import Queue QueueOps.
Local Open Scope string_scope.
Local Open Scope Z_scope.

Inductive ranked_outcome :=
| Refused (reply : Entry.ranked_reply)
| MatchStarted (match_id : string)
| MatchCreationFailed
| SearchStarted.

(** [ranked], to its end; [message] is the handle of the searching
    message, [rnd] the draw of [create_ranked_match], and [now] stands for
    each clock reading.  The three seconds of sleep between finding an
    opponent and creating the match are not modelled. *)
Definition ranked (st : state) (db : Db.t) (now user_id chat_id : Z)
    (username : string) (message rnd : Z) : ranked_outcome * state * Db.t :=
  match games st !! pretty chat_id with
  | Some _ => (Refused Entry.AlreadyInGame, st, db)
  | None =>
    if in_queue (ranked_queue st) user_id
    then (Refused Entry.AlreadySearching, st, db)
    else if match user_queue_cooldown st !! user_id with
            | Some last => now - last <? QUEUE_JOIN_COOLDOWN
            | None => false
            end
    then (Refused Entry.CooldownActive, st, db)
    else
      let '(stats, db) := Career.get_career_stats db user_id in
      let trust_score := Db.trust_score stats in
      if trust_score <? AntiCheat.SUSPEND_TRUST_SCORE
      then (Refused Entry.AccessSuspended, st, db)
      else if Db.rating_suspended stats then (Refused Entry.RatingSuspended, st, db)
      else
        let rating := Db.rating stats in
        let rank_tier := Db.rank_tier stats in
        let '(success, st) :=
          add_to_ranked_queue st now user_id username rating rank_tier message in
        if negb success then (Refused Entry.ServerError, st, db)
        else
          let st :=
            {| games := games st;
               ranked_queue := ranked_queue st;
               queue_search_tasks := queue_search_tasks st;
               user_queue_cooldown := <[user_id := now]> (user_queue_cooldown st);
               ranked_queue_rows := ranked_queue_rows st |} in
          match find_ranked_opponent st db now user_id rating with
          | Some opponent =>
            let '(match_id, st) :=
              create_ranked_match st
                {| pd_user_id := user_id; pd_username := username;
                   pd_rating := rating; pd_rank_tier := rank_tier;
                   pd_message := None |}
                opponent chat_id rnd in
            match match_id with
            | Some match_id => (MatchStarted match_id, st, db)
            | None => (MatchCreationFailed, st, db)
            end
          | None =>
            (SearchStarted,
             {| games := games st;
                ranked_queue := ranked_queue st;
                queue_search_tasks := queue_search_tasks st ∪ {[ user_id ]};
                user_queue_cooldown := user_queue_cooldown st;
                ranked_queue_rows := ranked_queue_rows st |},
             db)
          end
  end.

Inductive check_step :=
| CheckOver
| CheckContinues
| CheckMatched (match_id : option string).

(** One turn of the loop of [periodic_matchmaking_check], after its
    sleep: the loop goes on only from [CheckContinues]. *)
Definition periodic_matchmaking_check_step (st : state) (db : Db.t)
    (now user_id chat_id rnd : Z) : check_step * state :=
  match queue_get (ranked_queue st) user_id with
  | None => (CheckOver, st)
  | Some user_data =>
    match find_ranked_opponent st db now user_id (rating user_data) with
    | Some opponent =>
      let username := username user_data in
      let rating := rating user_data in
      let rank_tier := rank_tier user_data in
      let '(match_id, st) :=
        create_ranked_match st
          {| pd_user_id := user_id; pd_username := username;
             pd_rating := rating; pd_rank_tier := rank_tier;
             pd_message := None |}
          opponent chat_id rnd in
      (CheckMatched match_id, st)
    | None => (CheckContinues, st)
    end
  end.

End RankedCommand.

(** ** The [/challenge] command *)
Module ChallengeCommand.
Import Queue QueueOps RankInfo.
Local Open Scope string_scope.
Local Open Scope Z_scope.

(** The sender of the message that the command replies to. *)
Record target_user := {
  t_id : Z;
  t_name : string;
  t_is_bot : bool
}.

Inductive challenge_reply :=
| GroupOnly
| HowToChallenge
| ChallengeYourself
| ChallengeBot
| ChallengeBlocked
| ChallengerSuspended
| TooManyMatches (recent : Z)
| RankDifference
| YouAreBusy
| PlayerBusy
| ChallengeError
| ChallengeSent (challenge_id : string).

(** [challenge], up to the start of the timeout task.  [is_private] is
    [chat_type == 'private'], [reply_to] the sender of the replied
    message, [rnd] the draw of [random.randint(1000, 9999)].  The row of
    [pending_challenges] keeps the columns of [Db.challenge]; its status
    is the one that the [UPDATE] following the notification sets.  An
    [INSERT] under an id that is already stored raises, which the code
    answers with its error reply. *)
Definition challenge (st : state) (db : Db.t) (now user_id : Z)
    (username : string) (is_private : bool) (reply_to : option target_user)
    (rnd : Z) : challenge_reply * state * Db.t :=
  if is_private then (GroupOnly, st, db)
  else
    match reply_to with
    | None => (HowToChallenge, st, db)
    | Some target =>
      let target_id := t_id target in
      let target_name := t_name target in
      if target_id =? user_id then (ChallengeYourself, st, db)
      else if t_is_bot target then (ChallengeBot, st, db)
      else
        let '(challenger_stats, db) := Career.get_career_stats db user_id in
        let '(target_stats, db) := Career.get_career_stats db target_id in
        let challenger_trust := Db.trust_score challenger_stats in
        if challenger_trust <? AntiCheat.SUSPEND_TRUST_SCORE
        then (ChallengeBlocked, st, db)
        else if Db.rating_suspended challenger_stats
        then (ChallengerSuspended, st, db)
        else
          let '(is_suspicious, reason, pattern) :=
            AntiCheat.check_match_patterns db user_id target_id in
          if is_suspicious
             && (default 0 (AntiCheat.pd_recent pattern)
                 >=? AntiCheat.SUSPICIOUS_OPPONENT_FREQUENCY)
          then (TooManyMatches (default 0 (AntiCheat.pd_recent pattern)), st, db)
          else
            let challenger_rank := Db.rank_tier challenger_stats in
            let target_rank := Db.rank_tier target_stats in
            let tier_distance := get_rank_tier_distance challenger_rank target_rank in
            if tier_distance >? 2 then (RankDifference, st, db)
            else
              let '(available, st) := is_player_available st now user_id in
              if negb available then (YouAreBusy, st, db)
              else
                let '(available, st) := is_player_available st now target_id in
                if negb available then (PlayerBusy, st, db)
                else
                  let challenge_id := "CH" +:+ pretty rnd in
                  match Db.pending_challenges db !! challenge_id with
                  | Some _ => (ChallengeError, st, db)
                  | None =>
                    (ChallengeSent challenge_id, st,
                     Db.set_pending_challenges db
                       (<[challenge_id :=
                            {| Db.challenger_id := user_id;
                               Db.target_id := target_id;
                               Db.challenger_name := username;
                               Db.target_name := target_name;
                               Db.status := "pending" |}]>
                          (Db.pending_challenges db)))
                  end
    end.

End ChallengeCommand.

(** ** The progress section of [/career] *)
Module CareerCard.
Import Py Rating RankInfo.
Local Open Scope string_scope.
Local Open Scope Z_scope.

(** [safe_division]: [numerator / float(denominator)], or the default
    for a zero denominator. *)
Definition safe_division (numerator denominator : Z) (default : Q) : Q :=
  if denominator =? 0 then default else truediv numerator denominator.

(** [s * n] on a string: no copy for [n <= 0]. *)
Definition times (s : string) (n : Z) : string :=
  String.concat "" (repeat s (Z.to_nat n)).

(** What the progress section of the card shows. *)
Inductive progress_section :=
| Progress (rank_tier next_rank progress_bar : string)
    (rating next_threshold points_needed : Z)
| MaxRankAchieved.

(** The part of [career] from the rank of the rating to the progress
    section, as a function of the stored rating.  The quotients are exact
    rationals.  For a rating inside the table the computation in doubles
    gives the same number of cells; for a negative rating it can give one
    cell less than the exact quotient where that quotient is a whole
    number. *)
Definition career_progress (rating : Z) : progress_section :=
  let rank_tier := get_rank_from_rating rating in
  let '(min_rating, max_rating, current_tier) := get_current_rank_bounds rating in
  let '(next_threshold, next_rank) := get_next_rank_info rating in
  match next_threshold with
  | Some next_threshold =>
    if next_threshold =? 0 then MaxRankAchieved
    else
      let points_needed := next_threshold - rating in
      let tier_range := max_rating - min_rating in
      let progress_in_tier := rating - min_rating in
      let progress_pct := (safe_division progress_in_tier tier_range 0 * 100)%Q in
      let progress_bar :=
        times "█" (py_int (progress_pct / 10)%Q)
        +:+ times "░" (10 - py_int (progress_pct / 10)%Q) in
      Progress rank_tier next_rank progress_bar rating next_threshold points_needed
  | None => MaxRankAchieved
  end.

End CareerCard.

(** ** Matchmaking notions in the words of the specification *)
Module QueueSpec.
Import Queue.
Local Open Scope string_scope.
Local Open Scope Z_scope.

(** A game entry names [user_id], whichever way the id is stored: as the
    integer (ranked and challenge games) or as [str(user.id)] (games of
    the unranked flow). *)
Definition names_player (field : option pyid) (user_id : Z) : bool :=
  match field with
  | Some (IdInt n) => n =? user_id
  | Some (IdStr s) => String.eqb s (pretty user_id)
  | None => false
  end.

(** The player is the creator or the joiner of the game. *)
Definition plays_in (g : game) (user_id : Z) : bool :=
  names_player (creator g) user_id || names_player (joiner g) user_id.

(** The player is the creator or joiner of an active game. *)
Definition in_active_game (games : gmap string game) (user_id : Z) : bool :=
  existsb (fun kv => plays_in (snd kv) user_id) (map_to_list games).

(** The number of active games of which the player is creator or joiner. *)
Definition games_of (games : gmap string game) (user_id : Z) : nat :=
  List.length (List.filter (fun kv => plays_in (snd kv) user_id) (map_to_list games)).

(** Some game stores the integer [user_id] as its creator or joiner. *)
Definition holds_int_id (games : gmap string game) (user_id : Z) : Prop :=
  exists k g, games !! k = Some g /\
    (creator g = Some (IdInt user_id) \/ joiner g = Some (IdInt user_id)).

(** A challenge cooldown from [challenger_id] to [target_id] is running:
    there is a row that has not expired (the [WHERE] clause of
    [check_challenge_cooldown]). *)
Definition cooldown_active (db : Db.t) (now challenger_id target_id : Z) : bool :=
  match Db.challenge_cooldowns db !! (challenger_id, target_id) with
  | Some row => Db.expires_at row >? now
  | None => false
  end.

(** The candidates that the specification lets the search return: not the
    player, in no active game, no running challenge cooldown with the
    player in either direction, rated within 200 points. *)
Definition spec_eligible (st : state) (db : Db.t) (now user_id user_rating : Z)
    (candidate : Z * queue_entry) : bool :=
  negb (fst candidate =? user_id)
  && negb (in_active_game (games st) (fst candidate))
  && negb (cooldown_active db now user_id (fst candidate))
  && negb (cooldown_active db now (fst candidate) user_id)
  && (user_rating - RANKED_RATING_RANGE <=? rating (snd candidate))
  && (rating (snd candidate) <=? user_rating + RANKED_RATING_RANGE).

(** Every game stores its creator and its joiner as integers: no game of
    the unranked flow is running. *)
Definition int_ids (games : gmap string game) : Prop :=
  forall k g s, games !! k = Some g ->
    creator g <> Some (IdStr s) /\ joiner g <> Some (IdStr s).

(** No challenge cooldown is in its last second. *)
Definition whole_second_cooldowns (db : Db.t) (now : Z) : Prop :=
  forall pair row, Db.challenge_cooldowns db !! pair = Some row ->
    Db.expires_at row <= now \/ now + 1000000 <= Db.expires_at row.

End QueueSpec.

(** ** Concrete inputs with a game of the unranked flow *)
Module QueueExamples.
Import Queue.
Local Open Scope string_scope.
Local Open Scope Z_scope.

(** A game of the unranked flow once [handle_join] has run: creator and
    joiner are stored as [str(user.id)] and the status is ['toss'].
    Matchmaking reads no other entry of such a game; it carries no match
    id and no rating snapshot, and the mode is the one chosen at set-up. *)
Definition unranked_game (creator joiner : string) (chat_id : Z) : game :=
  {| match_id := "";
     creator := Some (IdStr creator); creator_name := "C";
     joiner := Some (IdStr joiner); joiner_name := "J";
     status := "toss"; chat_id := chat_id; mode := "classic";
     max_wickets := 10; max_overs := 5; ranked_match := false;
     player1_rating := None; player2_rating := None |}.

(** The three players of [three_waiting] wait; player 11 is also the
    joiner of an unranked game that player 15 created in chat -1001. *)
Definition waiting_in_unranked_game : state :=
  {| games := {[ "1001_4711" := unranked_game "15" "11" (-1001) ]};
     ranked_queue := ranked_queue Examples.three_waiting;
     queue_search_tasks := queue_search_tasks Examples.three_waiting;
     user_queue_cooldown := ∅;
     ranked_queue_rows := ranked_queue_rows Examples.three_waiting |}.

(** A challenge cooldown of player 14 towards player 11 that expires half
    a second after the clock reading 40. *)
Definition db_cooldown_last_second : Db.t :=
  {| Db.career_stats := ∅; Db.match_patterns := ∅;
     Db.suspicious_activities := []; Db.match_history_detailed := [];
     Db.ranked_matches := [];
     Db.challenge_cooldowns := {[ (14, 11) := {| Db.expires_at := 500040 |} ]};
     Db.pending_challenges := ∅ |}.

End QueueExamples.

(** ** Concrete input for the audit trail of a settlement *)
Module AuditExamples.
Local Open Scope string_scope.
Local Open Scope Z_scope.

(** Players 1 and 2, both rated 1000, have played five matches, all of
    them against each other within the last 24 hours, and have two flags
    each on record. *)
Definition db_rematch : Db.t :=
  let met :=
    {| Db.p_total_matches := 5; Db.p_wins := 3; Db.p_losses := 2;
       Db.matches_last_24h := 5; Db.is_flagged := false |} in
  let flagged (user opponent : Z) : Db.activity :=
    {| Db.a_user_id := user; Db.activity_type := "opponent_frequency";
       Db.a_opponent_id := Some opponent; Db.details := inr "";
       Db.trust_score_impact := -20; Db.cleared := false |} in
  {| Db.career_stats :=
       {[ 1 := Examples.career_row 1000 "Silver III" 5 false None;
          2 := Examples.career_row 1000 "Silver III" 5 false None ]};
     Db.match_patterns := {[ (1, 2) := met; (2, 1) := met ]};
     Db.suspicious_activities :=
       [ flagged 1 2; flagged 1 2; flagged 2 1; flagged 2 1 ];
     Db.match_history_detailed := [];
     Db.ranked_matches := [];
     Db.challenge_cooldowns := ∅;
     Db.pending_challenges := ∅ |}.

End AuditExamples.

(* ================================================================== *)
(** * Part II: properties                                              *)
(* ================================================================== *)

Import Py Rating.

(** ** Tier lookup *)
Section TierLookup.
Local Open Scope string_scope.
Local Open Scope Z_scope.

Lemma band_mono bounds r1 r2 : r1 <= r2 -> (band bounds r1 <= band bounds r2)%nat.
Proof.
  intros Hle. unfold band. induction bounds as [|b bs IH]; simpl; [lia|].
  destruct (Z.leb_spec b r1), (Z.leb_spec b r2); simpl; lia.
Qed.

Lemma band_below bounds r :
  Forall (fun b => r < b) bounds -> band bounds r = 0%nat.
Proof.
  unfold band. induction 1 as [|b bs Hb _ IH]; simpl; [reflexivity|].
  destruct (Z.leb_spec b r); [lia | exact IH].
Qed.

Lemma band_label_nth bounds : forall labels r,
  StronglySorted Z.lt bounds ->
  band_label bounds labels r = nth (band bounds r) labels "".
Proof.
  induction bounds as [|b bs IH]; intros labels r Hs.
  - destruct labels; reflexivity.
  - destruct labels as [|l ls]; [destruct (band (b :: bs) r); reflexivity|].
    apply StronglySorted_inv in Hs as [Hs Hb]. simpl band_label.
    destruct (Z.ltb_spec r b) as [Hlt|Hge].
    + rewrite band_below; [reflexivity|].
      constructor; [exact Hlt|]. eapply List.Forall_impl; [|exact Hb].
      simpl; intros; lia.
    + unfold band; simpl. destruct (Z.leb_spec b r); [|lia]. simpl.
      apply IH, Hs.
Qed.

Lemma sorted_by_check (l : list Z) :
  (forallb (fun p => fst p <? snd p) (combine l (tl l)) = true) ->
  StronglySorted Z.lt l.
Proof.
  induction l as [|a l IH]; intros H; [constructor|].
  destruct l as [|b l]; [repeat constructor|].
  simpl in H. apply andb_true_iff in H as [Hab H].
  apply Z.ltb_lt in Hab. specialize (IH H).
  constructor; [exact IH|].
  constructor; [exact Hab|].
  apply StronglySorted_inv in IH as [_ Hb].
  eapply List.Forall_impl; [|exact Hb]. simpl; intros; lia.
Qed.

Lemma band_le_length bounds r : (band bounds r <= List.length bounds)%nat.
Proof.
  unfold band. induction bounds as [|b bs IH]; simpl; [lia|].
  destruct (b <=? r); simpl; lia.
Qed.

Lemma get_rank_tier_band r :
  get_rank_tier r = nth (band rank_tier_bounds r) rank_tier_labels "".
Proof.
  rewrite <- band_label_nth by (apply sorted_by_check; reflexivity).
  reflexivity.
Qed.

Lemma get_rank_from_rating_band r :
  get_rank_from_rating r =
  nth (band rank_from_rating_bounds r) rank_from_rating_labels "".
Proof.
  rewrite <- band_label_nth by (apply sorted_by_check; reflexivity).
  reflexivity.
Qed.

(** Each label stands at its own position: the labels are distinct. *)
Lemma index_of_nth_check (labels : list string) (i : nat) :
  forallb (fun j => Nat.eqb (index_of (nth j labels "") labels) j)
          (seq 0 (List.length labels)) = true ->
  (i < List.length labels)%nat ->
  index_of (nth i labels "") labels = i.
Proof.
  intros Hall Hi. rewrite forallb_forall in Hall.
  apply Nat.eqb_eq, Hall, in_seq. lia.
Qed.

Lemma tier_level_band r : tier_level (get_rank_tier r) = band rank_tier_bounds r.
Proof.
  rewrite get_rank_tier_band. unfold tier_level.
  apply index_of_nth_check; [vm_compute; reflexivity|].
  pose proof (band_le_length rank_tier_bounds r) as H.
  change (List.length rank_tier_bounds) with 21%nat in H.
  change (List.length rank_tier_labels) with 22%nat. lia.
Qed.

Lemma rank_level_band r :
  rank_level (get_rank_from_rating r) = band rank_from_rating_bounds r.
Proof.
  rewrite get_rank_from_rating_band. unfold rank_level.
  apply index_of_nth_check; [vm_compute; reflexivity|].
  pose proof (band_le_length rank_from_rating_bounds r) as H.
  change (List.length rank_from_rating_bounds) with 24%nat in H.
  change (List.length rank_from_rating_labels) with 25%nat. lia.
Qed.

End TierLookup.

Section TierClaims.
Local Open Scope string_scope.
Local Open Scope Z_scope.

Lemma get_rank_tier_in r : In (get_rank_tier r) rank_tier_labels.
Proof.
  rewrite get_rank_tier_band. apply nth_In.
  pose proof (band_le_length rank_tier_bounds r) as H.
  change (List.length rank_tier_bounds) with 21%nat in H.
  change (List.length rank_tier_labels) with 22%nat. lia.
Qed.

Lemma get_rank_from_rating_in r :
  In (get_rank_from_rating r) rank_from_rating_labels.
Proof.
  rewrite get_rank_from_rating_band. apply nth_In.
  pose proof (band_le_length rank_from_rating_bounds r) as H.
  change (List.length rank_from_rating_bounds) with 24%nat in H.
  change (List.length rank_from_rating_labels) with 25%nat. lia.
Qed.

(** C9, as stated, fails for [get_rank_from_rating]: the negative rating
    [-1] is mapped to ["Unranked"], not to the lowest tier ["Bronze I"]. *)
Lemma rank_lookup_negative_counterexample :
  -1 < 0 /\ get_rank_from_rating (-1) = "Unranked" /\
  get_rank_from_rating (-1) <> "Bronze I".
Proof. split; [lia|]. split; [reflexivity|]. discriminate. Qed.

(** C9 (amended): both rating-to-tier lookups are total (every integer is
    mapped to a label of the band table) and monotonic non-decreasing in
    the rating with respect to the order of that table; [get_rank_tier]
    maps every negative rating to its lowest label, Bronze I, while
    [get_rank_from_rating] maps every negative rating to the separate
    lowest label ["Unranked"], which stands below Bronze I. *)
Theorem rank_lookup_total_monotone (r1 r2 : Z) (Hle : r1 <= r2) :
  In (get_rank_tier r1) rank_tier_labels /\
  In (get_rank_from_rating r1) rank_from_rating_labels /\
  (tier_level (get_rank_tier r1) <= tier_level (get_rank_tier r2))%nat /\
  (rank_level (get_rank_from_rating r1)
     <= rank_level (get_rank_from_rating r2))%nat /\
  (r1 < 0 ->
     get_rank_tier r1 = "🥉 Bronze I" /\
     tier_level (get_rank_tier r1) = 0%nat /\
     get_rank_from_rating r1 = "Unranked" /\
     rank_level (get_rank_from_rating r1) = 0%nat /\
     rank_level "Bronze I" = 1%nat).
Proof.
  split; [apply get_rank_tier_in|].
  split; [apply get_rank_from_rating_in|].
  split; [rewrite !tier_level_band; apply band_mono, Hle|].
  split; [rewrite !rank_level_band; apply band_mono, Hle|].
  intros Hneg.
  assert (Ht : get_rank_tier r1 = "🥉 Bronze I").
  { unfold get_rank_tier. destruct (Z.ltb_spec r1 200); [reflexivity|lia]. }
  assert (Hr : get_rank_from_rating r1 = "Unranked").
  { unfold get_rank_from_rating. destruct (Z.ltb_spec r1 0); [reflexivity|lia]. }
  rewrite Ht, Hr. repeat split; reflexivity.
Qed.

Lemma rank_lookup_total_monotone_witness :
  -5 <= 1300 /\
  (tier_level (get_rank_tier (-5)) <= tier_level (get_rank_tier 1300))%nat /\
  get_rank_from_rating (-5) = "Unranked".
Proof.
  split; [lia|].
  destruct (rank_lookup_total_monotone (-5) 1300 ltac:(lia))
    as (_ & _ & Hm & _ & Hneg).
  split; [exact Hm|]. apply Hneg. lia.
Defined.

End TierClaims.

(** ** Streak bonus *)
Section StreakBonus.
Local Open Scope string_scope.
Local Open Scope Z_scope.

(** The bonus that a winner out of placement is paid for a streak. *)
Lemma calculate_win_streak_bonus_unfold streak label winner total :
  calculate_win_streak_bonus streak label winner total =
  if negb winner then 0 else
  if total <? 5 then 0 else
  if (let rank_lower := lower label in
      py_in "platinum" rank_lower || py_in "diamond" rank_lower
      || py_in "ruby" rank_lower || py_in "immortal" rank_lower)
  then 0
  else if streak >=? 5 then 4 else if streak >=? 3 then 2 else 0.
Proof. reflexivity. Qed.

(** On a closed tier label the substring tests compute. *)
Ltac decide_tier_test :=
  match goal with
  | |- (if ?c then _ else _) = _ =>
      let v := eval vm_compute in c in change c with v; cbv iota
  end.

(** The tier labels of both lookups, by family. *)
Lemma streak_bonus_by_tier_family :
  let paid streak winner total :=
    if winner && (5 <=? total)
    then if streak >=? 5 then 4 else if streak >=? 3 then 2 else 0
    else 0 in
  let below_platinum :=
    (firstn 9 rank_tier_labels ++ firstn 10 rank_from_rating_labels)%list in
  let master_grandmaster :=
    (firstn 6 (skipn 15 rank_tier_labels)
     ++ firstn 6 (skipn 16 rank_from_rating_labels))%list in
  let platinum_diamond_immortal :=
    (firstn 6 (skipn 9 rank_tier_labels) ++ skipn 21 rank_tier_labels
     ++ firstn 6 (skipn 10 rank_from_rating_labels)
     ++ skipn 22 rank_from_rating_labels)%list in
  Forall (fun label => forall streak winner total,
            calculate_win_streak_bonus streak label winner total
            = paid streak winner total)
    (below_platinum ++ master_grandmaster)%list /\
  Forall (fun label => forall streak winner total,
            calculate_win_streak_bonus streak label winner total = 0)
    platinum_diamond_immortal.
Proof.
  cbv zeta. split.
  - repeat (apply Forall_cons_2 || apply Forall_nil_2);
      intros streak winner total; rewrite calculate_win_streak_bonus_unfold;
      (destruct winner; cbn [negb andb]; [|reflexivity]);
      rewrite Z.ltb_antisym;
      (destruct (5 <=? total); cbn [negb]; [|reflexivity]);
      decide_tier_test; reflexivity.
  - repeat (apply Forall_cons_2 || apply Forall_nil_2);
      intros streak winner total; rewrite calculate_win_streak_bonus_unfold;
      (destruct winner; cbn [negb]; [|reflexivity]);
      (destruct (total <? 5); [reflexivity|]);
      decide_tier_test; reflexivity.
Qed.

(** C2 (evaluation at the failing input): a winner in Master I (rating
    3000, above Platinum) with a streak of 5 and 10 ranked matches is paid
    the full streak bonus of 4, with either tier label; so is one in
    Grandmaster II, while one in Platinum I is paid nothing. *)
Theorem streak_bonus_master_tier :
  get_rank_from_rating 3000 = "Master I" /\
  calculate_win_streak_bonus 5 (get_rank_from_rating 3000) true 10 = 4 /\
  calculate_win_streak_bonus 5 (get_rank_tier 3000) true 10 = 4 /\
  calculate_win_streak_bonus 5 "Grandmaster II" true 10 = 4 /\
  calculate_win_streak_bonus 5 "Platinum I" true 10 = 0.
Proof. repeat split; vm_compute; reflexivity. Qed.

End StreakBonus.

(** ** ELO delta *)
Section Elo.
Local Open Scope Z_scope.

Lemma expected_score_equal r : expected_score r r = (1 / 2)%R.
Proof.
  unfold expected_score.
  replace ((IZR r - IZR r) / 400)%R with 0%R by lra.
  rewrite Rpower_O by lra. lra.
Qed.

Lemma Int_part_half_nonneg k :
  0 <= k -> Int_part (IZR k / 2) = Z.quot k 2.
Proof.
  intros Hk. symmetry. apply Int_part_spec.
  pose proof (Z.quot_rem' k 2) as Hqr.
  pose proof (Z.rem_bound_pos k 2 Hk ltac:(lia)) as Hr.
  assert (Hk2 : IZR k = (2 * IZR (Z.quot k 2) + IZR (Z.rem k 2))%R).
  { rewrite <- mult_IZR, <- plus_IZR. f_equal. exact Hqr. }
  assert (H0 : (0 <= IZR (Z.rem k 2))%R) by (apply IZR_le; lia).
  assert (H1 : (IZR (Z.rem k 2) <= 1)%R) by (apply IZR_le; lia).
  rewrite Hk2. split; lra.
Qed.

(** [int(k / 2.0)] is the quotient truncated toward zero. *)
Lemma py_int_R_half k : py_int_R (IZR k / 2) = Z.quot k 2.
Proof.
  unfold py_int_R. destruct (Rlt_dec (IZR k / 2) 0) as [Hneg|Hpos].
  - assert (Hk : k < 0).
    { apply lt_IZR. lra. }
    replace (- (IZR k / 2))%R with (IZR (- k) / 2)%R
      by (rewrite opp_IZR; lra).
    rewrite Int_part_half_nonneg by lia.
    rewrite Z.quot_opp_l by lia. lia.
  - apply Int_part_half_nonneg. apply le_IZR. lra.
Qed.

Lemma calculate_elo_change_equal r k winner :
  winner <> 0 ->
  calculate_elo_change r r winner k =
  if winner =? 1 then (Z.quot k 2, Z.quot (- k) 2)
  else (Z.quot (- k) 2, Z.quot k 2).
Proof.
  intros Hw. unfold calculate_elo_change, actual_scores.
  rewrite expected_score_equal.
  destruct (Z.eqb_spec winner 0) as [|_]; [contradiction|].
  destruct (Z.eqb_spec winner 1) as [_|_].
  - replace (IZR k * (1 - 1 / 2))%R with (IZR k / 2)%R by lra.
    replace (IZR k * (0 - 1 / 2))%R with (IZR (- k) / 2)%R
      by (rewrite opp_IZR; lra).
    now rewrite !py_int_R_half.
  - replace (IZR k * (1 - 1 / 2))%R with (IZR k / 2)%R by lra.
    replace (IZR k * (0 - 1 / 2))%R with (IZR (- k) / 2)%R
      by (rewrite opp_IZR; lra).
    now rewrite !py_int_R_half.
Qed.

(** C8: at equal ratings and one K-factor, with a decisive winner, the two
    deltas of [calculate_elo_change] are [k * (actual - expected)]
    truncated toward zero, that is [k quot 2] for the winner and
    [(-k) quot 2] for the loser, and the winner's delta is the negation of
    the loser's. *)
Theorem elo_equal_ratings_zero_sum (r k winner : Z) (Hw : winner <> 0) :
  let '(change1, change2) := calculate_elo_change r r winner k in
  let '(actual1, actual2) := actual_scores winner in
  change1 = py_int_R (IZR k * (actual1 - expected_score r r)) /\
  change2 = py_int_R (IZR k * (actual2 - expected_score r r)) /\
  expected_score r r = (1 / 2)%R /\
  (if winner =? 1
   then change1 = Z.quot k 2 /\ change2 = Z.quot (- k) 2
   else change2 = Z.quot k 2 /\ change1 = Z.quot (- k) 2) /\
  change1 = - change2.
Proof.
  pose proof (calculate_elo_change_equal r k winner Hw) as Heq.
  unfold calculate_elo_change in *.
  destruct (actual_scores winner) as [a1 a2].
  split; [reflexivity|]. split; [reflexivity|].
  split; [apply expected_score_equal|].
  rewrite Z.quot_opp_l in Heq by lia.
  rewrite Z.quot_opp_l by lia.
  destruct (winner =? 1); injection Heq as -> ->; repeat split; lia.
Qed.

Lemma elo_equal_ratings_zero_sum_witness :
  calculate_elo_change 1200 1200 1 33 = (16, -16).
Proof.
  pose proof (elo_equal_ratings_zero_sum 1200 33 1 ltac:(lia)) as H.
  destruct (calculate_elo_change 1200 1200 1 33) as [c1 c2].
  simpl in H. destruct H as (_ & _ & _ & (H1 & H2) & _).
  rewrite H1, H2. reflexivity.
Defined.

End Elo.

(** ** PatternDetector *)
Section PatternDetector.
Import AntiCheat.
Import Db(reason, NoReason, MatchesIn24h, SameOpponentShare, BalancedRecord).
Local Open Scope string_scope.
Local Open Scope Z_scope.

(** C3, as stated, fails: player 1 has 10 matches of their own, half of
    them against player 2 (share 0.5 >= 0.30), and the frequency rule does
    not fire, yet [check_match_patterns] reports nothing, because the pair
    has met only 5 times. *)
Lemma dominance_rule_counterexample :
  (exists pattern stats,
     Db.match_patterns Examples.db_half_share !! (1, 2) = Some pattern /\
     Db.career_stats Examples.db_half_share !! 1 = Some stats /\
     Db.matches_last_24h pattern < SUSPICIOUS_OPPONENT_FREQUENCY /\
     Db.total_matches stats >= 10 /\
     (0.30 <= truediv (Db.p_total_matches pattern) (Db.total_matches stats))%Q) /\
  fst (fst (check_match_patterns Examples.db_half_share 1 2)) = false /\
  snd (fst (check_match_patterns Examples.db_half_share 1 2)) = NoReason.
Proof.
  split.
  - eexists _, _. split; [vm_compute; reflexivity|].
    split; [vm_compute; reflexivity|].
    repeat split; vm_compute; congruence.
  - split; vm_compute; reflexivity.
Qed.

(** C3 (amended): [check_match_patterns] returns suspicious with the
    opponent-percentage reason exactly when a pair record exists, the
    frequency rule did not fire, the player has a career row with a
    positive total match count, the pair record's total matches is at
    least 10, and the pair total divided by the player's total is at
    least 0.30. *)
Theorem dominance_rule_fires_iff (db : Db.t) (player opponent : Z) :
  (exists share data,
     check_match_patterns db player opponent
       = (true, SameOpponentShare share, data)) <->
  (exists pattern stats,
     Db.match_patterns db !! (player, opponent) = Some pattern /\
     Db.career_stats db !! player = Some stats /\
     Db.matches_last_24h pattern < SUSPICIOUS_OPPONENT_FREQUENCY /\
     Db.total_matches stats > 0 /\
     Db.p_total_matches pattern >= 10 /\
     (0.30 <= truediv (Db.p_total_matches pattern) (Db.total_matches stats))%Q).
Proof.
  unfold check_match_patterns, SUSPICIOUS_OPPONENT_FREQUENCY,
    SUSPICIOUS_OPPONENT_PERCENTAGE.
  destruct (Db.match_patterns db !! (player, opponent)) as [pattern|];
    [|split; [intros (? & ? & [=])|intros (? & ? & [=] & _)]].
  destruct (Z.geb_spec (Db.matches_last_24h pattern) 5) as [H24|H24].
  { split; [intros (? & ? & [=])|].
    intros (p' & ? & [= <-] & _ & ? & _). lia. }
  set (check3 := if (_ >=? 6) && _ then _ else _).
  assert (Hc3 : forall share data, check3 <> (true, SameOpponentShare share, data)).
  { intros share data. subst check3.
    destruct ((_ >=? 6) && _); discriminate. }
  destruct (Db.career_stats db !! player) as [stats|];
    [|split; [intros (? & ? & Heq); now apply Hc3 in Heq
             |intros (? & ? & _ & [=] & _)]].
  destruct (Z.gtb_spec (Db.total_matches stats) 0) as [Hpos|Hpos].
  2:{ split; [intros (? & ? & Heq); now apply Hc3 in Heq|].
      intros (? & s' & _ & [= <-] & _ & ? & _). lia. }
  destruct (Qle_bool 0.30 _) eqn:Hshare; simpl.
  - destruct (Z.geb_spec (Db.p_total_matches pattern) 10) as [Hten|Hten].
    + split; [intros _|intros _; eauto].
      exists pattern, stats. repeat split; try lia.
      now apply Qle_bool_iff.
    + split; [intros (? & ? & Heq); now apply Hc3 in Heq|].
      intros (p' & ? & [= <-] & _ & _ & _ & ? & _). lia.
  - split; [intros (? & ? & Heq); now apply Hc3 in Heq|].
    intros (p' & s' & [= <-] & [= <-] & _ & _ & _ & Hle).
    apply Qle_bool_iff in Hle. congruence.
Qed.

Lemma dominance_rule_fires_iff_witness :
  exists share data,
    check_match_patterns Examples.db_frequent_pair 1 2
      = (true, SameOpponentShare share, data).
Proof.
  apply (proj2 (dominance_rule_fires_iff Examples.db_frequent_pair 1 2)).
  eexists _, _. split; [vm_compute; reflexivity|].
  split; [vm_compute; reflexivity|].
  repeat split; vm_compute; congruence.
Defined.

(** *** Win trading *)

Lemma winner_differs_spec a b : winner_differs a b = true <-> a <> b.
Proof.
  destruct a as [x|], b as [y|]; simpl; try (split; congruence).
  destruct (Z.eqb_spec x y); simpl; split; congruence.
Qed.

Lemma alt_run_weaken n m l : (m <= n)%nat -> alt_run n l -> alt_run m l.
Proof.
  revert m l. induction n as [|n IH]; intros m l Hle Hrun.
  - now replace m with 0%nat by lia.
  - destruct m as [|m]; [exact I|].
    destruct l as [|a [|b t]]; try contradiction.
    destruct Hrun as [Hab Hrun]. split; [exact Hab|].
    apply IH; [lia|exact Hrun].
Qed.

Lemma alternating_window_run l : alt_run 3 l -> alternating_window l.
Proof.
  destruct l as [|a [|b [|c [|d post]]]]; simpl; try tauto.
  intros (Hab & Hbc & Hcd & _). exists [], a, b, c, d, post. auto.
Qed.

Lemma alternating_window_cons a l :
  alternating_window (a :: l) <-> alt_run 3 (a :: l) \/ alternating_window l.
Proof.
  split.
  - intros ([|x pre] & a' & b & c & d & post & Heq & Hab & Hbc & Hcd).
    + left. simpl in Heq. injection Heq as -> ->. simpl. auto.
    + right. simpl in Heq. injection Heq as -> ->.
      exists pre, a', b, c, d, post. auto.
  - intros [Hrun|(pre & a' & b & c & d & post & -> & H)].
    + now apply alternating_window_run.
    + exists (a :: pre), a', b, c, d, post. auto.
Qed.

Lemma alternating_window_short l :
  (List.length l < 4)%nat -> ~ alternating_window l.
Proof.
  intros Hlen (pre & a & b & c & d & post & -> & _).
  rewrite length_app in Hlen. simpl in Hlen. lia.
Qed.

(** The loop entered with [count] alternations already seen returns
    [True] exactly when the run continues to three pairs or a fresh
    window follows. *)
Lemma scan_alternating_spec l : forall count,
  0 <= count < 3 ->
  (is_Some (scan_alternating count l) <->
   alt_run (Z.to_nat (3 - count)) l \/ alternating_window l).
Proof.
  induction l as [|a l IH]; intros count Hc.
  - simpl. split; [intros [? [=]]|].
    replace (Z.to_nat (3 - count)) with (S (Z.to_nat (2 - count))) by lia.
    intros [[]|H]. now apply alternating_window_short in H; [|simpl; lia].
  - destruct l as [|b t].
    + simpl. split; [intros [? [=]]|].
      replace (Z.to_nat (3 - count)) with (S (Z.to_nat (2 - count))) by lia.
      intros [[]|H]. now apply alternating_window_short in H; [|simpl; lia].
    + cbn [scan_alternating]. unfold WIN_TRADING_CONSECUTIVE_THRESHOLD.
      replace (Z.to_nat (3 - count)) with (S (Z.to_nat (2 - count))) by lia.
      rewrite alternating_window_cons.
      destruct (winner_differs a b) eqn:Hd.
      * apply winner_differs_spec in Hd.
        destruct (Z.geb_spec (count + 1) 3) as [Hge|Hlt].
        -- split; [intros _|intros _; eauto].
           left. replace (Z.to_nat (2 - count)) with 0%nat by lia.
           simpl. auto.
        -- rewrite (IH (count + 1)) by lia.
           replace (3 - (count + 1)) with (2 - count) by lia.
           cbn [alt_run]. split.
           ++ intros [Hrun|Hw]; [left; auto|right; right; exact Hw].
           ++ intros [[_ Hrun]|[[_ Hrun]|Hw]]; [left; exact Hrun| |right; exact Hw].
              left. apply (alt_run_weaken 2); [lia|exact Hrun].
      * assert (Hab : a = b).
        { destruct (winner_differs a b) eqn:E; [discriminate|].
          destruct a as [x|], b as [y|]; simpl in E; try discriminate; auto.
          destruct (Z.eqb_spec x y); [congruence|discriminate]. }
        simpl (0 >=? 3). cbv iota.
        rewrite (IH 0) by lia. cbn [alt_run]. split.
        -- intros [Hrun|Hw]; [|right; right; exact Hw].
           right; right. now apply alternating_window_run.
        -- intros [[Hne _]|[[Hne _]|Hw]]; try contradiction.
           right; exact Hw.
Qed.

Lemma sorted_by_length {A} (key : A -> Z) (l : list A) :
  List.length (sorted_by key l) = List.length l.
Proof.
  assert (Hins : forall x s, List.length (insert_by key x s) = S (List.length s)).
  { intros x s. induction s as [|y s IHs]; simpl; [reflexivity|].
    destruct (key x <=? key y); simpl; [reflexivity|]. now rewrite IHs. }
  induction l as [|x l IHl]; simpl; [reflexivity|]. now rewrite Hins, IHl.
Qed.

(** C7: over the last up-to-10 head-to-head matches, newest first,
    [detect_win_trading] returns true exactly when the winner alternates
    across at least 3 consecutive adjacent pairs; it returns false
    whenever fewer than 3 such matches exist; on winners [A,B,A,B] it
    returns true with the detail "4 consecutive", on [A,A,A,A] false. *)
Theorem detect_win_trading_alternation (db : Db.t) (playerA playerB : Z) :
  let matches := head_to_head db playerA playerB in
  (List.length matches <= 10)%nat /\
  (fst (detect_win_trading db playerA playerB) = true
     <-> alternating_window matches) /\
  ((List.length matches < 3)%nat ->
     detect_win_trading db playerA playerB = (false, "")) /\
  (forall a b, a <> b -> matches = [a; b; a; b] ->
     detect_win_trading db playerA playerB
       = (true, "Alternating wins detected (4 consecutive)")) /\
  (forall a, matches = [a; a; a; a] ->
     detect_win_trading db playerA playerB = (false, "")).
Proof.
  intros matches. split.
  { subst matches. unfold head_to_head. rewrite length_map, length_firstn. lia. }
  assert (Hshort : (List.length matches < 3)%nat ->
                   detect_win_trading db playerA playerB = (false, "")).
  { intros Hlen. unfold detect_win_trading. fold matches.
    unfold WIN_TRADING_CONSECUTIVE_THRESHOLD.
    destruct (Z.ltb_spec (Z.of_nat (List.length matches)) 3); [reflexivity|lia]. }
  split; [|split; [exact Hshort|split]].
  - pose proof (scan_alternating_spec matches 0 ltac:(lia)) as Hscan.
    change (Z.to_nat (3 - 0)) with 3%nat in Hscan.
    unfold detect_win_trading. fold matches.
    unfold WIN_TRADING_CONSECUTIVE_THRESHOLD.
    destruct (Z.ltb_spec (Z.of_nat (List.length matches)) 3) as [Hlt|Hge].
    + simpl. split; [discriminate|]. intros Hw.
      apply alternating_window_short in Hw; [contradiction|lia].
    + destruct (scan_alternating 0 matches) as [n|] eqn:Hs; simpl.
      * split; [intros _|reflexivity].
        destruct (proj1 Hscan ltac:(eauto)) as [Hrun|Hw]; [|exact Hw].
        now apply alternating_window_run.
      * split; [discriminate|]. intros Hw.
        destruct (proj2 Hscan (or_intror Hw)) as [? [=]].
  - intros a b Hab Heq. unfold detect_win_trading. fold matches. rewrite Heq.
    cbn [List.length Z.of_nat scan_alternating].
    assert (Hd1 : winner_differs a b = true) by now apply winner_differs_spec.
    assert (Hd2 : winner_differs b a = true)
      by (apply winner_differs_spec; congruence).
    rewrite Hd1, Hd2. reflexivity.
  - intros a Heq. unfold detect_win_trading. fold matches. rewrite Heq.
    cbn [List.length Z.of_nat scan_alternating].
    assert (Hd : winner_differs a a = false).
    { destruct (winner_differs a a) eqn:E; [|reflexivity].
      apply winner_differs_spec in E. congruence. }
    rewrite Hd. reflexivity.
Qed.

Lemma detect_win_trading_alternation_witness :
  head_to_head Examples.db_alternating 1 2 = [Some 2; Some 1; Some 2; Some 1] /\
  detect_win_trading Examples.db_alternating 1 2
    = (true, "Alternating wins detected (4 consecutive)") /\
  head_to_head Examples.db_one_sided 1 2 = [Some 1; Some 1; Some 1; Some 1] /\
  detect_win_trading Examples.db_one_sided 1 2 = (false, "").
Proof.
  assert (H1 : head_to_head Examples.db_alternating 1 2
               = [Some 2; Some 1; Some 2; Some 1]) by (vm_compute; reflexivity).
  assert (H2 : head_to_head Examples.db_one_sided 1 2
               = [Some 1; Some 1; Some 1; Some 1]) by (vm_compute; reflexivity).
  split; [exact H1|]. split.
  - destruct (detect_win_trading_alternation Examples.db_alternating 1 2)
      as (_ & _ & _ & Halt & _).
    apply (Halt (Some 2) (Some 1)); [discriminate|exact H1].
  - split; [exact H2|].
    destruct (detect_win_trading_alternation Examples.db_one_sided 1 2)
      as (_ & _ & _ & _ & Hsame).
    apply (Hsame (Some 1)). exact H2.
Defined.

End PatternDetector.

(** ** MatchmakingQueue *)
Section Matchmaking.
Import AntiCheat Queue.
Local Open Scope string_scope.
Local Open Scope Z_scope.

Context {A : Type} (key : A -> Z).

Lemma insert_by_perm x l : Permutation (insert_by key x l) (x :: l).
Proof.
  induction l as [|y l IH]; simpl; [reflexivity|].
  destruct (key x <=? key y); [reflexivity|].
  rewrite IH. apply perm_swap.
Qed.

Lemma sorted_by_perm l : Permutation (sorted_by key l) l.
Proof.
  induction l as [|x l IH]; simpl; [reflexivity|].
  rewrite insert_by_perm. now constructor.
Qed.

Lemma insert_by_sorted x l :
  StronglySorted (key_le key) l -> StronglySorted (key_le key) (insert_by key x l).
Proof.
  induction 1 as [|y l Hs IH Hy]; simpl; [repeat constructor|].
  destruct (Z.leb_spec (key x) (key y)) as [Hle|Hgt].
  - constructor; [now constructor|].
    constructor; [exact Hle|].
    eapply List.Forall_impl; [|exact Hy].
    unfold key_le; intros; lia.
  - constructor; [exact IH|].
    rewrite insert_by_perm. constructor; [unfold key_le; lia|exact Hy].
Qed.

Lemma sorted_by_sorted l : StronglySorted (key_le key) (sorted_by key l).
Proof.
  induction l as [|x l IH]; simpl; [constructor|].
  now apply insert_by_sorted.
Qed.

(** In a sorted list [find] returns an element of least key among those
    that satisfy the test. *)
Lemma find_sorted_least (f : A -> bool) l x :
  StronglySorted (key_le key) l -> List.find f l = Some x ->
  forall y, In y l -> f y = true -> key x <= key y.
Proof.
  induction 1 as [|a l Hs IH Ha]; simpl; [discriminate|].
  destruct (f a) eqn:Hfa.
  - intros [= <-] y [<-|Hy] _; [lia|].
    rewrite List.Forall_forall in Ha. now apply Ha.
  - intros Hfind y [<-|Hy] Hfy; [congruence|]. now apply IH.
Qed.

End Matchmaking.

Section FindOpponent.
Import AntiCheat Queue.
Local Open Scope string_scope.
Local Open Scope Z_scope.

Variables (st : state) (db : Db.t) (now user_id user_rating : Z).

Lemma search_queue_find l :
  search_queue st db now user_id user_rating l =
  option_map (fun c => opponent_of (fst c) (snd c))
    (List.find (passes_search_tests st db now user_id user_rating) l).
Proof.
  induction l as [|[oid odata] l IH]; [reflexivity|].
  cbn [search_queue List.find]. unfold passes_search_tests at 1. cbn [fst snd].
  destruct (oid =? user_id); [exact IH|].
  destruct (in_any_game (games st) oid); [exact IH|].
  destruct (Z.gtb_spec (check_challenge_cooldown db now user_id oid) 0) as [H1|H1];
    [destruct (Z.leb_spec (check_challenge_cooldown db now user_id oid) 0);
       [lia|exact IH]|].
  destruct (Z.leb_spec (check_challenge_cooldown db now user_id oid) 0); [|lia].
  destruct (Z.gtb_spec (check_challenge_cooldown db now oid user_id) 0) as [H2|H2];
    [destruct (Z.leb_spec (check_challenge_cooldown db now oid user_id) 0);
       [lia|exact IH]|].
  destruct (Z.leb_spec (check_challenge_cooldown db now oid user_id) 0); [|lia].
  cbn [negb andb].
  destruct ((_ <=? rating odata) && (rating odata <=? _)); [reflexivity|exact IH].
Qed.

(** The search returns the queued candidate of least [joined_at] among
    those that pass the tests of the loop, and [None] exactly when no
    candidate passes.  In particular, of three passing entries joined at
    t1 < t2 < t3 the first is returned. *)
Lemma find_ranked_opponent_fifo :
  let found := find_ranked_opponent st db now user_id user_rating in
  let ok := passes_search_tests st db now user_id user_rating in
  (forall opponent, found = Some opponent ->
     exists entry,
       In (pd_user_id opponent, entry) (ranked_queue st) /\
       opponent = opponent_of (pd_user_id opponent) entry /\
       ok (pd_user_id opponent, entry) = true /\
       forall c, In c (ranked_queue st) -> ok c = true ->
                 joined_at entry <= joined_at (snd c)) /\
  (found = None <-> forall c, In c (ranked_queue st) -> ok c = false) /\
  (forall e1 e2 e3,
     Permutation (ranked_queue st) [e1; e2; e3] ->
     ok e1 = true -> ok e2 = true -> ok e3 = true ->
     joined_at (snd e1) < joined_at (snd e2) < joined_at (snd e3) ->
     found = Some (opponent_of (fst e1) (snd e1))).
Proof.
  intros found ok.
  set (byTime := fun x : Z * queue_entry => joined_at (snd x)).
  assert (Hfound : found = option_map (fun c => opponent_of (fst c) (snd c))
                             (List.find ok (sorted_by byTime (ranked_queue st)))).
  { apply search_queue_find. }
  pose proof (sorted_by_perm byTime (ranked_queue st)) as Hperm.
  assert (Hsome : forall opponent, found = Some opponent ->
     exists entry,
       In (pd_user_id opponent, entry) (ranked_queue st) /\
       opponent = opponent_of (pd_user_id opponent) entry /\
       ok (pd_user_id opponent, entry) = true /\
       forall c, In c (ranked_queue st) -> ok c = true ->
                 joined_at entry <= joined_at (snd c)).
  { intros opponent Hres. rewrite Hfound in Hres.
    destruct (List.find ok _) as [[oid entry]|] eqn:Hfind; [|discriminate].
    injection Hres as <-. cbn [fst snd opponent_of pd_user_id].
    destruct (find_some _ _ Hfind) as [Hin Hok].
    exists entry. split; [eapply Permutation_in; [exact Hperm|exact Hin]|].
    split; [reflexivity|]. split; [exact Hok|].
    intros c Hc Hokc.
    apply (find_sorted_least byTime ok _ (oid, entry)
             (sorted_by_sorted byTime _) Hfind c); [|exact Hokc].
    eapply Permutation_in; [symmetry; exact Hperm|exact Hc]. }
  assert (Hnone : found = None <->
                  forall c, In c (ranked_queue st) -> ok c = false).
  { rewrite Hfound. split.
    - intros Hres c Hc.
      destruct (List.find ok _) eqn:Hfind; [discriminate|].
      apply (find_none _ _ Hfind).
      eapply Permutation_in; [symmetry; exact Hperm|exact Hc].
    - intros Hall. destruct (List.find ok _) as [c|] eqn:Hfind; [|reflexivity].
      destruct (find_some _ _ Hfind) as [Hin Hok].
      rewrite Hall in Hok; [discriminate|].
      eapply Permutation_in; [exact Hperm|exact Hin]. }
  split; [exact Hsome|]. split; [exact Hnone|].
  intros e1 e2 e3 Hq Hok1 Hok2 Hok3 [Ht12 Ht23].
  assert (Hin1 : In e1 (ranked_queue st)).
  { eapply Permutation_in; [symmetry; exact Hq|]. simpl; auto. }
  destruct found as [opponent|] eqn:Hres.
  - destruct (Hsome opponent eq_refl) as (entry & Hin & Hopp & _ & Hleast).
    specialize (Hleast e1 Hin1 Hok1).
    apply (Permutation_in _ Hq) in Hin.
    destruct Hin as [He|[He|[He|[]]]].
    + rewrite He. cbn [fst snd]. now rewrite <- Hopp.
    + assert (joined_at (snd e2) = joined_at entry) by now rewrite He.
      lia.
    + assert (joined_at (snd e3) = joined_at entry) by now rewrite He.
      lia.
  - rewrite (proj1 Hnone eq_refl e1 Hin1) in Hok1. discriminate.
Qed.

End FindOpponent.

(** ** Ranked match creation *)
Section CreateRankedMatch.
Import Queue.
Local Open Scope string_scope.
Local Open Scope Z_scope.

Lemma in_any_game_spec (gs : gmap string game) user_id :
  in_any_game gs user_id = true <->
  exists k g, gs !! k = Some g /\ player_in_game g user_id = true.
Proof.
  unfold in_any_game. rewrite existsb_exists. split.
  - intros ([k g] & Hin & Hp). exists k, g. split; [|exact Hp].
    now apply elem_of_map_to_list, list_elem_of_In.
  - intros (k & g & Hlook & Hp). exists (k, g). split; [|exact Hp].
    now apply list_elem_of_In, elem_of_map_to_list.
Qed.

Lemma either_in_game_spec (gs : gmap string game) u1 u2 :
  existsb (fun kv => player_in_game (snd kv) u1 || player_in_game (snd kv) u2)
    (map_to_list gs)
  = in_any_game gs u1 || in_any_game gs u2.
Proof.
  unfold in_any_game.
  induction (map_to_list gs) as [|kv l IH]; [reflexivity|].
  simpl. rewrite IH.
  destruct (player_in_game (snd kv) u1), (player_in_game (snd kv) u2),
    (existsb _ l), (existsb _ l); reflexivity.
Qed.

Lemma in_queue_del q u v :
  in_queue (queue_del q v) u = negb (u =? v) && in_queue q u.
Proof.
  unfold in_queue, queue_del.
  induction q as [|[w e] q IH]; simpl; [now rewrite andb_false_r|].
  destruct (Z.eqb_spec w v) as [->|Hwv]; simpl.
  - rewrite IH. destruct (Z.eqb_spec v u) as [->|Hvu]; simpl.
    + now rewrite Z.eqb_refl.
    + reflexivity.
  - rewrite IH. destruct (Z.eqb_spec w u) as [->|Hwu]; simpl.
    + destruct (Z.eqb_spec u v); [contradiction|reflexivity].
    + reflexivity.
Qed.

Lemma id_is_int n user_id : id_is (Some (IdInt n)) user_id = true -> n = user_id.
Proof. simpl. apply Z.eqb_eq. Qed.

(** [create_ranked_match] returns [None] and leaves [games] as it was
    whenever its guard finds a game of one of the players (a game that
    stores the integer id) or a game exists under the chat id, and only
    then; the queue removal precedes the chat-id check and the insertion,
    so on success neither player is queued and the one new game is
    theirs; and if no integer id was stored by two games before, none is
    afterwards. *)
Lemma create_ranked_match_guard (st : state) (player1 player2 : player_data)
    (chat rnd : Z) :
  let out := create_ranked_match st player1 player2 chat rnd in
  let busy :=
    in_any_game (games st) (pd_user_id player1) = true \/
    in_any_game (games st) (pd_user_id player2) = true in
  let dequeued :=
    queue_del (queue_del (ranked_queue st) (pd_user_id player1))
      (pd_user_id player2) in
  (busy \/ is_Some (games st !! pretty chat) <-> fst out = None) /\
  (fst out = None -> games (snd out) = games st) /\
  (busy -> snd out = st) /\
  (~ busy -> ranked_queue (snd out) = dequeued) /\
  (forall id, fst out = Some id ->
     id = "R" +:+ pretty rnd /\
     games st !! pretty chat = None /\
     in_queue (ranked_queue (snd out)) (pd_user_id player1) = false /\
     in_queue (ranked_queue (snd out)) (pd_user_id player2) = false /\
     exists g,
       games (snd out) = <[pretty chat := g]> (games st) /\
       creator g = Some (IdInt (pd_user_id player1)) /\
       joiner g = Some (IdInt (pd_user_id player2)) /\
       ranked_match g = true) /\
  (one_game_per_player (games st) -> one_game_per_player (games (snd out))).
Proof.
  intros out busy dequeued. subst out busy dequeued.
  unfold create_ranked_match. rewrite either_in_game_spec.
  destruct (in_any_game (games st) (pd_user_id player1)) eqn:H1; cbn [orb].
  { cbn [fst snd]. repeat split; auto; try discriminate.
    intros Hnot. exfalso. apply Hnot. now left. }
  destruct (in_any_game (games st) (pd_user_id player2)) eqn:H2; cbn [orb].
  { cbn [fst snd]. repeat split; auto; try discriminate.
    intros Hnot. exfalso. apply Hnot. now right. }
  cbn [remove_from_ranked_queue games ranked_queue].
  destruct (games st !! pretty chat) as [g0|] eqn:Hkey; cbn [fst snd games ranked_queue].
  { repeat split; auto; try discriminate.
    intros [Hb|Hb]; discriminate. }
  split.
  { split; [|discriminate]. intros [[Hb|Hb]|[? [=]]]; discriminate. }
  split; [discriminate|].
  split; [intros [Hb|Hb]; discriminate|].
  split; [reflexivity|].
  split.
  { intros id [= <-]. split; [reflexivity|]. split; [reflexivity|].
    split; [now rewrite !in_queue_del, Z.eqb_refl, andb_false_r|].
    split; [now rewrite in_queue_del, Z.eqb_refl|].
    eexists. split; [reflexivity|]. cbn. auto. }
  intros Hinv user_id k1 k2 g1 g2 Hg1 Hg2 Hp1 Hp2.
  assert (Hfree : forall k g u, games st !! k = Some g ->
            player_in_game g u = true ->
            u <> pd_user_id player1 /\ u <> pd_user_id player2).
  { intros k g u Hk Hp. split; intros ->.
    - assert (in_any_game (games st) (pd_user_id player1) = true)
        by (apply in_any_game_spec; eauto). congruence.
    - assert (in_any_game (games st) (pd_user_id player2) = true)
        by (apply in_any_game_spec; eauto). congruence. }
  apply lookup_insert_Some in Hg1 as [[<- <-]|[Hk1 Hg1]];
    apply lookup_insert_Some in Hg2 as [[Hk2 <-]|[Hk2 Hg2]]; auto.
  - destruct (Hfree _ _ _ Hg2 Hp2) as [Hn1 Hn2].
    unfold player_in_game in Hp1; cbn in Hp1.
    apply orb_true_iff in Hp1 as [Hp1|Hp1]; apply Z.eqb_eq in Hp1; congruence.
  - destruct (Hfree _ _ _ Hg1 Hp1) as [Hn1 Hn2].
    unfold player_in_game in Hp2; cbn in Hp2.
    apply orb_true_iff in Hp2 as [Hp2|Hp2]; apply Z.eqb_eq in Hp2; congruence.
  - eapply Hinv; eauto.
Qed.

End CreateRankedMatch.

(** ** Games of the unranked flow *)
Section UnrankedGames.
Import AntiCheat Queue QueueSpec.
Local Open Scope string_scope.
Local Open Scope Z_scope.

(** The guard of the code sees the games that store the integer id. *)
Lemma in_any_game_holds_int_id (gs : gmap string game) user_id :
  in_any_game gs user_id = true <-> holds_int_id gs user_id.
Proof.
  rewrite in_any_game_spec. unfold holds_int_id, player_in_game. split.
  - intros (k & g & Hk & Hp). exists k, g. split; [exact Hk|].
    apply orb_true_iff in Hp as [Hp|Hp]; [left|right].
    + destruct (creator g) as [[n|s]|]; try discriminate.
      apply id_is_int in Hp. now subst.
    + destruct (joiner g) as [[n|s]|]; try discriminate.
      apply id_is_int in Hp. now subst.
  - intros (k & g & Hk & [Hp|Hp]); exists k, g; (split; [exact Hk|]);
      rewrite Hp; cbn; rewrite Z.eqb_refl; [reflexivity|apply orb_true_r].
Qed.

Lemma in_any_game_free (gs : gmap string game) user_id :
  in_any_game gs user_id = false <-> ~ holds_int_id gs user_id.
Proof.
  rewrite <- in_any_game_holds_int_id. now destruct (in_any_game gs user_id).
Qed.

Lemma id_is_names_player field user_id :
  id_is field user_id = true -> names_player field user_id = true.
Proof. destruct field as [[n|s]|]; [auto|discriminate|discriminate]. Qed.

(** Whoever the guard sees is in an active game; the converse fails for
    the games of the unranked flow. *)
Lemma in_any_game_active (gs : gmap string game) user_id :
  in_any_game gs user_id = true -> in_active_game gs user_id = true.
Proof.
  unfold in_any_game, in_active_game. rewrite !existsb_exists.
  intros (kv & Hin & Hp). exists kv. split; [exact Hin|].
  unfold player_in_game in Hp. unfold plays_in.
  apply orb_true_iff in Hp as [Hp|Hp]; apply id_is_names_player in Hp;
    rewrite Hp; [reflexivity|apply orb_true_r].
Qed.

Lemma in_active_game_free (gs : gmap string game) user_id :
  in_active_game gs user_id = false -> ~ holds_int_id gs user_id.
Proof.
  intros Hfree Hint. apply in_any_game_holds_int_id, in_any_game_active in Hint.
  congruence.
Qed.

(** C6 (evaluation at the failing inputs).  Player 11, first in the
    ranked queue, is also the joiner of an active game of the unranked
    flow, which stores ids as [str(user.id)].  The specification skips
    player 11 and lets the search return player 12, the next in the
    queue; the code returns player 11: its loop compares the stored
    strings with the integer id and finds no game.  Likewise with no game
    but a challenge cooldown between the searcher and player 11 that runs
    for half a second more: the remaining time is read as 0 whole seconds
    and player 11 is returned. *)
Theorem find_ranked_opponent_unranked_game :
  let st := QueueExamples.waiting_in_unranked_game in
  let first := Examples.waiting "first" 900 10 in
  let second := Examples.waiting "second" 1100 20 in
  let db := QueueExamples.db_cooldown_last_second in
  (in_active_game (games st) 11 = true /\
   spec_eligible st Db.empty 40 14 1000 (11, first) = false /\
   spec_eligible st Db.empty 40 14 1000 (12, second) = true /\
   in_any_game (games st) 11 = false /\
   find_ranked_opponent st Db.empty 40 14 1000 = Some (opponent_of 11 first)) /\
  (cooldown_active db 40 14 11 = true /\
   spec_eligible Examples.three_waiting db 40 14 1000 (11, first) = false /\
   spec_eligible Examples.three_waiting db 40 14 1000 (12, second) = true /\
   check_challenge_cooldown db 40 14 11 = 0 /\
   find_ranked_opponent Examples.three_waiting db 40 14 1000
     = Some (opponent_of 11 first)).
Proof.
  cbv zeta. split.
  - split; [vm_compute; reflexivity|]. split; [vm_compute; reflexivity|].
    split; [vm_compute; reflexivity|]. split; vm_compute; reflexivity.
  - split; [vm_compute; reflexivity|]. split; [vm_compute; reflexivity|].
    split; [vm_compute; reflexivity|]. split; vm_compute; reflexivity.
Qed.

(** C10 (evaluation at the failing input).  Player 11 is the joiner of an
    active game of the unranked flow, which stores ids as
    [str(user.id)].  [create_ranked_match] for players 14 and 11 does not
    return [None]: its guard compares the stored strings with the integer
    ids and finds no game, so it makes the ranked game, and player 11 is
    then creator or joiner of two active games, the unranked one and the
    ranked one. *)
Theorem create_ranked_match_unranked_game :
  let st := QueueExamples.waiting_in_unranked_game in
  let out :=
    create_ranked_match st (Examples.player 14 "new" 1000)
      (Examples.player 11 "first" 900) (-1001) 4242 in
  in_active_game (games st) 11 = true /\
  games_of (games st) 11 = 1%nat /\
  in_any_game (games st) 11 = false /\
  fst out = Some "R4242" /\
  games (snd out) !! "1001_4711" = games st !! "1001_4711" /\
  (creator <$> games (snd out) !! "-1001") = Some (Some (IdInt 14)) /\
  (joiner <$> games (snd out) !! "-1001") = Some (Some (IdInt 11)) /\
  games_of (games (snd out)) 11 = 2%nat.
Proof.
  cbv zeta.
  split; [vm_compute; reflexivity|]. split; [vm_compute; reflexivity|].
  split; [vm_compute; reflexivity|]. split; [vm_compute; reflexivity|].
  split; [vm_compute; reflexivity|]. split; [vm_compute; reflexivity|].
  split; vm_compute; reflexivity.
Qed.

(** *** Where the words of the specification hold *)

Lemma names_player_int field user_id :
  (forall s, field <> Some (IdStr s)) ->
  names_player field user_id = id_is field user_id.
Proof.
  destruct field as [[n|s]|]; [reflexivity| |reflexivity].
  intros H. now destruct (H s).
Qed.

Lemma in_active_game_int_ids (gs : gmap string game) user_id :
  int_ids gs -> in_active_game gs user_id = in_any_game gs user_id.
Proof.
  intros Hint. unfold in_active_game, in_any_game.
  assert (Hall : forall kv, In kv (map_to_list gs) ->
            plays_in (snd kv) user_id = player_in_game (snd kv) user_id).
  { intros [k g] Hin. apply list_elem_of_In, elem_of_map_to_list in Hin.
    unfold plays_in, player_in_game. cbn [snd].
    rewrite !names_player_int; [reflexivity| |];
      intros s; now destruct (Hint k g s Hin). }
  induction (map_to_list gs) as [|kv l IH]; [reflexivity|].
  cbn [existsb]. rewrite Hall by (left; reflexivity).
  rewrite IH; [reflexivity|]. intros kv' Hin. apply Hall. now right.
Qed.

Lemma check_challenge_cooldown_whole db now challenger target :
  whole_second_cooldowns db now ->
  (check_challenge_cooldown db now challenger target <=? 0)
  = negb (cooldown_active db now challenger target).
Proof.
  intros Hwhole. unfold check_challenge_cooldown, cooldown_active.
  destruct (Db.challenge_cooldowns db !! (challenger, target)) as [row|] eqn:Hrow;
    [|reflexivity].
  destruct (Z.gtb_spec (Db.expires_at row) now) as [Hgt|Hle]; [|reflexivity].
  cbn [negb]. apply Z.leb_gt.
  destruct (Hwhole _ _ Hrow) as [H|H]; [lia|].
  assert (1 <= Z.quot (Db.expires_at row - now) 1000000)
    by (apply Z.quot_le_lower_bound; lia).
  lia.
Qed.

(** Where no game of the unranked flow runs and no cooldown is in its
    last second, the tests of the search loop are the conditions of the
    specification. *)
Lemma passes_search_tests_spec st db now user_id user_rating candidate :
  int_ids (games st) -> whole_second_cooldowns db now ->
  passes_search_tests st db now user_id user_rating candidate
  = spec_eligible st db now user_id user_rating candidate.
Proof.
  intros Hint Hwhole. unfold passes_search_tests, spec_eligible.
  now rewrite (in_active_game_int_ids _ _ Hint),
    !(check_challenge_cooldown_whole _ _ _ _ Hwhole).
Qed.

(** There the search does what the specification says: it returns the
    candidate of least [joined_at] among the eligible ones, and [None]
    exactly when there is none. *)
Lemma find_ranked_opponent_fifo_spec st db now user_id user_rating :
  int_ids (games st) -> whole_second_cooldowns db now ->
  let found := find_ranked_opponent st db now user_id user_rating in
  let ok := spec_eligible st db now user_id user_rating in
  (forall opponent, found = Some opponent ->
     exists entry,
       In (pd_user_id opponent, entry) (ranked_queue st) /\
       opponent = opponent_of (pd_user_id opponent) entry /\
       ok (pd_user_id opponent, entry) = true /\
       forall c, In c (ranked_queue st) -> ok c = true ->
                 joined_at entry <= joined_at (snd c)) /\
  (found = None <-> forall c, In c (ranked_queue st) -> ok c = false).
Proof.
  intros Hint Hwhole found ok.
  destruct (find_ranked_opponent_fifo st db now user_id user_rating)
    as (Hsome & Hnone & _).
  assert (Hok : forall c, passes_search_tests st db now user_id user_rating c = ok c).
  { intros c. now apply passes_search_tests_spec. }
  split.
  - intros opponent Hfound.
    destruct (Hsome opponent Hfound) as (entry & Hin & Hopp & He & Hleast).
    exists entry. rewrite <- Hok. repeat split; try assumption.
    intros c Hc Hokc. apply Hleast; [exact Hc|]. now rewrite Hok.
  - fold found in Hnone. rewrite Hnone. split; intros H c Hc.
    + rewrite <- Hok. now apply H.
    + rewrite Hok. now apply H.
Qed.

(** There [create_ranked_match] refuses exactly the players who are in an
    active game, and the chat ids that are taken. *)
Lemma create_ranked_match_guard_spec st player1 player2 chat rnd :
  int_ids (games st) ->
  fst (create_ranked_match st player1 player2 chat rnd) = None <->
  in_active_game (games st) (pd_user_id player1) = true \/
  in_active_game (games st) (pd_user_id player2) = true \/
  is_Some (games st !! pretty chat).
Proof.
  intros Hint.
  destruct (create_ranked_match_guard st player1 player2 chat rnd) as (Hiff & _).
  rewrite !(in_active_game_int_ids _ _ Hint). rewrite <- Hiff. tauto.
Qed.

End UnrankedGames.

(** ** Challenge timeout *)
Section ChallengeTimeout.
Import Challenge.
Local Open Scope string_scope.
Local Open Scope Z_scope.

(** On each status that the code writes, the task changes nothing. *)
Lemma challenge_timeout_task_idle db id challenger target row :
  Db.pending_challenges db !! id = Some row ->
  In (Db.status row) statuses ->
  challenge_timeout_task db id challenger target = (db, None).
Proof.
  intros Hrow Hin. unfold challenge_timeout_task. rewrite Hrow.
  simpl in Hin.
  destruct Hin as [<-|[<-|[<-|[<-|[<-|[]]]]]]; reflexivity.
Qed.

(** The task writes to [pending_challenges] only: ratings are not
    touched. *)
Lemma challenge_timeout_task_keeps_careers db id challenger target :
  Db.career_stats (fst (challenge_timeout_task db id challenger target))
  = Db.career_stats db.
Proof.
  unfold challenge_timeout_task.
  destruct (Db.pending_challenges db !! id); [|reflexivity].
  destruct (negb _ && _); reflexivity.
Qed.

(** C4 (evaluation at the failing input): run on a challenge whose
    status is ['pending'], the timeout task leaves the row and the whole
    database as they are and sends no notice: the challenge is not
    expired.  Only a status that starts with ['pending_'] is expired. *)
Theorem challenge_timeout_task_pending :
  Db.status <$> Db.pending_challenges Examples.db_pending_challenge !! "CH1234"
    = Some "pending" /\
  challenge_timeout_task Examples.db_pending_challenge "CH1234" 1 2
    = (Examples.db_pending_challenge, None) /\
  Db.status <$>
    Db.pending_challenges
      (fst (challenge_timeout_task Examples.db_pending_challenge "CH1234" 1 2))
      !! "CH1234" = Some "pending" /\
  Py.startswith "pending" "pending_" = false /\
  Py.startswith "pending_-1001_77" "pending_" = true.
Proof.
  assert (Hrun : challenge_timeout_task Examples.db_pending_challenge "CH1234" 1 2
                 = (Examples.db_pending_challenge, None)).
  { eapply challenge_timeout_task_idle; [vm_compute; reflexivity|].
    simpl; auto. }
  split; [vm_compute; reflexivity|]. split; [exact Hrun|].
  rewrite Hrun. repeat split; vm_compute; reflexivity.
Qed.

End ChallengeTimeout.

(** ** Settlement *)
Section SettlementFacts.
Import AntiCheat Settlement.
Local Open Scope string_scope.
Local Open Scope Z_scope.

(** A multiplier of 1.0 leaves an integer change as it is. *)
Lemma py_int_unit z : py_int (inject_Z z * 1.0 * 1.0 * 1.0)%Q = z.
Proof.
  unfold py_int. cbn.
  replace (z * 10 * 10 * 10) with (z * 1000) by lia.
  apply Z.quot_mul. lia.
Qed.

Lemma stored_get_career_stats db v u x :
  stored db u = Some x -> stored (snd (Career.get_career_stats db v)) u = Some x.
Proof.
  unfold stored, Career.get_career_stats. intros H.
  destruct (Db.career_stats db !! v) eqn:Hv; [exact H|]. cbn.
  rewrite lookup_insert_ne; [exact H|]. intros <-. rewrite Hv in H. discriminate.
Qed.

Lemma get_career_stats_present db v :
  is_Some (Db.career_stats (snd (Career.get_career_stats db v)) !! v).
Proof.
  unfold Career.get_career_stats.
  destruct (Db.career_stats db !! v) eqn:Hv; cbn; [now rewrite Hv|].
  rewrite lookup_insert_eq. eauto.
Qed.

Lemma stored_calculate_trust_score db v u :
  stored (snd (calculate_trust_score db v)) u = stored db u.
Proof.
  unfold stored, calculate_trust_score.
  destruct (Db.career_stats db !! v) as [row|] eqn:Hv; [|reflexivity]. cbn.
  destruct (decide (v = u)) as [<-|Hne].
  - now rewrite lookup_insert_eq, Hv.
  - now rewrite lookup_insert_ne.
Qed.

Lemma stored_flag db v kind opp text impact u :
  stored (flag_suspicious_activity db v kind opp text impact) u = stored db u.
Proof.
  unfold stored, flag_suspicious_activity. cbn.
  destruct (Db.career_stats db !! v) as [row|] eqn:Hv; [|reflexivity]. cbn.
  destruct (decide (v = u)) as [<-|Hne].
  - now rewrite lookup_insert_eq, Hv.
  - now rewrite lookup_insert_ne.
Qed.

Lemma stored_record db game w kind c1 c2 now u :
  stored (record_match_detailed db game w kind c1 c2 now) u = stored db u.
Proof. unfold stored, record_match_detailed. now destruct (existsb _ _). Qed.

Lemma stored_update_career db v change rank name won lost streak kind u :
  stored (update_career db v change rank name won lost streak kind) u =
  if decide (v = u)
  then (fun x => (fst x + change, snd x)) <$> stored db u
  else stored db u.
Proof.
  unfold stored, update_career.
  destruct (Db.career_stats db !! v) as [row|] eqn:Hv.
  - cbn. destruct (decide (v = u)) as [<-|Hne].
    + now rewrite lookup_insert_eq, Hv.
    + now rewrite lookup_insert_ne.
  - destruct (decide (v = u)) as [<-|Hne]; [now rewrite Hv|reflexivity].
Qed.

Lemma stored_set_ranked_matches db l u :
  stored (Db.set_ranked_matches db l) u = stored db u.
Proof. reflexivity. Qed.

(** Settlement adds each player's final change to the stored rating and
    keeps the suspension flag, whatever the flag is. *)
Lemma settle_ranked_stored db game score chase now x1 x2 :
  creator game <> joiner game ->
  stored db (creator game) = Some x1 ->
  stored db (joiner game) = Some x2 ->
  let o := settle_ranked db game score chase now in
  stored (db_after o) (creator game) = Some (fst x1 + final_change_p1 o, snd x1) /\
  stored (db_after o) (joiner game) = Some (fst x2 + final_change_p2 o, snd x2).
Proof.
  intros Hne H1 H2. unfold settle_ranked. cbv beta zeta.
  destruct (Career.get_career_stats db (creator game)) as [st1 db1] eqn:E1.
  assert (H1' : stored db1 (creator game) = Some x1).
  { replace db1 with (snd (Career.get_career_stats db (creator game)))
      by now rewrite E1.
    now apply stored_get_career_stats. }
  assert (H2' : stored db1 (joiner game) = Some x2).
  { replace db1 with (snd (Career.get_career_stats db (creator game)))
      by now rewrite E1.
    now apply stored_get_career_stats. }
  destruct (Career.get_career_stats db1 (joiner game)) as [st2 db2] eqn:E2.
  assert (H1'' : stored db2 (creator game) = Some x1).
  { replace db2 with (snd (Career.get_career_stats db1 (joiner game)))
      by now rewrite E2.
    now apply stored_get_career_stats. }
  assert (H2'' : stored db2 (joiner game) = Some x2).
  { replace db2 with (snd (Career.get_career_stats db1 (joiner game)))
      by now rewrite E2.
    now apply stored_get_career_stats. }
  destruct (calculate_elo_change _ _ _ _) as [c1 c2].
  destruct (calculate_trust_score db2 (creator game)) as [t1 db3] eqn:E3.
  assert (H3 : forall u, stored db3 u = stored db2 u).
  { intros u. replace db3 with (snd (calculate_trust_score db2 (creator game)))
      by now rewrite E3.
    apply stored_calculate_trust_score. }
  destruct (calculate_trust_score db3 (joiner game)) as [t2 db4] eqn:E4.
  assert (H4 : forall u, stored db4 u = stored db2 u).
  { intros u. replace db4 with (snd (calculate_trust_score db3 (joiner game)))
      by now rewrite E4.
    rewrite stored_calculate_trust_score. apply H3. }
  cbn [db_after final_change_p1 final_change_p2].
  set (dbf := if fst (fst (check_match_patterns db2 (creator game) (joiner game)))
              then _ else db4).
  assert (Hf : forall u, stored dbf u = stored db2 u).
  { intros u. subst dbf. destruct (fst (fst _)); [rewrite stored_flag|]; apply H4. }
  clearbody dbf.
  set (dbg := if fst (fst (check_match_patterns db2 (joiner game) (creator game)))
              then _ else dbf).
  assert (Hg : forall u, stored dbg u = stored db2 u).
  { intros u. subst dbg. destruct (fst (fst _)); [rewrite stored_flag|]; apply Hf. }
  clearbody dbg.
  set (dbh := if fst (detect_win_trading db2 (creator game) (joiner game))
              then _ else dbg).
  assert (Hh : forall u, stored dbh u = stored db2 u).
  { intros u. subst dbh. destruct (fst _); [rewrite !stored_flag|]; apply Hg. }
  clearbody dbh.
  rewrite !stored_set_ranked_matches.
  rewrite !stored_update_career, !stored_record, !Hh, H1'', H2''.
  destruct (decide (joiner game = creator game)) as [Heq|_]; [congruence|].
  destruct (decide (creator game = creator game)) as [_|Hn]; [|congruence].
  destruct (decide (joiner game = joiner game)) as [_|Hn]; [|congruence].
  destruct (decide (creator game = joiner game)) as [Heq|_]; [congruence|].
  split; reflexivity.
Qed.

End SettlementFacts.

(** Evaluation of a settlement on a closed input: the two career fetches
    first, then the arguments of the ELO call, which is the only step that
    does not compute. *)
Ltac run_career_fetch :=
  match goal with
  | |- context [Career.get_career_stats ?db ?u] =>
      let v := eval vm_compute in (Career.get_career_stats db u) in
      change (Career.get_career_stats db u) with v
  end; cbv beta iota zeta.

Ltac run_elo_arguments :=
  match goal with
  | |- context [Rating.calculate_elo_change ?a ?b ?c ?d] =>
      let a' := eval vm_compute in a in
      let b' := eval vm_compute in b in
      let c' := eval vm_compute in c in
      let d' := eval vm_compute in d in
      change (Rating.calculate_elo_change a b c d)
        with (Rating.calculate_elo_change a' b' c' d')
  end.

Section SettlementClaims.
Import AntiCheat Settlement.
Local Open Scope string_scope.
Local Open Scope Z_scope.

(** C1 (evaluation at the failing input).  Player 1 is rating-suspended
    with rating 1000 and wins a ranked match against the equally rated
    player 2: the settlement stores 1020 for player 1 and the flag is
    still set.  The same player is refused by [/ranked] because of the
    flag. *)
Theorem settlement_ignores_rating_suspended :
  let o := settle_ranked Examples.db_suspended Examples.game_1_vs_2 30 false 500 in
  stored Examples.db_suspended 1 = Some (1000, true) /\
  handle_game_end Examples.db_suspended Examples.game_1_vs_2 30 false 500 = Some o /\
  winner o = 1 /\
  stored (db_after o) 1 = Some (1020, true) /\
  fst (fst (Entry.ranked Examples.three_waiting Examples.db_suspended 40 1 (-1001) "A" 7))
    = Entry.RatingSuspended.
Proof.
  cbv zeta.
  split; [vm_compute; reflexivity|]. split; [reflexivity|].
  split.
  { unfold settle_ranked. cbv beta zeta.
    run_career_fetch. run_career_fetch. run_elo_arguments.
    rewrite calculate_elo_change_equal by lia.
    vm_compute. reflexivity. }
  split; [|vm_compute; reflexivity].
  unfold settle_ranked. cbv beta zeta.
  run_career_fetch. run_career_fetch. run_elo_arguments.
  rewrite calculate_elo_change_equal by lia.
  vm_compute. reflexivity.
Qed.

End SettlementClaims.

(** ** Rank progress *)
Section RankProgress.
Import RankInfo.
Local Open Scope string_scope.
Local Open Scope Z_scope.

Lemma band_all bs r : Forall (fun b => b <= r) bs -> band bs r = List.length bs.
Proof.
  unfold band. induction 1 as [|b l Hb _ IH]; simpl; [reflexivity|].
  destruct (Z.leb_spec b r); [simpl; now rewrite IH|lia].
Qed.

(** In a table sorted by threshold, the first threshold above [r] stands
    at the position that counts the thresholds reached. *)
Lemma find_above (l : list (Z * string)) r :
  StronglySorted Z.lt (map fst l) ->
  List.find (fun p => r <? fst p) l = nth_error l (band (map fst l) r).
Proof.
  induction l as [|[t n] l IH]; intros Hs; [reflexivity|].
  simpl in Hs. apply StronglySorted_inv in Hs as [Hs Ht].
  cbn [List.find fst map]. destruct (Z.ltb_spec r t) as [Hlt|Hge].
  - rewrite band_below; [reflexivity|].
    constructor; [exact Hlt|]. eapply List.Forall_impl; [|exact Ht].
    simpl; intros; lia.
  - unfold band; cbn [List.filter]. destruct (Z.leb_spec t r); [|lia].
    cbn [List.length nth_error]. now apply IH.
Qed.

Lemma find_none_all {A} (f : A -> bool) l :
  (forall x, In x l -> f x = false) -> List.find f l = None.
Proof.
  induction l as [|a l IH]; intros H; [reflexivity|]. simpl.
  rewrite (H a) by (left; reflexivity). apply IH. intros x Hx. apply H. now right.
Qed.

Lemma contiguous_find l : forall a b r,
  contiguous l a b = true -> a <= r < b ->
  exists x,
    List.find (fun x => (fst (fst x) <=? r) && (r <? snd (fst x))) l = Some x.
Proof.
  induction l as [|[[lo hi] n] l IH]; intros a b r Hc Hr; simpl in Hc.
  - apply Z.eqb_eq in Hc. lia.
  - apply andb_true_iff in Hc as [Hc Hrest]. apply andb_true_iff in Hc as [Ha Hlt].
    apply Z.eqb_eq in Ha. apply Z.ltb_lt in Hlt. subst a.
    cbn [List.find fst snd].
    destruct (Z.leb_spec lo r); [|lia]. destruct (Z.ltb_spec r hi); cbn [andb].
    + eauto.
    + apply (IH hi b r Hrest). lia.
Qed.

Lemma bounds_entries_ok : forallb bounds_entry_ok bounds = true.
Proof. vm_compute. reflexivity. Qed.

Lemma band_between bs lo hi r :
  band bs lo = band bs (hi - 1) -> lo <= r < hi -> band bs r = band bs lo.
Proof.
  intros Heq Hr.
  pose proof (band_mono bs lo r ltac:(lia)).
  pose proof (band_mono bs r (hi - 1) ltac:(lia)). lia.
Qed.

Lemma thresholds_sorted : StronglySorted Z.lt (map fst thresholds).
Proof. apply sorted_by_check. reflexivity. Qed.

(** Inside the table the loop of [get_current_rank_bounds] stops at an
    entry that holds the rating, and [get_next_rank_info] stops at the
    upper bound of that entry. *)
Lemma rank_tables_inside rating :
  0 <= rating < 6000 ->
  exists lo hi name,
    get_current_rank_bounds rating = (lo, hi, name) /\
    lo <= rating < hi /\
    bounds_entry_ok (lo, hi, name) = true /\
    hi <= 6000 /\
    get_next_rank_info rating = (Some hi, get_rank_from_rating hi).
Proof.
  intros Hr. unfold get_current_rank_bounds.
  destruct (contiguous_find bounds 0 10000 rating eq_refl ltac:(lia)) as [b Hb].
  rewrite Hb. destruct (find_some _ _ Hb) as [Hin Hp].
  pose proof bounds_entries_ok as Hok. rewrite forallb_forall in Hok.
  specialize (Hok b Hin). destruct b as [[lo hi] name]. cbn [fst snd] in Hp.
  apply andb_true_iff in Hp as [Hlo Hhi].
  apply Z.leb_le in Hlo. apply Z.ltb_lt in Hhi.
  exists lo, hi, name. split; [reflexivity|]. split; [lia|]. split; [exact Hok|].
  unfold bounds_entry_ok in Hok.
  repeat (apply andb_true_iff in Hok as [Hok ?]).
  apply orb_true_iff in H as [Htop|Hnext].
  - apply andb_true_iff in Htop as [_ Htop]. apply Z.eqb_eq in Htop. lia.
  - apply andb_true_iff in Hnext as [Hnext Hnth].
    apply andb_true_iff in Hnext as [_ Hb2]. apply Nat.eqb_eq in Hb2.
    unfold get_next_rank_info.
    rewrite find_above by exact thresholds_sorted.
    rewrite (band_between _ lo hi rating Hb2) by lia.
    destruct (nth_error thresholds _) as [[t n]|] eqn:Hn; [|discriminate].
    apply andb_true_iff in Hnth as [Ht Hn'].
    apply Z.eqb_eq in Ht. apply String.eqb_eq in Hn'. subst t n.
    split; [|reflexivity].
    apply nth_error_In in Hn. apply (in_map fst) in Hn. cbn [fst] in Hn.
    assert (Hall : forallb (fun b => b <=? 6000) (map fst thresholds) = true)
      by reflexivity.
    rewrite forallb_forall in Hall. specialize (Hall hi Hn).
    now apply Z.leb_le in Hall.
Qed.

(** Below the table both loops behave as for no entry and for the first
    one. *)
Lemma rank_tables_below rating :
  rating < 0 ->
  get_current_rank_bounds rating = (6000, 10000, "Immortal III") /\
  get_next_rank_info rating = (Some 200, "Bronze II").
Proof.
  intros Hneg. split.
  - unfold get_current_rank_bounds. rewrite find_none_all; [reflexivity|].
    intros b Hin. pose proof bounds_entries_ok as Hok.
    rewrite forallb_forall in Hok. specialize (Hok b Hin).
    destruct b as [[lo hi] name]. unfold bounds_entry_ok in Hok.
    repeat (apply andb_true_iff in Hok as [Hok ?]).
    apply Z.leb_le in H2. cbn [fst snd].
    destruct (Z.leb_spec lo rating); [lia|reflexivity].
  - unfold get_next_rank_info.
    rewrite find_above by exact thresholds_sorted.
    rewrite band_below; [reflexivity|].
    apply List.Forall_forall. intros b Hb.
    assert (Hall : forallb (fun b => 0 <=? b) (map fst thresholds) = true)
      by reflexivity.
    rewrite forallb_forall in Hall. specialize (Hall b Hb).
    apply Z.leb_le in Hall. lia.
Qed.

Lemma band_top rating :
  6000 <= rating -> band rank_from_rating_bounds rating = 24%nat.
Proof.
  intros Htop.
  apply (band_all rank_from_rating_bounds). apply List.Forall_forall. intros b Hb.
  assert (Hall : forallb (fun b => b <=? 6000) rank_from_rating_bounds = true)
    by reflexivity.
  rewrite forallb_forall in Hall. specialize (Hall b Hb).
  apply Z.leb_le in Hall. lia.
Qed.

(** From 6000 on, also beyond the last upper bound. *)
Lemma rank_tables_above rating :
  6000 <= rating ->
  get_current_rank_bounds rating = (6000, 10000, "Immortal III") /\
  get_next_rank_info rating = (None, "MAX RANK").
Proof.
  intros Htop. pose proof (band_top rating Htop) as Hband. split.
  - unfold get_current_rank_bounds.
    destruct (List.find _ bounds) as [b|] eqn:Hb; [|reflexivity].
    destruct (find_some _ _ Hb) as [Hin Hp].
    pose proof bounds_entries_ok as Hok. rewrite forallb_forall in Hok.
    specialize (Hok b Hin). destruct b as [[lo hi] name]. cbn [fst snd] in Hp.
    apply andb_true_iff in Hp as [Hlo Hhi].
    apply Z.leb_le in Hlo. apply Z.ltb_lt in Hhi.
    unfold bounds_entry_ok in Hok.
    repeat (apply andb_true_iff in Hok as [Hok ?]).
    apply String.eqb_eq in H0. apply Nat.eqb_eq in H1.
    assert (Hb24 : band rank_from_rating_bounds lo = 24%nat).
    { rewrite <- Hband. symmetry. apply (band_between _ lo hi); [exact H1|lia]. }
    rewrite Hb24 in H0. cbn in H0. subst name.
    apply orb_true_iff in H as [Htop'|Hnext].
    + apply andb_true_iff in Htop' as [_ Hlo6]. apply Z.eqb_eq in Hlo6. subst lo.
      assert (hi = 10000); [|now subst].
      apply (in_map (fun b => (fst (fst b), snd (fst b)))) in Hin.
      unfold bounds in Hin. cbn [map fst snd] in Hin.
      repeat (destruct Hin as [Hin|Hin]; [injection Hin; intros; lia|]).
      destruct Hin.
    + exfalso. apply andb_true_iff in Hnext as [Hnext Hnth].
      apply andb_true_iff in Hnext as [_ Hb2]. apply Nat.eqb_eq in Hb2.
      destruct (nth_error thresholds _) as [[t n]|] eqn:Hn; [|discriminate].
      apply andb_true_iff in Hnth as [Ht _]. apply Z.eqb_eq in Ht. subst t.
      apply nth_error_In in Hn.
      apply (in_map fst) in Hn. cbn [fst] in Hn.
      assert (Hall : forallb (fun b => b <=? 6000) (map fst thresholds) = true)
        by reflexivity.
      rewrite forallb_forall in Hall. specialize (Hall hi Hn).
      apply Z.leb_le in Hall. lia.
  - unfold get_next_rank_info.
    rewrite find_above by exact thresholds_sorted.
    rewrite band_all; [reflexivity|].
    apply List.Forall_forall. intros b Hb.
    assert (Hall : forallb (fun b => b <=? 6000) (map fst thresholds) = true)
      by reflexivity.
    rewrite forallb_forall in Hall. specialize (Hall b Hb).
    apply Z.leb_le in Hall. lia.
Qed.

(** X1: Within the table, 0 <= rating < 6000, the bounds returned by
    [get_current_rank_bounds] contain the rating, their name is the rank
    of [get_rank_from_rating], and [get_next_rank_info] returns the upper
    bound together with the rank that starts there. *)
Theorem rank_progress_consistent (rating : Z) (Hr : 0 <= rating < 6000) :
  let '(lo, hi, name) := get_current_rank_bounds rating in
  lo <= rating < hi /\
  name = get_rank_from_rating rating /\
  get_next_rank_info rating = (Some hi, get_rank_from_rating hi) /\
  get_rank_from_rating hi <> name.
Proof.
  destruct (rank_tables_inside rating Hr)
    as (lo & hi & name & -> & Hin & Hok & Hhi & Hnext).
  unfold bounds_entry_ok in Hok.
  repeat (apply andb_true_iff in Hok as [Hok ?]).
  apply Nat.eqb_eq in H1. apply String.eqb_eq in H0.
  assert (Hband : band rank_from_rating_bounds rating
                  = band rank_from_rating_bounds lo)
    by (apply (band_between _ lo hi); [exact H1|lia]).
  assert (Hname : name = get_rank_from_rating rating).
  { rewrite get_rank_from_rating_band, Hband. now symmetry. }
  split; [lia|]. split; [exact Hname|]. split; [exact Hnext|].
  apply orb_true_iff in H as [Htop|Hdiff].
  - apply andb_true_iff in Htop as [_ Htop]. apply Z.eqb_eq in Htop. lia.
  - apply andb_true_iff in Hdiff as [Hdiff _].
    apply andb_true_iff in Hdiff as [Hdiff _].
    apply negb_true_iff, Nat.eqb_neq in Hdiff.
    intros Heq. apply Hdiff.
    rewrite <- Hband, <- !rank_level_band. now rewrite Heq, Hname.
Qed.

Lemma rank_progress_consistent_witness :
  get_current_rank_bounds 1234 = (1200, 1400, "Gold I") /\
  get_next_rank_info 1234 = (Some 1400, "Gold II").
Proof.
  pose proof (rank_progress_consistent 1234 ltac:(lia)) as H.
  destruct (get_current_rank_bounds 1234) as [[lo hi] name] eqn:E.
  vm_compute in E. injection E as <- <- <-.
  destruct H as (_ & _ & H & _). split; [reflexivity|exact H].
Defined.

(** X2: Outside the table: a negative rating is "Unranked" for
    [get_rank_from_rating], yet [get_current_rank_bounds] falls through
    to the bounds of the top rank and [get_next_rank_info] names Bronze II
    at 200 as the next rank; from 6000 on there is no next rank and the
    bounds stay those of Immortal III, also from 10000 on. *)
Theorem rank_progress_outside_table (rating : Z) :
  if rating <? 0 then
    get_rank_from_rating rating = "Unranked" /\
    get_current_rank_bounds rating = (6000, 10000, "Immortal III") /\
    get_next_rank_info rating = (Some 200, "Bronze II")
  else if 6000 <=? rating then
    get_rank_from_rating rating = "Immortal III" /\
    get_current_rank_bounds rating = (6000, 10000, "Immortal III") /\
    get_next_rank_info rating = (None, "MAX RANK")
  else True.
Proof.
  destruct (Z.ltb_spec rating 0) as [Hneg|Hpos].
  - split; [unfold get_rank_from_rating;
            destruct (Z.ltb_spec rating 0); [reflexivity|lia]|].
    exact (rank_tables_below rating Hneg).
  - destruct (Z.leb_spec 6000 rating) as [Htop|_]; [|exact I].
    split; [now rewrite get_rank_from_rating_band, (band_top rating Htop)|].
    exact (rank_tables_above rating Htop).
Qed.

End RankProgress.

(** ** Tier distance *)
Section TierDistance.
Import RankInfo.
Local Open Scope string_scope.
Local Open Scope Z_scope.

Lemma band_zero_iff r : band rank_from_rating_bounds r = 0%nat <-> r < 0.
Proof.
  split.
  - intros Hb. destruct (Z.ltb_spec r 0) as [|Hge]; [assumption|].
    pose proof (band_mono rank_from_rating_bounds 0 r Hge) as Hm.
    change (band rank_from_rating_bounds 0) with 1%nat in Hm. lia.
  - intros Hneg. apply band_below. apply List.Forall_forall. intros b Hb.
    assert (Hall : forallb (fun b => 0 <=? b) rank_from_rating_bounds = true)
      by reflexivity.
    rewrite forallb_forall in Hall. specialize (Hall b Hb).
    apply Z.leb_le in Hall. lia.
Qed.

Lemma band_top_iff r : band rank_tier_bounds r = 21%nat <-> 5200 <= r.
Proof.
  split.
  - intros Hb. destruct (Z.leb_spec 5200 r) as [|Hlt]; [assumption|].
    pose proof (band_mono rank_tier_bounds r 5199 ltac:(lia)) as Hm.
    change (band rank_tier_bounds 5199) with 20%nat in Hm. lia.
  - intros Htop. apply (band_all rank_tier_bounds). apply List.Forall_forall.
    intros b Hb.
    assert (Hall : forallb (fun b => b <=? 5200) rank_tier_bounds = true)
      by reflexivity.
    rewrite forallb_forall in Hall. specialize (Hall b Hb).
    apply Z.leb_le in Hall. lia.
Qed.

Lemma distance_table (labels : list string) (expected : nat -> nat -> Z) i j :
  forallb (fun i => forallb (fun j => distance_at labels i j =? expected i j)
                      (seq 0 (List.length labels)))
          (seq 0 (List.length labels)) = true ->
  (i < List.length labels)%nat -> (j < List.length labels)%nat ->
  get_rank_tier_distance (nth i labels "") (nth j labels "") = expected i j.
Proof.
  intros Hall Hi Hj. rewrite forallb_forall in Hall.
  specialize (Hall i ltac:(apply in_seq; lia)).
  rewrite forallb_forall in Hall.
  specialize (Hall j ltac:(apply in_seq; lia)). now apply Z.eqb_eq.
Qed.

(** X3: [get_rank_tier_distance] on the labels of the two lookups: with the
    plain labels of [get_rank_from_rating] it is the number of bands
    between the two ratings, and 999 as soon as one rating is negative
    ("Unranked" is not in [tier_order]); with the emoji labels of
    [get_rank_tier] it is the number of bands as long as both ratings are
    below 5200, and 999 as soon as one label is "🔥 Immortal", also when
    both are. *)
Theorem tier_distance_of_ratings (a b : Z) :
  get_rank_tier_distance (get_rank_from_rating a) (get_rank_from_rating b)
  = (if (a <? 0) || (b <? 0) then 999
     else Z.abs (Z.of_nat (band rank_from_rating_bounds a)
                 - Z.of_nat (band rank_from_rating_bounds b))) /\
  get_rank_tier_distance (get_rank_tier a) (get_rank_tier b)
  = (if (5200 <=? a) || (5200 <=? b) then 999
     else Z.abs (Z.of_nat (band rank_tier_bounds a)
                 - Z.of_nat (band rank_tier_bounds b))).
Proof.
  split.
  - rewrite !get_rank_from_rating_band.
    pose proof (band_le_length rank_from_rating_bounds a) as Ha.
    pose proof (band_le_length rank_from_rating_bounds b) as Hb.
    change (List.length rank_from_rating_bounds) with 24%nat in Ha, Hb.
    rewrite (distance_table rank_from_rating_labels
               (fun i j => if (i =? 0)%nat || (j =? 0)%nat then 999
                           else Z.abs (Z.of_nat i - Z.of_nat j)));
      [|vm_compute; reflexivity
       |change (List.length rank_from_rating_labels) with 25%nat; lia
       |change (List.length rank_from_rating_labels) with 25%nat; lia].
    pose proof (band_zero_iff a) as Hza. pose proof (band_zero_iff b) as Hzb.
    destruct (Nat.eqb_spec (band rank_from_rating_bounds a) 0),
             (Nat.eqb_spec (band rank_from_rating_bounds b) 0),
             (Z.ltb_spec a 0), (Z.ltb_spec b 0); cbn [orb];
      try reflexivity; intuition lia.
  - rewrite !get_rank_tier_band.
    pose proof (band_le_length rank_tier_bounds a) as Ha.
    pose proof (band_le_length rank_tier_bounds b) as Hb.
    change (List.length rank_tier_bounds) with 21%nat in Ha, Hb.
    rewrite (distance_table rank_tier_labels
               (fun i j => if (i =? 21)%nat || (j =? 21)%nat then 999
                           else Z.abs (Z.of_nat i - Z.of_nat j)));
      [|vm_compute; reflexivity
       |change (List.length rank_tier_labels) with 22%nat; lia
       |change (List.length rank_tier_labels) with 22%nat; lia].
    pose proof (band_top_iff a) as Hza. pose proof (band_top_iff b) as Hzb.
    destruct (Nat.eqb_spec (band rank_tier_bounds a) 21),
             (Nat.eqb_spec (band rank_tier_bounds b) 21),
             (Z.leb_spec 5200 a), (Z.leb_spec 5200 b); cbn [orb];
      try reflexivity; intuition lia.
Qed.

End TierDistance.

(** ** K-factor *)
Section KFactor.
Import RankInfo.
Local Open Scope string_scope.
Local Open Scope Z_scope.

(** [get_k_factor_by_rank] returns one of 16, 24, 32, 40, 48 on every
    string, and 48 during placement. *)
Lemma k_factor_values rank total :
  In (get_k_factor_by_rank rank total) [16; 24; 32; 40; 48].
Proof.
  unfold get_k_factor_by_rank.
  destruct (total <? 5); [simpl; tauto|]. cbv zeta.
  destruct (_ || _); [simpl; tauto|].
  destruct (_ || _); [simpl; tauto|].
  destruct (_ || _); [simpl; tauto|].
  destruct (py_in _ _); simpl; tauto.
Qed.

Lemma k_factor_bounds rank total : 16 <= get_k_factor_by_rank rank total <= 48.
Proof.
  pose proof (k_factor_values rank total) as H. simpl in H.
  destruct H as [<-|[<-|[<-|[<-|[<-|[]]]]]]; lia.
Qed.

Lemma get_k_factor_by_rank_unfold rank total :
  get_k_factor_by_rank rank total =
  if total <? 5 then 48 else
  if py_in "bronze" (lower rank) || py_in "silver" (lower rank) then 40
  else if py_in "gold" (lower rank) || py_in "platinum" (lower rank) then 32
  else if py_in "diamond" (lower rank) || py_in "ruby" (lower rank) then 24
  else if py_in "immortal" (lower rank) then 16
  else 32.
Proof. reflexivity. Qed.

Ltac decide_tier_tests :=
  repeat match goal with
  | |- (if ?c then _ else _) = _ =>
      let v := eval vm_compute in c in change c with v; cbv iota
  end.

(** X4: The K-factor of every label that the two lookups return: 48 in
    placement; afterwards 40 for Bronze and Silver, 32 for Gold and
    Platinum, 24 for Diamond, 16 for Immortal, and the fallback 32 for
    Master, Grandmaster and "Unranked", which no test names. *)
Theorem k_factor_by_tier_family :
  let both (from to : nat) :=
    (firstn (to - from) (skipn from rank_tier_labels)
     ++ firstn (to - from) (skipn (S from) rank_from_rating_labels))%list in
  let gets (k : Z) (labels : list string) :=
    Forall (fun label => forall total,
              get_k_factor_by_rank label total = if total <? 5 then 48 else k)
      labels in
  gets 40 (both 0 6)%nat /\ gets 32 (both 6 12)%nat /\ gets 24 (both 12 15)%nat /\
  gets 32 (both 15 21)%nat /\ gets 16 (both 21 24)%nat /\ gets 32 ["Unranked"] /\
  forall rank total,
    In (get_k_factor_by_rank rank total) [16; 24; 32; 40; 48] /\
    16 <= get_k_factor_by_rank rank total <= 48.
Proof.
  cbv zeta.
  repeat split;
    try (repeat (apply Forall_cons_2 || apply Forall_nil_2);
         intros total; rewrite get_k_factor_by_rank_unfold;
         (destruct (total <? 5); [reflexivity|]); decide_tier_tests; reflexivity).
  - apply k_factor_values.
  - apply k_factor_bounds.
  - apply k_factor_bounds.
Qed.

End KFactor.

(** ** Bounds of the ELO delta *)
Section EloBounds.
Import RankInfo.
Local Open Scope string_scope.
Local Open Scope Z_scope.

Lemma expected_score_range a b : (0 < expected_score a b < 1)%R.
Proof.
  unfold expected_score.
  assert (Hp : (0 < Rpower 10 ((IZR b - IZR a) / 400))%R)
    by (unfold Rpower; apply exp_pos).
  split.
  - apply Rdiv_lt_0_compat; lra.
  - apply (Rmult_lt_reg_r (1 + Rpower 10 ((IZR b - IZR a) / 400))); [lra|].
    unfold Rdiv. rewrite Rmult_assoc, Rinv_l by lra. lra.
Qed.

(** Truncation toward zero stays between zero and its argument. *)
Lemma py_int_R_between x :
  ((0 <= x -> 0 <= IZR (py_int_R x) <= x) /\
   (x <= 0 -> x <= IZR (py_int_R x) <= 0))%R.
Proof.
  unfold py_int_R. destruct (Rlt_dec x 0) as [Hneg|Hpos].
  - destruct (base_Int_part (- x)) as [Hle Hgt].
    assert (H0 : (0 <= IZR (Int_part (- x)))%R).
    { apply IZR_le. apply Z.lt_succ_r. apply lt_IZR. rewrite succ_IZR. lra. }
    rewrite opp_IZR. split; intros; lra.
  - destruct (base_Int_part x) as [Hle Hgt].
    assert (H0 : (0 <= IZR (Int_part x))%R).
    { apply IZR_le. apply Z.lt_succ_r. apply lt_IZR. rewrite succ_IZR. lra. }
    split; intros; lra.
Qed.

(** A truncated product [int(K * t)] with [-1 <= t <= 1]. *)
Lemma scaled_delta_bounds k t :
  0 <= k -> (-1 <= t <= 1)%R ->
  - k <= py_int_R (IZR k * t) <= k /\
  ((0 <= t)%R -> 0 <= py_int_R (IZR k * t)) /\
  ((t <= 0)%R -> py_int_R (IZR k * t) <= 0) /\
  ((-1 <= 2 * t <= 1)%R -> - k <= 2 * py_int_R (IZR k * t) <= k).
Proof.
  intros Hk Ht.
  assert (HK : (0 <= IZR k)%R) by now apply IZR_le.
  destruct (py_int_R_between (IZR k * t)) as [Hp Hn].
  destruct (Rle_dec 0 t) as [Ht0|Ht0].
  - assert (H : (0 <= IZR k * t)%R) by nra. specialize (Hp H).
    assert (L : 0 <= py_int_R (IZR k * t)) by (apply le_IZR; lra).
    assert (U : py_int_R (IZR k * t) <= k) by (apply le_IZR; nra).
    refine (conj (conj _ U) (conj _ (conj _ _))); [lia|intros; lia| |].
    + intros Hle. apply le_IZR. nra.
    + intros Hh.
      assert (2 * py_int_R (IZR k * t) <= k)
        by (apply le_IZR; rewrite mult_IZR; nra).
      lia.
  - assert (H : (IZR k * t <= 0)%R) by nra. specialize (Hn H).
    assert (U : py_int_R (IZR k * t) <= 0) by (apply le_IZR; lra).
    assert (L : - k <= py_int_R (IZR k * t))
      by (apply le_IZR; rewrite opp_IZR; nra).
    refine (conj (conj L _) (conj _ (conj _ _))); [lia| |intros; lia|].
    + intros Hge. lra.
    + intros Hh.
      assert (- k <= 2 * py_int_R (IZR k * t))
        by (apply le_IZR; rewrite opp_IZR, mult_IZR; nra).
      lia.
Qed.

Lemma calculate_elo_change_range rating1 rating2 winner k :
  0 <= k ->
  let c := calculate_elo_change rating1 rating2 winner k in
  - k <= fst c <= k /\ - k <= snd c <= k /\
  (winner = 1 -> 0 <= fst c /\ snd c <= 0) /\
  (winner <> 0 -> winner <> 1 -> fst c <= 0 /\ 0 <= snd c) /\
  (winner = 0 -> - k <= 2 * fst c <= k /\ - k <= 2 * snd c <= k).
Proof.
  intros Hk. unfold calculate_elo_change, actual_scores.
  pose proof (expected_score_range rating1 rating2) as [He1 He1'].
  pose proof (expected_score_range rating2 rating1) as [He2 He2'].
  destruct (Z.eqb_spec winner 0) as [H0|H0]; cbn [fst snd].
  - destruct (scaled_delta_bounds k (1 / 2 - expected_score rating1 rating2)%R Hk
                ltac:(lra)) as (B1 & _ & _ & D1).
    destruct (scaled_delta_bounds k (1 / 2 - expected_score rating2 rating1)%R Hk
                ltac:(lra)) as (B2 & _ & _ & D2).
    specialize (D1 ltac:(lra)). specialize (D2 ltac:(lra)).
    split; [lia|]. split; [lia|]. split; [intros; lia|]. split; [intros; lia|]. intros; lia.
  - destruct (Z.eqb_spec winner 1) as [H1|H1]; cbn [fst snd].
    + destruct (scaled_delta_bounds k (1 - expected_score rating1 rating2)%R Hk
                  ltac:(lra)) as (B1 & P1 & _ & _).
      destruct (scaled_delta_bounds k (0 - expected_score rating2 rating1)%R Hk
                  ltac:(lra)) as (B2 & _ & N2 & _).
      specialize (P1 ltac:(lra)). specialize (N2 ltac:(lra)).
      split; [lia|]. split; [lia|]. split; [intros; lia|]. split; [intros; lia|]. intros; lia.
    + destruct (scaled_delta_bounds k (0 - expected_score rating1 rating2)%R Hk
                  ltac:(lra)) as (B1 & _ & N1 & _).
      destruct (scaled_delta_bounds k (1 - expected_score rating2 rating1)%R Hk
                  ltac:(lra)) as (B2 & P2 & _ & _).
      specialize (P2 ltac:(lra)). specialize (N1 ltac:(lra)).
      split; [lia|]. split; [lia|]. split; [intros; lia|]. split; [intros; lia|]. intros; lia.
Qed.

(** X5: With a non-negative K-factor no delta of [calculate_elo_change]
    exceeds K in size, a winner's delta is never negative and a loser's
    never positive, at any two ratings. *)
Theorem elo_change_bounded (rating1 rating2 winner k : Z) (Hk : 0 <= k) :
  let '(change1, change2) := calculate_elo_change rating1 rating2 winner k in
  - k <= change1 <= k /\ - k <= change2 <= k /\
  (if winner =? 0 then - k <= 2 * change1 <= k /\ - k <= 2 * change2 <= k
   else if winner =? 1 then 0 <= change1 /\ change2 <= 0
   else change1 <= 0 /\ 0 <= change2).
Proof.
  pose proof (calculate_elo_change_range rating1 rating2 winner k Hk)
    as (B1 & B2 & W1 & W2 & W0).
  destruct (calculate_elo_change rating1 rating2 winner k) as [change1 change2].
  cbn [fst snd] in *.
  split; [exact B1|]. split; [exact B2|].
  destruct (Z.eqb_spec winner 0) as [H0|H0]; [exact (W0 H0)|].
  destruct (Z.eqb_spec winner 1) as [H1|H1]; [exact (W1 H1)|exact (W2 H0 H1)].
Qed.

Lemma elo_change_bounded_witness :
  let '(change1, change2) := calculate_elo_change 1250 1180 1 32 in
  0 <= change1 <= 32 /\ -32 <= change2 <= 0.
Proof.
  pose proof (elo_change_bounded 1250 1180 1 32 ltac:(lia)) as H.
  destruct (calculate_elo_change 1250 1180 1 32) as [c1 c2].
  cbn in H. lia.
Defined.

End EloBounds.


(** ** The progress bar *)
Section ProgressBar.
Import RankInfo CareerCard.
Local Open Scope string_scope.
Local Open Scope Z_scope.

Lemma py_int_Qeq (x y : Q) : (x == y)%Q -> py_int x = py_int y.
Proof.
  destruct x as [n1 d1], y as [n2 d2]. unfold Qeq, py_int. cbn [Qnum Qden].
  intros Heq.
  rewrite <- (Z.quot_mul_cancel_r n1 (Z.pos d1) (Z.pos d2)) by lia.
  rewrite <- (Z.quot_mul_cancel_r n2 (Z.pos d2) (Z.pos d1)) by lia.
  rewrite Heq. f_equal. lia.
Qed.

(** [int(progress_pct / 10)] is the truncated quotient of ten times the
    progress by the range. *)
Lemma progress_cells p t :
  0 < t ->
  py_int (safe_division p t 0 * 100 / 10)%Q = Z.quot (10 * p) t.
Proof.
  intros Ht. unfold safe_division.
  destruct (Z.eqb_spec t 0); [lia|].
  destruct t as [|t'|]; try lia.
  rewrite (py_int_Qeq _ ((10 * p) # t')); [reflexivity|].
  unfold truediv. rewrite (Qmake_Qdiv (10 * p) t'), inject_Z_mult.
  field. discriminate.
Qed.

Lemma times_nonpositive s n : n <= 0 -> times s n = "".
Proof.
  intros Hn. unfold times. now replace (Z.to_nat n) with 0%nat by lia.
Qed.

(** X26: The progress section of [/career].  For a rating inside the table
    the bar has [k] filled and [10 - k] empty cells, where [k] is ten
    times the progress within the current band divided by its width,
    rounded down, so between 0 and 9; the next rank is the one that
    starts at the upper bound and the points needed are positive.  From
    6000 on the section says that the top rank is reached.  A negative
    rating is shown as "Unranked" on the way to Bronze II at 200, and its
    bar, computed against the fallback band 6000..10000, has no filled
    cell and at least 25 empty ones. *)
Theorem career_progress_bar (rating : Z) :
  if rating <? 0 then
    exists cells,
      cells <= -15 /\
      career_progress rating
        = Progress "Unranked" "Bronze II" (times "░" (10 - cells))
            rating 200 (200 - rating)
  else if 6000 <=? rating then career_progress rating = MaxRankAchieved
  else
    exists lo hi name cells,
      get_current_rank_bounds rating = (lo, hi, name) /\
      cells = 10 * (rating - lo) / (hi - lo) /\ 0 <= cells <= 9 /\
      0 < hi - rating /\
      career_progress rating
        = Progress (get_rank_from_rating rating) (get_rank_from_rating hi)
            (times "█" cells +:+ times "░" (10 - cells))
            rating hi (hi - rating).
Proof.
  unfold career_progress.
  destruct (Z.ltb_spec rating 0) as [Hneg|Hpos].
  - destruct (rank_tables_below rating Hneg) as [-> ->].
    change (200 =? 0) with false. cbv iota beta zeta.
    rewrite (progress_cells (rating - 6000) (10000 - 6000)) by lia.
    change (10000 - 6000) with 4000.
    assert (Hq : Z.quot (10 * (rating - 6000)) 4000 = Z.quot (rating - 6000) 400).
    { replace (10 * (rating - 6000)) with ((rating - 6000) * 10) by lia.
      change 4000 with (400 * 10). apply Z.quot_mul_cancel_r; lia. }
    rewrite Hq.
    assert (Hc : Z.quot (rating - 6000) 400 <= -15).
    { replace (rating - 6000) with (- (6000 - rating)) by lia.
      rewrite Z.quot_opp_l by lia. rewrite Z.quot_div_nonneg by lia.
      assert (15 <= (6000 - rating) / 400) by (apply Z.div_le_lower_bound; lia).
      lia. }
    exists (Z.quot (rating - 6000) 400). split; [exact Hc|].
    rewrite times_nonpositive by lia.
    unfold get_rank_from_rating. destruct (Z.ltb_spec rating 0); [reflexivity|lia].
  - destruct (Z.leb_spec 6000 rating) as [Htop|Hin].
    + destruct (rank_tables_above rating Htop) as [-> ->]. reflexivity.
    + destruct (rank_tables_inside rating ltac:(lia))
        as (lo & hi & name & -> & Hr & Hok & Hhi & ->).
      destruct (Z.eqb_spec hi 0); [lia|]. cbv beta zeta.
      rewrite (progress_cells (rating - lo) (hi - lo)) by lia.
      rewrite Z.quot_div_nonneg by lia.
      exists lo, hi, name, (10 * (rating - lo) / (hi - lo)).
      split; [reflexivity|]. split; [reflexivity|]. split.
      { split; [apply Z.div_pos; lia|].
        assert (10 * (rating - lo) / (hi - lo) < 10); [|lia].
        apply Z.div_lt_upper_bound; lia. }
      split; [lia|reflexivity].
Qed.

End ProgressBar.



(** ** Queue life cycle *)
Section QueueLifeCycle.
Import Queue QueueOps QueueSpec.
Local Open Scope string_scope.
Local Open Scope Z_scope.

Lemma queue_del_absent q u : in_queue q u = false -> queue_del q u = q.
Proof.
  unfold in_queue, queue_del. induction q as [|[v e] q IH]; [reflexivity|].
  simpl. destruct (v =? u); [discriminate|]. intros H. simpl. now rewrite IH.
Qed.

Lemma queue_del_app q1 q2 u :
  queue_del (q1 ++ q2) u = (queue_del q1 u ++ queue_del q2 u)%list.
Proof. unfold queue_del. apply List.filter_app. Qed.

Lemma queue_get_in_queue q u : in_queue q u = true <-> is_Some (queue_get q u).
Proof.
  unfold in_queue, queue_get. induction q as [|[v e] q IH]; simpl.
  - split; [discriminate|intros [? [=]]].
  - destruct (v =? u); simpl; [split; eauto|exact IH].
Qed.

Lemma queue_get_absent q u : in_queue q u = false -> queue_get q u = None.
Proof.
  intros H. destruct (queue_get q u) eqn:E; [|reflexivity].
  assert (in_queue q u = true) by (apply queue_get_in_queue; eauto). congruence.
Qed.

Lemma queue_get_del_other q u v :
  v <> u -> queue_get (queue_del q u) v = queue_get q v.
Proof.
  intros Hne. unfold queue_get, queue_del.
  induction q as [|[w e] q IH]; [reflexivity|]. simpl.
  destruct (Z.eqb_spec w u) as [->|Hwu]; simpl.
  - destruct (Z.eqb_spec u v); [congruence|exact IH].
  - destruct (w =? v); [reflexivity|exact IH].
Qed.

Lemma queue_get_app_new q u e :
  in_queue q u = false -> queue_get (q ++ [(u, e)]) u = Some e.
Proof.
  unfold in_queue, queue_get. induction q as [|[v e'] q IH]; simpl.
  - now rewrite Z.eqb_refl.
  - destruct (v =? u); [discriminate|exact IH].
Qed.

Lemma queue_get_app_other q u e v :
  v <> u -> queue_get (q ++ [(u, e)]) v = queue_get q v.
Proof.
  intros Hne. unfold queue_get. induction q as [|[w e'] q IH]; simpl.
  - destruct (Z.eqb_spec u v); [congruence|reflexivity].
  - destruct (w =? v); [reflexivity|exact IH].
Qed.

(** X6: Enqueue and dequeue.  [add_to_ranked_queue] refuses a player who is
    already queued and changes nothing; otherwise the player's entry is
    the one just given, stamped [now], and removing the player again gives
    back the queue as it was, entries and order; a second removal changes
    nothing more. *)
Theorem enqueue_dequeue_round_trip (st : state) (now user_id : Z)
    (name : string) (rating : Z) (tier : string) (message : Z) :
  let out := add_to_ranked_queue st now user_id name rating tier message in
  if in_queue (ranked_queue st) user_id then out = (false, st)
  else
    fst out = true /\
    queue_get (ranked_queue (snd out)) user_id
      = Some {| username := name; Queue.rating := rating; rank_tier := tier;
                joined_at := now; message := message |} /\
    (forall other, other <> user_id ->
       queue_get (ranked_queue (snd out)) other = queue_get (ranked_queue st) other) /\
    ranked_queue (remove_from_ranked_queue (snd out) user_id) = ranked_queue st /\
    games (remove_from_ranked_queue (snd out) user_id) = games st /\
    remove_from_ranked_queue (remove_from_ranked_queue (snd out) user_id) user_id
      = remove_from_ranked_queue (snd out) user_id.
Proof.
  intros out. subst out. unfold add_to_ranked_queue.
  destruct (in_queue (ranked_queue st) user_id) eqn:Hq; [reflexivity|].
  cbn [fst snd ranked_queue remove_from_ranked_queue games].
  split; [reflexivity|]. split; [now apply queue_get_app_new|]. split.
  { intros other Hne. now apply queue_get_app_other. }
  split.
  { rewrite queue_del_app, queue_del_absent by exact Hq.
    unfold queue_del. simpl. rewrite Z.eqb_refl. simpl. apply app_nil_r. }
  split; [reflexivity|].
  unfold remove_from_ranked_queue;
    cbn [games ranked_queue queue_search_tasks user_queue_cooldown
         ranked_queue_rows].
  f_equal.
  - apply queue_del_absent. now rewrite in_queue_del, Z.eqb_refl.
  - set_solver.
  - set_solver.
Qed.

(** X7: The search loop evicts a queued player exactly when at least 120
    whole seconds have passed since the start time: at 120 s the entry
    and the search task are gone, at 119.999999 s nothing changes.  The
    entries of other players are never touched. *)
Theorem search_timeout_at_120_seconds (st : state) (now user_id start_time : Z)
    (Hq : in_queue (ranked_queue st) user_id = true) :
  let out := update_search_message_step st now user_id start_time in
  (fst out = SearchTimedOut <-> 120 * 1000000 <= now - start_time) /\
  (fst out = SearchContinues <-> now - start_time < 120 * 1000000) /\
  (fst out = SearchContinues -> snd out = st) /\
  (fst out = SearchTimedOut ->
     in_queue (ranked_queue (snd out)) user_id = false /\
     (user_id ∉ queue_search_tasks (snd out)) /\
     (user_id ∉ ranked_queue_rows (snd out)) /\
     games (snd out) = games st) /\
  (forall other, other <> user_id ->
     queue_get (ranked_queue (snd out)) other = queue_get (ranked_queue st) other).
Proof.
  intros out. subst out. unfold update_search_message_step, handle_queue_timeout.
  rewrite Hq. unfold RANKED_SEARCH_TIMEOUT.
  destruct (proj1 (queue_get_in_queue _ _) Hq) as [e He]. rewrite He.
  assert (Hquot : 120 <= Z.quot (now - start_time) 1000000
                  <-> 120 * 1000000 <= now - start_time).
  { split; intros H.
    - destruct (Z.le_gt_cases 0 (now - start_time)) as [Hpos|Hneg].
      + pose proof (Z.mul_quot_le (now - start_time) 1000000 Hpos ltac:(lia)). lia.
      + pose proof (Z.quot_opp_l (now - start_time) 1000000 ltac:(lia)).
        pose proof (Z.quot_pos (- (now - start_time)) 1000000 ltac:(lia) ltac:(lia)).
        lia.
    - apply Z.quot_le_lower_bound; lia. }
  destruct (Z.geb_spec (Z.quot (now - start_time) 1000000) 120) as [Hge|Hlt];
    cbn [fst snd].
  - split; [split; [intros _; now apply Hquot|reflexivity]|].
    split; [split; [discriminate|intros H; apply Hquot in Hge; lia]|].
    split; [discriminate|]. split.
    + intros _. unfold remove_from_ranked_queue.
      cbn [games ranked_queue queue_search_tasks ranked_queue_rows].
      rewrite in_queue_del, Z.eqb_refl.
      repeat split; [set_solver|set_solver].
    + intros other Hne. unfold remove_from_ranked_queue. cbn [ranked_queue].
      now apply queue_get_del_other.
  - split; [split; [discriminate|intros H; apply Hquot in H; lia]|].
    split; [split; [intros _|reflexivity]|].
    { destruct (Z.lt_ge_cases (now - start_time) (120 * 1000000)) as [|Hc];
        [assumption|]. apply Hquot in Hc. lia. }
    split; [reflexivity|]. split; [discriminate|]. reflexivity.
Qed.

Lemma search_timeout_at_120_seconds_witness :
  fst (update_search_message_step Examples.three_waiting 120000010 11 10)
    = SearchTimedOut /\
  fst (update_search_message_step Examples.three_waiting 120000009 11 10)
    = SearchContinues.
Proof.
  pose proof (search_timeout_at_120_seconds Examples.three_waiting 120000010 11 10
                ltac:(vm_compute; reflexivity)) as (H1 & _).
  pose proof (search_timeout_at_120_seconds Examples.three_waiting 120000009 11 10
                ltac:(vm_compute; reflexivity)) as (_ & H2 & _).
  split; [apply H1; lia|apply H2; lia].
Defined.

(** X8: [is_player_available] answers True exactly when no game stores the
    player's integer id as creator or joiner and the player is either not
    queued or queued for more than 300 seconds.  A game of the unranked
    flow, which stores [str(user.id)], does not count: a player who is in
    no active game and not queued is available, but so is the creator or
    joiner of an unranked game.  After a True answer the player is not in
    the queue, a False answer changes nothing.  The deletion of a stale
    entry leaves the player's search task and the row of the queue table
    in place. *)
Theorem is_player_available_spec (st : state) (now user_id : Z) :
  let out := is_player_available st now user_id in
  (fst out = true <->
     ~ holds_int_id (games st) user_id /\
     match queue_get (ranked_queue st) user_id with
     | Some entry => 300 * 1000000 < now - joined_at entry
     | None => True
     end) /\
  (in_active_game (games st) user_id = false ->
   queue_get (ranked_queue st) user_id = None -> fst out = true) /\
  (fst out = true -> in_queue (ranked_queue (snd out)) user_id = false) /\
  (fst out = false -> snd out = st) /\
  games (snd out) = games st /\
  queue_search_tasks (snd out) = queue_search_tasks st /\
  ranked_queue_rows (snd out) = ranked_queue_rows st /\
  (forall other, other <> user_id ->
     queue_get (ranked_queue (snd out)) other = queue_get (ranked_queue st) other).
Proof.
  intros out. subst out. unfold is_player_available.
  fold (in_any_game (games st) user_id).
  pose proof (in_any_game_holds_int_id (games st) user_id) as Hint.
  pose proof (in_active_game_free (games st) user_id) as Hfree.
  destruct (in_any_game (games st) user_id) eqn:Hg; cbn [fst snd].
  { split; [split; [discriminate|intros [H _]; exfalso; apply H, Hint; reflexivity]|].
    split; [intros Hact _; exfalso; apply (Hfree Hact), Hint; reflexivity|].
    split; [discriminate|]. repeat split; reflexivity. }
  assert (Hno : ~ holds_int_id (games st) user_id).
  { intros H. apply Hint in H. discriminate. }
  destruct (queue_get (ranked_queue st) user_id) as [e|] eqn:He.
  - destruct (Z.gtb_spec (now - joined_at e) (300 * 1000000)) as [Hs|Hs];
      cbn [fst snd games ranked_queue queue_search_tasks ranked_queue_rows].
    + split; [split; [intros _; split; [exact Hno|lia]|reflexivity]|].
      split; [reflexivity|].
      split; [intros _; now rewrite in_queue_del, Z.eqb_refl|].
      split; [discriminate|].
      split; [reflexivity|]. split; [reflexivity|]. split; [reflexivity|].
      intros other Hne. now apply queue_get_del_other.
    + split; [split; [discriminate|intros [_ H]; lia]|].
      split; [discriminate|].
      split; [discriminate|]. repeat split; reflexivity.
  - cbn [fst snd].
    split; [split; [intros _; split; [exact Hno|exact I]|reflexivity]|].
    split; [reflexivity|].
    split.
    { intros _.
      destruct (in_queue (ranked_queue st) user_id) eqn:Hq; [|reflexivity].
      apply queue_get_in_queue in Hq as [? Hq]. congruence. }
    split; [discriminate|]. repeat split; reflexivity.
Qed.

Lemma is_player_available_spec_witness :
  in_active_game (games QueueExamples.waiting_in_unranked_game) 15 = true /\
  fst (is_player_available QueueExamples.waiting_in_unranked_game 40 15) = true /\
  fst (is_player_available Examples.three_waiting 300000011 11) = true /\
  in_queue (ranked_queue (snd (is_player_available Examples.three_waiting 300000011 11))) 11
    = false.
Proof.
  destruct (is_player_available_spec QueueExamples.waiting_in_unranked_game 40 15)
    as (Hplaying & _).
  destruct (is_player_available_spec Examples.three_waiting 300000011 11)
    as (Hiff & _ & Hfree & _).
  assert (H : fst (is_player_available Examples.three_waiting 300000011 11) = true).
  { apply Hiff. split; [apply in_any_game_free; vm_compute; reflexivity|].
    vm_compute. reflexivity. }
  split; [vm_compute; reflexivity|]. split.
  - apply Hplaying. split; [apply in_any_game_free; vm_compute; reflexivity|].
    vm_compute. exact I.
  - split; [exact H|]. apply (Hfree H).
Defined.

End QueueLifeCycle.

(** ** Admission and match creation *)
Section Admission.
Import Queue QueueOps.
Local Open Scope string_scope.
Local Open Scope Z_scope.
Import AntiCheat.

Lemma search_queue_in_queue st db now user_id user_rating opponent :
  find_ranked_opponent st db now user_id user_rating = Some opponent ->
  in_queue (ranked_queue st) (pd_user_id opponent) = true /\
  in_any_game (games st) (pd_user_id opponent) = false /\
  pd_user_id opponent <> user_id.
Proof.
  unfold find_ranked_opponent. rewrite search_queue_find.
  destruct (List.find _ _) as [[oid e]|] eqn:Hf; [|discriminate].
  intros [= <-]. destruct (find_some _ _ Hf) as [Hin Hok].
  apply (Permutation_in _ (sorted_by_perm _ _)) in Hin.
  cbn [opponent_of pd_user_id fst snd]. unfold passes_search_tests in Hok. cbn [fst snd] in Hok.
  repeat (apply andb_true_iff in Hok as [Hok ?]).
  split; [|split].
  - unfold in_queue. apply existsb_exists. exists (oid, e).
    split; [exact Hin|apply Z.eqb_refl].
  - now apply negb_true_iff.
  - apply negb_true_iff, Z.eqb_neq in Hok. exact Hok.
Qed.

Lemma create_ranked_match_made st player1 player2 chat rnd id :
  fst (create_ranked_match st player1 player2 chat rnd) = Some id ->
  exists g,
    games (snd (create_ranked_match st player1 player2 chat rnd))
      = <[pretty chat := g]> (games st) /\
    creator g = Some (IdInt (pd_user_id player1)) /\
    joiner g = Some (IdInt (pd_user_id player2)).
Proof.
  unfold create_ranked_match.
  destruct (existsb _ _); [discriminate|].
  cbn [remove_from_ranked_queue games ranked_queue].
  destruct (games st !! pretty chat); [discriminate|].
  intros _. cbn [fst snd games]. eexists. split; [reflexivity|]. split; reflexivity.
Qed.

Lemma create_ranked_match_busy st player1 player2 chat rnd :
  in_any_game (games st) (pd_user_id player1) = true \/
  in_any_game (games st) (pd_user_id player2) = true ->
  fst (create_ranked_match st player1 player2 chat rnd) = None.
Proof.
  intros Hbusy. unfold create_ranked_match. rewrite either_in_game_spec.
  destruct Hbusy as [-> | ->]; [reflexivity|].
  now rewrite orb_true_r.
Qed.

(** X9: Once [create_ranked_match] has made a game, both players are in a
    game and out of the queue, and no later search, by anybody and at any
    time, is answered with one of them; a second creation for either of
    them is refused. *)
Theorem matched_players_leave_matchmaking (st : state)
    (player1 player2 : player_data) (chat rnd : Z) (id : string)
    (Hmade : fst (create_ranked_match st player1 player2 chat rnd) = Some id) :
  let st' := snd (create_ranked_match st player1 player2 chat rnd) in
  in_any_game (games st') (pd_user_id player1) = true /\
  in_any_game (games st') (pd_user_id player2) = true /\
  (forall db now searcher rating opponent,
     find_ranked_opponent st' db now searcher rating = Some opponent ->
     pd_user_id opponent <> pd_user_id player1 /\
     pd_user_id opponent <> pd_user_id player2) /\
  (forall other chat' rnd',
     fst (create_ranked_match st' player1 other chat' rnd') = None /\
     fst (create_ranked_match st' other player2 chat' rnd') = None).
Proof.
  intros st'.
  destruct (create_ranked_match_made _ _ _ _ _ _ Hmade) as (g & Hg & Hc & Hj).
  fold st' in Hg. clearbody st'.
  assert (G1 : in_any_game (games st') (pd_user_id player1) = true).
  { apply in_any_game_spec. exists (pretty chat), g.
    split; [rewrite Hg; apply lookup_insert_eq|].
    unfold player_in_game. rewrite Hc. cbn. now rewrite Z.eqb_refl. }
  assert (G2 : in_any_game (games st') (pd_user_id player2) = true).
  { apply in_any_game_spec. exists (pretty chat), g.
    split; [rewrite Hg; apply lookup_insert_eq|].
    unfold player_in_game. rewrite Hj. cbn. rewrite Z.eqb_refl. apply orb_true_r. }
  split; [exact G1|]. split; [exact G2|]. split.
  - intros db now searcher rating opponent Hfound.
    apply search_queue_in_queue in Hfound as (_ & Hfree & _).
    split; intros Heq; rewrite Heq in Hfree; congruence.
  - intros other chat' rnd'.
    split; apply create_ranked_match_busy; [left|right]; assumption.
Qed.

Lemma matched_players_leave_matchmaking_witness :
  in_any_game
    (games (snd (create_ranked_match Examples.three_waiting
                   (Examples.player 14 "new" 1000) (Examples.player 11 "first" 900)
                   (-1001) 4242))) 11 = true.
Proof.
  apply (matched_players_leave_matchmaking Examples.three_waiting
           (Examples.player 14 "new" 1000) (Examples.player 11 "first" 900)
           (-1001) 4242 "R4242").
  vm_compute. reflexivity.
Defined.

(** X10: [/ranked] answers Searching exactly when no game runs under the chat
    id, the player is not queued, no join cooldown of less than 30 s is
    running, the trust score is at least 10 and the rating is not
    suspended; it never answers with the server error.  Whether the player
    is in a game of another chat is not asked.  After Searching the
    player is queued with the stored rating and tier, stamped [now], and
    any further [/ranked] of the same player is refused. *)
Theorem ranked_admission (st : state) (db : Db.t) (now user_id chat_id : Z)
    (name : string) (message : Z) :
  let out := Entry.ranked st db now user_id chat_id name message in
  let stats := fst (Career.get_career_stats db user_id) in
  (fst (fst out) = Entry.Searching <->
     games st !! pretty chat_id = None /\
     in_queue (ranked_queue st) user_id = false /\
     match user_queue_cooldown st !! user_id with
     | Some last => QUEUE_JOIN_COOLDOWN <= now - last
     | None => True
     end /\
     SUSPEND_TRUST_SCORE <= Db.trust_score stats /\
     Db.rating_suspended stats = false) /\
  fst (fst out) <> Entry.ServerError /\
  (fst (fst out) = Entry.Searching ->
     QueueOps.queue_get (ranked_queue (snd (fst out))) user_id
       = Some {| username := name; rating := Db.rating stats;
                 rank_tier := Db.rank_tier stats; joined_at := now;
                 message := message |} /\
     user_queue_cooldown (snd (fst out)) !! user_id = Some now /\
     games (snd (fst out)) = games st /\
     forall db' now' chat' name' message',
       let reply :=
         fst (fst (Entry.ranked (snd (fst out)) db' now' user_id chat' name' message')) in
       reply = Entry.AlreadyInGame \/ reply = Entry.AlreadySearching) /\
  (fst (fst out) <> Entry.Searching -> snd (fst out) = st).
Proof.
  intros out stats. subst out stats. unfold Entry.ranked.
  destruct (games st !! pretty chat_id) eqn:Hg.
  { cbn. split; [split; [discriminate|intros (? & _); discriminate]|].
    split; [discriminate|]. split; [discriminate|reflexivity]. }
  destruct (in_queue (ranked_queue st) user_id) eqn:Hq.
  { cbn. split; [split; [discriminate|intros (_ & ? & _); discriminate]|].
    split; [discriminate|]. split; [discriminate|reflexivity]. }
  unfold QUEUE_JOIN_COOLDOWN.
  destruct (user_queue_cooldown st !! user_id) as [last|] eqn:Hc.
  - destruct (Z.ltb_spec (now - last) 30000000) as [Hcd|Hcd].
    { cbn. split; [split; [discriminate|intros (_ & _ & ? & _); lia]|].
      split; [discriminate|]. split; [discriminate|reflexivity]. }
    destruct (Career.get_career_stats db user_id) as [stats db1]. cbn [fst].
    unfold SUSPEND_TRUST_SCORE.
    destruct (Z.ltb_spec (Db.trust_score stats) 10) as [Ht|Ht].
    { cbn. split; [split; [discriminate|intros (_ & _ & _ & ? & _); lia]|].
      split; [discriminate|]. split; [discriminate|reflexivity]. }
    destruct (Db.rating_suspended stats) eqn:Hs.
    { cbn. split; [split; [discriminate|intros (_ & _ & _ & _ & ?); discriminate]|].
      split; [discriminate|]. split; [discriminate|reflexivity]. }
    unfold add_to_ranked_queue. rewrite Hq. cbn [negb fst snd].
    cbn [ranked_queue games user_queue_cooldown].
    split; [split; [intros _; repeat split; auto; lia|reflexivity]|].
    split; [discriminate|]. split; [|congruence].
    intros _. split; [now apply queue_get_app_new|].
    split; [apply lookup_insert_eq|]. split; [reflexivity|].
    intros db' now' chat' name' message'. unfold Entry.ranked.
    cbn [games ranked_queue].
    destruct (games st !! pretty chat'); [left; reflexivity|].
    assert (Hin : in_queue
              (ranked_queue st ++
               [(user_id,
                 {| username := name; rating := Db.rating stats;
                    rank_tier := Db.rank_tier stats; joined_at := now;
                    message := message |})]) user_id = true).
    { apply queue_get_in_queue. rewrite queue_get_app_new by exact Hq. eauto. }
    rewrite Hin. right; reflexivity.
  - destruct (Career.get_career_stats db user_id) as [stats db1]. cbn [fst].
    unfold SUSPEND_TRUST_SCORE.
    destruct (Z.ltb_spec (Db.trust_score stats) 10) as [Ht|Ht].
    { cbn. split; [split; [discriminate|intros (_ & _ & _ & ? & _); lia]|].
      split; [discriminate|]. split; [discriminate|reflexivity]. }
    destruct (Db.rating_suspended stats) eqn:Hs.
    { cbn. split; [split; [discriminate|intros (_ & _ & _ & _ & ?); discriminate]|].
      split; [discriminate|]. split; [discriminate|reflexivity]. }
    unfold add_to_ranked_queue. rewrite Hq. cbn [negb fst snd].
    cbn [ranked_queue games user_queue_cooldown].
    split; [split; [intros _; repeat split; auto; lia|reflexivity]|].
    split; [discriminate|]. split; [|congruence].
    intros _. split; [now apply queue_get_app_new|].
    split; [apply lookup_insert_eq|]. split; [reflexivity|].
    intros db' now' chat' name' message'. unfold Entry.ranked.
    cbn [games ranked_queue].
    destruct (games st !! pretty chat'); [left; reflexivity|].
    assert (Hin : in_queue
              (ranked_queue st ++
               [(user_id,
                 {| username := name; rating := Db.rating stats;
                    rank_tier := Db.rank_tier stats; joined_at := now;
                    message := message |})]) user_id = true).
    { apply queue_get_in_queue. rewrite queue_get_app_new by exact Hq. eauto. }
    rewrite Hin. right; reflexivity.
Qed.

End Admission.

(** ** Cancelling a search *)
Section Cancel.
Import Queue QueueOps.
Local Open Scope string_scope.
Local Open Scope Z_scope.

(** X11: [/cancel_queue] answers SearchCanceled exactly when the player is
    queued and then removes the entry, the search task and the stored
    row; otherwise nothing changes.  A second cancel answers NotInQueue.
    The join cooldown is not reset: a [/ranked] less than 30 s after the
    last join is still refused after a cancel. *)
Theorem cancel_queue_spec (st : state) (user_id : Z) :
  let out := cancel_queue st user_id in
  (fst out = SearchCanceled <-> in_queue (ranked_queue st) user_id = true) /\
  (fst out = NotInQueue -> snd out = st) /\
  in_queue (ranked_queue (snd out)) user_id = false /\
  cancel_queue (snd out) user_id = (NotInQueue, snd out) /\
  games (snd out) = games st /\
  (forall other, other <> user_id ->
     queue_get (ranked_queue (snd out)) other = queue_get (ranked_queue st) other) /\
  (forall db now chat_id name message last,
     games st !! pretty chat_id = None ->
     user_queue_cooldown st !! user_id = Some last ->
     now - last < QUEUE_JOIN_COOLDOWN ->
     fst (fst (Entry.ranked (snd out) db now user_id chat_id name message))
       = Entry.CooldownActive).
Proof.
  intros out. subst out. unfold cancel_queue.
  destruct (in_queue (ranked_queue st) user_id) eqn:Hq; cbn [negb fst snd].
  - assert (Hout : in_queue (ranked_queue (remove_from_ranked_queue st user_id)) user_id
                    = false).
    { unfold remove_from_ranked_queue; cbn [ranked_queue].
      now rewrite in_queue_del, Z.eqb_refl. }
    split; [split; [reflexivity|reflexivity]|].
    split; [discriminate|]. split; [exact Hout|].
    split; [now rewrite Hout|]. split; [reflexivity|].
    split.
    + intros other Hne. unfold remove_from_ranked_queue; cbn [ranked_queue].
      now apply queue_get_del_other.
    + intros db now chat_id name message last Hg Hc Hlt.
      assert (Hg' : games (remove_from_ranked_queue st user_id) = games st)
        by reflexivity.
      assert (Hc' : user_queue_cooldown (remove_from_ranked_queue st user_id)
                    = user_queue_cooldown st) by reflexivity.
      unfold Entry.ranked. rewrite Hout, Hg', Hg, Hc', Hc.
      destruct (Z.ltb_spec (now - last) QUEUE_JOIN_COOLDOWN); [reflexivity|lia].
  - split; [split; discriminate|]. split; [reflexivity|].
    split; [exact Hq|]. split; [now rewrite Hq|]. split; [reflexivity|].
    split; [reflexivity|].
    intros db now chat_id name message last Hg Hc Hlt.
    unfold Entry.ranked. rewrite Hg, Hq, Hc.
    destruct (Z.ltb_spec (now - last) QUEUE_JOIN_COOLDOWN); [reflexivity|lia].
Qed.

End Cancel.

(** ** Challenge cooldowns *)
Section Cooldown.
Import Queue QueueOps.
Local Open Scope string_scope.
Local Open Scope Z_scope.

Lemma check_challenge_cooldown_nonneg db now a b :
  0 <= check_challenge_cooldown db now a b.
Proof.
  unfold check_challenge_cooldown.
  destruct (Db.challenge_cooldowns db !! (a, b)); [|lia].
  destruct (_ >? _); lia.
Qed.

Lemma check_challenge_cooldown_positive db now a b :
  0 < check_challenge_cooldown db now a b <->
  exists row, Db.challenge_cooldowns db !! (a, b) = Some row /\
              now + 1000000 <= Db.expires_at row.
Proof.
  unfold check_challenge_cooldown.
  destruct (Db.challenge_cooldowns db !! (a, b)) as [row|].
  - destruct (Z.gtb_spec (Db.expires_at row) now) as [Hgt|Hle].
    + split.
      * intros Hpos. exists row. split; [reflexivity|].
        destruct (Z.le_gt_cases (now + 1000000) (Db.expires_at row)) as [|Hlt]; [assumption|].
        rewrite Z.quot_small in Hpos by lia. lia.
      * intros (row' & [= <-] & Hle).
        assert (1 <= Z.quot (Db.expires_at row - now) 1000000); [|lia].
        rewrite Z.quot_div_nonneg by lia.
        apply Z.div_le_lower_bound; lia.
    + split; [lia|]. intros (row' & [= <-] & ?). lia.
  - split; [lia|]. intros (row' & [=] & _).
Qed.

(** X12: A cooldown written by [add_challenge_cooldown] at [now] for
    [cooldown_minutes] reads back, at any later clock reading, as the
    whole seconds that remain, hence as 0 from one second before it
    expires; the reverse direction and every other pair read as before;
    and as long as it reads positive, neither player of the pair is given
    the other by [find_ranked_opponent]. *)
Theorem challenge_cooldown_round_trip (db : Db.t) (now later challenger_id target_id : Z)
    (cooldown_minutes : Z) (Hlater : now <= later) (Hmin : 0 <= cooldown_minutes) :
  let db' := add_challenge_cooldown db now challenger_id target_id cooldown_minutes in
  let expires := now + cooldown_minutes * 60 * 1000000 in
  check_challenge_cooldown db' now challenger_id target_id = cooldown_minutes * 60 /\
  check_challenge_cooldown db' later challenger_id target_id
    = Z.max 0 ((expires - later) / 1000000) /\
  (0 < check_challenge_cooldown db' later challenger_id target_id
     <-> later + 1000000 <= expires) /\
  (forall a b, (a, b) <> (challenger_id, target_id) ->
     check_challenge_cooldown db' later a b = check_challenge_cooldown db later a b) /\
  Db.career_stats db' = Db.career_stats db /\
  Db.pending_challenges db' = Db.pending_challenges db /\
  (later + 1000000 <= expires ->
   forall st rating opponent,
     (find_ranked_opponent st db' later challenger_id rating = Some opponent ->
      pd_user_id opponent <> target_id) /\
     (find_ranked_opponent st db' later target_id rating = Some opponent ->
      pd_user_id opponent <> challenger_id)).
Proof.
  intros db' expires.
  assert (Hrow : Db.challenge_cooldowns db' !! (challenger_id, target_id)
                 = Some {| Db.expires_at := expires |})
    by apply lookup_insert_eq.
  assert (Hread : forall t, check_challenge_cooldown db' t challenger_id target_id
                            = Z.max 0 ((expires - t) / 1000000)).
  { intros t. unfold check_challenge_cooldown. rewrite Hrow. cbn [Db.expires_at].
    destruct (Z.gtb_spec expires t) as [Hgt|Hle].
    - now rewrite Z.quot_div_nonneg by lia.
    - assert ((expires - t) / 1000000 <= 0); [|lia].
      apply Z.div_le_upper_bound; lia. }
  assert (Hpos : 0 < check_challenge_cooldown db' later challenger_id target_id
                 <-> later + 1000000 <= expires).
  { rewrite check_challenge_cooldown_positive, Hrow. split.
    - intros (row & [= <-] & Hle). exact Hle.
    - intros Hle. eexists. split; [reflexivity|exact Hle]. }
  split.
  { rewrite Hread. subst expires.
    replace (now + cooldown_minutes * 60 * 1000000 - now)
      with (cooldown_minutes * 60 * 1000000) by lia.
    rewrite Z.div_mul by lia. lia. }
  split; [apply Hread|]. split; [exact Hpos|]. split.
  { intros a b Hne. unfold check_challenge_cooldown, db', add_challenge_cooldown.
    cbn [Db.challenge_cooldowns]. now rewrite lookup_insert_ne by congruence. }
  split; [reflexivity|]. split; [reflexivity|].
  intros Hlive st rating opponent. apply Hpos in Hlive.
  split; intros Hfound Heq; unfold find_ranked_opponent in Hfound;
    rewrite search_queue_find in Hfound;
    destruct (List.find _ _) as [[oid e]|] eqn:Hf; try discriminate;
    injection Hfound as <-; cbn [opponent_of pd_user_id fst snd] in Heq; subst oid;
    destruct (find_some _ _ Hf) as [_ Hok]; unfold passes_search_tests in Hok;
    cbn [fst snd] in Hok;
    repeat (apply andb_true_iff in Hok as [Hok ?]);
    repeat match goal with H : (_ <=? _) = true |- _ => apply Z.leb_le in H end; lia.
Qed.

Lemma challenge_cooldown_round_trip_witness :
  check_challenge_cooldown
    (add_challenge_cooldown Db.empty 1000 7 8 5) 1000 7 8 = 5 * 60.
Proof.
  apply (challenge_cooldown_round_trip Db.empty 1000 2000 7 8 5); lia.
Defined.

End Cooldown.

(** ** Declining a challenge *)
Section Decline.
Import Queue QueueOps.
Local Open Scope string_scope.
Local Open Scope Z_scope.
Import ChallengeOps Challenge.

(** X13: The decline button answers Declined exactly when the challenge row
    exists, belongs to the user who pressed it and has status "pending";
    on each other answer the database is unchanged.  A decline rewrites
    the status of that one row only, touches no career row, cannot be
    repeated, and leaves nothing for the timeout task to do. *)
Theorem handle_challenge_decline_spec (db : Db.t) (challenge_id : string)
    (target_id : Z) :
  let out := handle_challenge_decline db challenge_id target_id in
  (fst out = Declined <->
     exists row, Db.pending_challenges db !! challenge_id = Some row /\
                 Db.target_id row = target_id /\ Db.status row = "pending") /\
  (fst out <> Declined -> snd out = db) /\
  Db.career_stats (snd out) = Db.career_stats db /\
  (forall other, other <> challenge_id ->
     Db.pending_challenges (snd out) !! other = Db.pending_challenges db !! other) /\
  (fst out = Declined ->
     (exists row row',
        Db.pending_challenges db !! challenge_id = Some row /\
        Db.pending_challenges (snd out) !! challenge_id = Some row' /\
        Db.status row' = "declined" /\
        Db.challenger_id row' = Db.challenger_id row /\
        Db.target_id row' = Db.target_id row) /\
     handle_challenge_decline (snd out) challenge_id target_id
       = (NoLongerAvailable "declined", snd out) /\
     forall challenger target,
       challenge_timeout_task (snd out) challenge_id challenger target
         = (snd out, None)).
Proof.
  intros out. subst out. unfold handle_challenge_decline.
  destruct (Db.pending_challenges db !! challenge_id) as [row|] eqn:Hrow.
  2:{ cbn [fst snd]. split; [split; [discriminate|intros (? & [=] & _)]|].
      split; [reflexivity|]. split; [reflexivity|]. split; [reflexivity|discriminate]. }
  destruct (Z.eqb_spec target_id (Db.target_id row)) as [Ht|Ht]; cbn [negb].
  2:{ cbn [fst snd]. split; [split; [discriminate|]|].
      { intros (row' & [= <-] & Heq & _). congruence. }
      split; [reflexivity|]. split; [reflexivity|]. split; [reflexivity|discriminate]. }
  destruct (String.eqb_spec (Db.status row) "pending") as [Hs|Hs]; cbn [negb].
  2:{ cbn [fst snd]. split; [split; [discriminate|]|].
      { intros (row' & [= <-] & _ & Heq). congruence. }
      split; [reflexivity|]. split; [reflexivity|]. split; [reflexivity|discriminate]. }
  cbn [fst snd].
  split; [split; [intros _; exists row; auto|reflexivity]|].
  split; [congruence|]. split; [reflexivity|].
  split.
  { intros other Hne. unfold Db.set_pending_challenges; cbn [Db.pending_challenges].
    now rewrite lookup_insert_ne by congruence. }
  intros _.
  set (row' := {| Db.challenger_id := Db.challenger_id row;
                  Db.target_id := Db.target_id row;
                  Db.challenger_name := Db.challenger_name row;
                  Db.target_name := Db.target_name row;
                  Db.status := "declined" |}).
  set (db' := Db.set_pending_challenges db _).
  assert (Hrow' : Db.pending_challenges db' !! challenge_id = Some row')
    by apply lookup_insert_eq.
  split; [exists row, row'; auto|]. split.
  - rewrite Hrow'. cbn [Db.target_id Db.status row'].
    destruct (Z.eqb_spec target_id (Db.target_id row)); [reflexivity|contradiction].
  - intros challenger target.
    apply (challenge_timeout_task_idle _ _ _ _ row' Hrow').
    cbn. auto.
Qed.

End Decline.



(** ** Trust model *)
Section TrustModel.
Import AntiCheat Ledger.
Local Open Scope string_scope.
Local Open Scope Z_scope.

(** X14: The experience multiplier by match count: 0.30 without a career row
    and up to 5 matches, 0.50 up to 10, 0.75 up to 20, 1 from 21 on; a
    negative count falls through every band to the default 1.  It lies
    between 0.30 and 1 and, on counts that are not negative, never
    decreases with the count. *)
Theorem rating_multiplier_by_experience (db : Db.t) (user_id : Z) :
  let m := get_rating_multiplier db user_id in
  (match Db.career_stats db !! user_id with
   | None => m == 0.30
   | Some stats =>
     let n := Db.total_matches stats in
     m == (if n <? 0 then 1
           else if n <=? 5 then 0.30
           else if n <=? 10 then 0.50
           else if n <=? 20 then 0.75
           else 1)
   end)%Q /\
  (0.30 <= m <= 1)%Q /\
  (forall db' user' stats stats',
     Db.career_stats db !! user_id = Some stats ->
     Db.career_stats db' !! user' = Some stats' ->
     0 <= Db.total_matches stats <= Db.total_matches stats' ->
     (m <= get_rating_multiplier db' user')%Q).
Proof.
  intros m. subst m.
  assert (Hval : forall d u s, Db.career_stats d !! u = Some s ->
            (get_rating_multiplier d u ==
             (if Db.total_matches s <? 0 then 1
              else if Db.total_matches s <=? 5 then 0.30
              else if Db.total_matches s <=? 10 then 0.50
              else if Db.total_matches s <=? 20 then 0.75
              else 1))%Q).
  { intros d u s Hs. unfold get_rating_multiplier, RATING_MULTIPLIER_BY_MATCHES.
    rewrite Hs.
    repeat match goal with
           | |- context [?a <? ?b] => destruct (Z.ltb_spec a b)
           | |- context [?a <=? ?b] => destruct (Z.leb_spec a b)
           end; try lia; cbn [andb]; reflexivity. }
  destruct (Db.career_stats db !! user_id) as [stats|] eqn:Hrow.
  - pose proof (Hval _ _ _ Hrow) as Hm. split; [exact Hm|]. split.
    + rewrite Hm.
      repeat match goal with
             | |- context [if ?b then _ else _] => destruct b
             end; split; unfold Qle; cbn; lia.
    + intros db' user' stats0 stats' [= <-] Hrow' Hle.
      rewrite Hm, (Hval _ _ _ Hrow').
      repeat match goal with
             | |- context [if ?a <? ?b then _ else _] =>
                 destruct (Z.ltb_spec a b)
             | |- context [if ?a <=? ?b then _ else _] =>
                 destruct (Z.leb_spec a b)
             end; try lia; unfold Qle; cbn; lia.
  - unfold get_rating_multiplier. rewrite Hrow.
    split; [reflexivity|]. split; [split; unfold Qle; cbn; lia|].
    intros ? ? ? ? [=].
Qed.

Lemma rating_multiplier_by_experience_witness :
  (get_rating_multiplier Examples.db_half_share 1
   <= get_rating_multiplier Examples.db_frequent_pair 1)%Q.
Proof.
  destruct (rating_multiplier_by_experience Examples.db_half_share 1)
    as (_ & _ & Hmono).
  apply (Hmono Examples.db_frequent_pair 1
           (Examples.career_row 1000 "Silver III" 10 false None)
           (Examples.career_row 1000 "Silver III" 30 false None)).
  - vm_compute; reflexivity.
  - vm_compute; reflexivity.
  - cbn; lia.
Defined.

Lemma clamp_range x : 0 <= Z.max 0 (Z.min 100 x) <= 100.
Proof. lia. Qed.

(** X15: [calculate_trust_score] returns a score between 0 and 100.  Without
    a career row it returns 50 and writes nothing; with one it stores the
    score in that row and changes no other column, no other row and no
    other table.  The stored score is never an input: computing again
    gives the same score and the same database.  A player with no
    uncleared flag and no flagged pattern scores 70 plus 2 per known
    opponent, at most 100. *)
Theorem calculate_trust_score_clamped_idempotent (db : Db.t) (user_id : Z) :
  let out := calculate_trust_score db user_id in
  0 <= fst out <= 100 /\
  (Db.career_stats db !! user_id = None -> out = (50, db)) /\
  (forall row, Db.career_stats db !! user_id = Some row ->
     exists row',
       Db.career_stats (snd out) !! user_id = Some row' /\
       Db.trust_score row' = fst out /\
       Db.account_flagged row' = Db.account_flagged row /\
       account row' = account row) /\
  (forall other, other <> user_id ->
     Db.career_stats (snd out) !! other = Db.career_stats db !! other) /\
  Db.match_patterns (snd out) = Db.match_patterns db /\
  Db.suspicious_activities (snd out) = Db.suspicious_activities db /\
  Db.match_history_detailed (snd out) = Db.match_history_detailed db /\
  calculate_trust_score (snd out) user_id = out /\
  (forall row, Db.career_stats db !! user_id = Some row ->
     (forall a, In a (Db.suspicious_activities db) ->
        Db.a_user_id a = user_id -> Db.cleared a = true) ->
     (forall opponent p, Db.match_patterns db !! (user_id, opponent) = Some p ->
        Db.is_flagged p = false) ->
     70 <= fst out).
Proof.
  intros out. subst out. unfold calculate_trust_score.
  destruct (Db.career_stats db !! user_id) as [row|] eqn:Hrow.
  2:{ cbn [fst snd]. rewrite Hrow.
      repeat split; try reflexivity; try lia; intros; discriminate. }
  cbn [fst snd].
  set (score := Z.max 0 (Z.min 100 _)).
  split; [apply clamp_range|]. split; [discriminate|]. split.
  { intros row0 [= <-]. eexists. split; [apply lookup_insert_eq|].
    repeat split. }
  split.
  { intros other Hne. unfold Db.set_career_stats; cbn [Db.career_stats].
    now rewrite lookup_insert_ne by congruence. }
  split; [reflexivity|]. split; [reflexivity|]. split; [reflexivity|]. split.
  { unfold Db.set_career_stats at 1.
    cbn [Db.career_stats Db.match_patterns Db.suspicious_activities].
    rewrite lookup_insert_eq.
    cbn [Db.username Db.rating Db.rank_tier Db.total_matches Db.wins Db.losses
         Db.current_streak Db.streak_type Db.trust_score Db.rating_suspended
         Db.account_flagged Db.total_ranked_matches].
    fold score. f_equal. unfold Db.set_career_stats.
    cbn [Db.career_stats Db.match_patterns Db.suspicious_activities
         Db.match_history_detailed Db.ranked_matches Db.challenge_cooldowns
         Db.pending_challenges].
    f_equal. apply insert_insert_eq. }
  intros row0 _ Hclean Hpat. subst score.
  set (flags := List.filter _ (Db.suspicious_activities db)).
  assert (Hflags : flags = []).
  { subst flags.
    induction (Db.suspicious_activities db) as [|a l IH]; [reflexivity|].
    cbn [List.filter].
    destruct (Z.eqb_spec (Db.a_user_id a) user_id) as [Hu|Hu]; cbn [andb].
    - rewrite (Hclean a (or_introl eq_refl) Hu). cbn [negb].
      apply IH. intros a' Ha'. apply Hclean. now right.
    - apply IH. intros a' Ha'. apply Hclean. now right. }
  rewrite Hflags. cbn [List.length map fold_right Z.of_nat].
  set (mine := List.filter _ (map_to_list (Db.match_patterns db))).
  assert (Hflagged : List.filter (fun kv : Z * Z * Db.pattern => Db.is_flagged (snd kv)) mine = []).
  { assert (Hall : forall kv, In kv mine -> Db.is_flagged (snd kv) = false).
    { intros [[p o] pat] Hin. subst mine. apply List.filter_In in Hin as [Hin Hp].
      cbn [fst snd] in *. apply Z.eqb_eq in Hp. subst p.
      apply (Hpat o). apply elem_of_map_to_list. now apply list_elem_of_In. }
    clearbody mine. induction mine as [|kv l IH]; [reflexivity|].
    cbn [List.filter]. rewrite (Hall kv (or_introl eq_refl)).
    apply IH. intros kv' Hin. apply Hall. now right. }
  rewrite Hflagged. cbn [List.length Z.of_nat].
  unfold ADJ_unique_opponent, ADJ_no_flags.
  change (Z.of_nat 0 >? 0) with false. cbv iota.
  assert (0 <= Z.of_nat (List.length mine)) by lia. lia.
Qed.

Lemma sum_app (l1 l2 : list Z) :
  fold_right Z.add 0 (l1 ++ l2) = fold_right Z.add 0 l1 + fold_right Z.add 0 l2.
Proof. induction l1 as [|x l1 IH]; cbn [fold_right app]; lia. Qed.

Lemma uncleared_impacts_app db l user_id :
  uncleared_impacts (Db.set_suspicious_activities db (Db.suspicious_activities db ++ l))
    user_id
  = uncleared_impacts db user_id
    + uncleared_impacts (Db.set_suspicious_activities db l) user_id.
Proof.
  unfold uncleared_impacts. cbn [Db.suspicious_activities Db.set_suspicious_activities].
  now rewrite List.filter_app, List.map_app, sum_app.
Qed.

(** X16: [flag_suspicious_activity] appends one uncleared record.  If the
    player has a career row it lowers the stored trust score by the impact
    (not below 0) and sets [account_flagged], leaving the rating and the
    counters as they are; without a row no row is created.  Other players
    are not touched.  From then on the player no longer earns the clean
    record bonus: the next computed trust score is at most 80 plus the sum
    of the uncleared impacts, clamped to 0..100. *)
Theorem flag_suspicious_activity_spec (db : Db.t) (user_id : Z) (kind : string)
    (opponent_id : option Z) (details : Db.reason + string) (trust_impact : Z) :
  let db' := flag_suspicious_activity db user_id kind opponent_id details trust_impact in
  Db.suspicious_activities db'
    = (Db.suspicious_activities db ++
       [ {| Db.a_user_id := user_id; Db.activity_type := kind;
            Db.a_opponent_id := opponent_id; Db.details := details;
            Db.trust_score_impact := trust_impact; Db.cleared := false |} ])%list /\
  uncleared_impacts db' user_id = uncleared_impacts db user_id + trust_impact /\
  (forall other, other <> user_id ->
     uncleared_impacts db' other = uncleared_impacts db other /\
     Db.career_stats db' !! other = Db.career_stats db !! other) /\
  (Db.career_stats db !! user_id = None -> Db.career_stats db' = Db.career_stats db) /\
  (forall row, Db.career_stats db !! user_id = Some row ->
     exists row',
       Db.career_stats db' !! user_id = Some row' /\
       Db.trust_score row' = Z.max 0 (Db.trust_score row + trust_impact) /\
       Db.account_flagged row' = true /\
       account row' = account row) /\
  (forall row, Db.career_stats db !! user_id = Some row ->
     fst (calculate_trust_score db' user_id)
     <= Z.max 0 (Z.min 100 (80 + (uncleared_impacts db user_id + trust_impact)))).
Proof.
  intros db'.
  set (new := {| Db.a_user_id := user_id; Db.activity_type := kind;
                 Db.a_opponent_id := opponent_id; Db.details := details;
                 Db.trust_score_impact := trust_impact; Db.cleared := false |}).
  set (db1 := Db.set_suspicious_activities db (Db.suspicious_activities db ++ [new])).
  assert (Hacts : Db.suspicious_activities db' = (Db.suspicious_activities db ++ [new])%list).
  { subst db'. unfold flag_suspicious_activity. fold new. fold db1.
    now destruct (Db.career_stats db1 !! user_id). }
  assert (Hpats : Db.match_patterns db' = Db.match_patterns db).
  { subst db'. unfold flag_suspicious_activity. fold new. fold db1.
    now destruct (Db.career_stats db1 !! user_id). }
  assert (Hsum : forall u, uncleared_impacts db' u
                   = uncleared_impacts db u + if u =? user_id then trust_impact else 0).
  { intros u. transitivity (uncleared_impacts db1 u).
    - unfold uncleared_impacts. now rewrite Hacts.
    - subst db1. rewrite uncleared_impacts_app. f_equal.
      unfold uncleared_impacts. cbn. rewrite (Z.eqb_sym user_id u).
      destruct (u =? user_id); cbn; lia. }
  split; [exact Hacts|]. split; [rewrite Hsum, Z.eqb_refl; reflexivity|]. split.
  { intros other Hne. split.
    - rewrite Hsum. destruct (Z.eqb_spec other user_id); [contradiction|lia].
    - subst db'. unfold flag_suspicious_activity. fold new. fold db1.
      destruct (Db.career_stats db1 !! user_id); [|reflexivity].
      cbn [Db.set_career_stats Db.career_stats].
      now rewrite lookup_insert_ne by congruence. }
  split.
  { intros Hnone. subst db'. unfold flag_suspicious_activity. fold new. fold db1.
    change (Db.career_stats db1) with (Db.career_stats db). now rewrite Hnone. }
  assert (Hrow' : forall row, Db.career_stats db !! user_id = Some row ->
            exists row',
              Db.career_stats db' !! user_id = Some row' /\
              Db.trust_score row' = Z.max 0 (Db.trust_score row + trust_impact) /\
              Db.account_flagged row' = true /\
              account row' = account row).
  { intros row Hrow. subst db'. unfold flag_suspicious_activity. fold new. fold db1.
    change (Db.career_stats db1) with (Db.career_stats db). rewrite Hrow.
    eexists. split; [apply lookup_insert_eq|]. repeat split. }
  split; [exact Hrow'|].
  intros row Hrow. destruct (Hrow' row Hrow) as (row' & Hget & _).
  unfold calculate_trust_score. rewrite Hget. cbn [fst].
  rewrite Hpats, Hacts.
  pose proof (Hsum user_id) as Hs. rewrite Z.eqb_refl in Hs.
  unfold uncleared_impacts in Hs at 1. rewrite Hacts in Hs. rewrite Hs.
  set (flags := List.filter _ (Db.suspicious_activities db ++ [new])).
  assert (Hpos : (Z.of_nat (List.length flags) >? 0) = true).
  { subst flags. rewrite List.filter_app, List.length_app. cbn [List.filter].
    subst new. cbn [Db.a_user_id Db.cleared]. rewrite Z.eqb_refl. cbn [andb negb].
    cbn [List.length]. apply Z.gtb_lt. lia. }
  rewrite Hpos.
  set (mine := List.filter _ (map_to_list (Db.match_patterns db))).
  set (flagged := Z.of_nat (List.length (List.filter _ mine))).
  assert (0 <= flagged) by (subst flagged; lia).
  unfold ADJ_unique_opponent.
  destruct (Z.gtb_spec flagged 0); lia.
Qed.

End TrustModel.

(** ** Pattern checks *)
Section PatternFacts.
Import AntiCheat Ledger.
Import Db(reason, NoReason, MatchesIn24h, SameOpponentShare, BalancedRecord).
Local Open Scope string_scope.
Local Open Scope Z_scope.

Lemma Qle_bool_truediv_l n d a b :
  0 < b -> Qle_bool (n # d) (truediv a b) = (n * b <=? a * Zpos d).
Proof.
  intros Hb. destruct b as [|p|p]; try lia.
  apply eq_true_iff_eq. rewrite Qle_bool_iff, Z.leb_le.
  unfold truediv. rewrite <- Qmake_Qdiv. unfold Qle. cbn [Qnum Qden]. reflexivity.
Qed.

Lemma Qle_bool_truediv_r n d a b :
  0 < b -> Qle_bool (truediv a b) (n # d) = (a * Zpos d <=? n * b).
Proof.
  intros Hb. destruct b as [|p|p]; try lia.
  apply eq_true_iff_eq. rewrite Qle_bool_iff, Z.leb_le.
  unfold truediv. rewrite <- Qmake_Qdiv. unfold Qle. cbn [Qnum Qden]. reflexivity.
Qed.

(** X17: [check_match_patterns] reports a pair as suspicious exactly when the
    pair has a pattern row and either at least 5 of its matches fall in
    the last 24 hours, or it has at least 10 matches and these are at
    least three tenths of the player's matches, or it has at least 10
    matches of which the player won between 45 and 55 percent.  A reason
    is given exactly when the pair is suspicious, and the 24-hour rule is
    reported before the other two. *)
Theorem check_match_patterns_suspicious_iff (db : Db.t) (player opponent : Z) :
  let out := check_match_patterns db player opponent in
  (fst (fst out) = true <->
   exists pattern,
     Db.match_patterns db !! (player, opponent) = Some pattern /\
     (5 <= Db.matches_last_24h pattern \/
      10 <= Db.p_total_matches pattern /\
      ((exists stats,
          Db.career_stats db !! player = Some stats /\
          0 < Db.total_matches stats /\
          3 * Db.total_matches stats <= 10 * Db.p_total_matches pattern) \/
       9 * Db.p_total_matches pattern <= 20 * Db.p_wins pattern
         <= 11 * Db.p_total_matches pattern))) /\
  (fst (fst out) = false <-> snd (fst out) = NoReason) /\
  (forall pattern,
     Db.match_patterns db !! (player, opponent) = Some pattern ->
     5 <= Db.matches_last_24h pattern ->
     snd (fst out) = MatchesIn24h (Db.matches_last_24h pattern)).
Proof.
  intros out. subst out.
  unfold check_match_patterns, SUSPICIOUS_OPPONENT_FREQUENCY,
    SUSPICIOUS_OPPONENT_PERCENTAGE.
  destruct (Db.match_patterns db !! (player, opponent)) as [pattern|].
  2:{ cbn [fst snd]. split; [split; [discriminate|intros (? & [=] & _)]|].
      split; [split; reflexivity|]. intros ? [=]. }
  destruct (Z.geb_spec (Db.matches_last_24h pattern) 5) as [H24|H24].
  { cbn [fst snd]. split; [split; [intros _; exists pattern; auto|reflexivity]|].
    split; [split; discriminate|]. intros p [= <-] _. reflexivity. }
  set (t := Db.p_total_matches pattern). set (w := Db.p_wins pattern).
  set (check3 := if (_ >=? 6) && _ then _ else _).
  assert (H3 : (fst (fst check3) = true <-> 10 <= t /\ 9 * t <= 20 * w <= 11 * t)
               /\ (fst (fst check3) = false <-> snd (fst check3) = NoReason)).
  { subst check3.
    destruct (Z.geb_spec t 6) as [H6|H6]; cbn [andb].
    2:{ cbn [fst snd]. split; [split; [discriminate|lia]|split; reflexivity]. }
    destruct (Z.gtb_spec t 0) as [_|]; [|lia].
    rewrite Qle_bool_truediv_l, Qle_bool_truediv_r by lia.
    destruct (Z.leb_spec (45 * t) (w * 100)), (Z.leb_spec (w * 100) (55 * t)),
             (Z.geb_spec t 10); cbn [andb fst snd];
      (split; [split; [try discriminate; try (intros _; lia)|try reflexivity; try lia]
              |split; try discriminate; try reflexivity]). }
  destruct H3 as [H3 H3'].
  assert (Hfall : (fst (fst check3) = true <->
            exists pattern0 : Db.pattern,
              Some pattern = Some pattern0 /\
              (5 <= Db.matches_last_24h pattern0 \/
               10 <= Db.p_total_matches pattern0 /\
               (False \/
                9 * Db.p_total_matches pattern0 <= 20 * Db.p_wins pattern0
                  <= 11 * Db.p_total_matches pattern0)))).
  { rewrite H3. split.
    - intros [? ?]. exists pattern. split; [reflexivity|]. right. split; [assumption|].
      now right.
    - intros (p & [= <-] & [?|(? & [[]|?])]); [lia|]. now split. }
  destruct (Db.career_stats db !! player) as [stats|] eqn:Hstats.
  2:{ split; [|split; [exact H3'|intros p [= <-]; lia]].
      rewrite Hfall. split; intros (p & Hp & Hc); exists p; (split; [exact Hp|]).
      - destruct Hc as [?|(? & [[]|?])]; auto.
      - destruct Hc as [?|(? & [(? & [=] & _)|?])]; auto. }
  destruct (Z.gtb_spec (Db.total_matches stats) 0) as [Hpos|Hpos].
  2:{ split; [|split; [exact H3'|intros p [= <-]; lia]].
      rewrite Hfall. split; intros (p & Hp & Hc); exists p; (split; [exact Hp|]).
      - destruct Hc as [?|(? & [[]|?])]; auto.
      - destruct Hc as [?|(? & [(s & [= <-] & ? & _)|?])]; auto. lia. }
  rewrite Qle_bool_truediv_l by lia. fold t.
  destruct (Z.leb_spec (30 * Db.total_matches stats) (t * 100)) as [Hshare|Hshare];
    cbn [andb].
  - destruct (Z.geb_spec t 10) as [H10|H10].
    + cbn [fst snd]. split; [|split; [split; discriminate|intros p [= <-]; lia]].
      split; [intros _|reflexivity]. exists pattern. split; [reflexivity|].
      right. split; [exact H10|]. left. exists stats. repeat split; [lia|].
      fold t. lia.
    + split; [|split; [exact H3'|intros p [= <-]; lia]].
      rewrite H3. split; [lia|]. intros (p & [= <-] & Hc). fold t w in Hc. lia.
  - split; [|split; [exact H3'|intros p [= <-]; lia]].
    rewrite Hfall. split; intros (p & Hp & Hc); exists p; (split; [exact Hp|]).
    + destruct Hc as [?|(? & [[]|?])]; auto.
    + injection Hp as <-. fold t w in Hc |- *.
      destruct Hc as [?|(? & [(s & [= <-] & ? & ?)|?])]; auto. lia.
Qed.

End PatternFacts.

(** ** Detailed match history *)
Section HistoryFacts.
Import AntiCheat Settlement Ledger.
Local Open Scope string_scope.
Local Open Scope Z_scope.

Lemma distinct_NoDup l : distinct l = true <-> List.NoDup l.
Proof.
  induction l as [|x l IH]; cbn [distinct].
  - split; [constructor|reflexivity].
  - rewrite andb_true_iff, negb_true_iff, IH. split.
    + intros [Hx Hl]. constructor; [|exact Hl].
      intros Hin. apply not_true_iff_false in Hx. apply Hx.
      apply existsb_exists. exists x. split; [exact Hin|apply String.eqb_refl].
    + intros Hnd. inversion Hnd as [|? ? Hx Hl]; subst. split; [|exact Hl].
      apply not_true_iff_false. intros Hex. apply Hx.
      apply existsb_exists in Hex as (y & Hin & Heq).
      apply String.eqb_eq in Heq. now subst y.
Qed.

Lemma NoDup_map_filter {A} (f : A -> string) (p : A -> bool) l :
  List.NoDup (map f l) -> List.NoDup (map f (List.filter p l)).
Proof.
  induction l as [|x l IH]; cbn [map List.filter]; [auto|].
  intros Hnd. inversion Hnd as [|? ? Hx Hl]; subst.
  destruct (p x); cbn [map]; [|now apply IH].
  constructor; [|now apply IH].
  intros Hin. apply Hx. apply in_map_iff in Hin as (y & Hy & Hin).
  apply List.filter_In in Hin as [Hin _]. apply in_map_iff. eauto.
Qed.

Lemma record_match_detailed_again db game w kind c1 c2 now w' kind' c1' c2' now' :
  record_match_detailed (record_match_detailed db game w kind c1 c2 now)
    game w' kind' c1' c2' now'
  = record_match_detailed db game w kind c1 c2 now.
Proof.
  set (game_id := default (pretty (creator game) +:+ "_" +:+ pretty (joiner game))
                    (id game)).
  assert (Hin : existsb (fun h => String.eqb (Db.match_id h) game_id)
                  (Db.match_history_detailed
                     (record_match_detailed db game w kind c1 c2 now)) = true).
  { unfold record_match_detailed. fold game_id.
    destruct (existsb _ (Db.match_history_detailed db)) eqn:Hex; [exact Hex|].
    cbn [Db.match_history_detailed Db.set_match_history_detailed].
    rewrite existsb_app. cbn [existsb Db.match_id].
    rewrite String.eqb_refl. cbn [orb]. apply orb_true_r. }
  unfold record_match_detailed at 1. fold game_id. now rewrite Hin.
Qed.

(** X18: Games carry no ['id'] entry, so [record_match_detailed] stores each
    one under the id made of its creator and joiner.  With the history
    written that way: it stays that way; a further match of the same
    creator against the same joiner is not stored at all; at most two
    rows exist for any two players; and [detect_win_trading], which needs
    three, reports nothing for any pair. *)
Theorem fallback_ids_silence_win_trading (db : Db.t) (game : finished_game)
    (winner_id : option Z) (kind : string) (change1 change2 now : Z)
    (Hid : id game = None)
    (Hinv : fallback_history (Db.match_history_detailed db) = true) :
  let db' := record_match_detailed db game winner_id kind change1 change2 now in
  fallback_history (Db.match_history_detailed db') = true /\
  (forall winner_id' kind' change1' change2' now',
     record_match_detailed db' game winner_id' kind' change1' change2' now' = db') /\
  (forall a b,
     (List.length (head_to_head db' a b) <= 2)%nat /\
     detect_win_trading db' a b = (false, "")).
Proof.
  intros db'.
  assert (Hinv' : fallback_history (Db.match_history_detailed db') = true).
  { subst db'. unfold record_match_detailed. rewrite Hid. cbn [default].
    destruct (existsb _ _) eqn:Hex; [exact Hinv|].
    cbn [Db.match_history_detailed Db.set_match_history_detailed].
    unfold fallback_history in *. apply andb_true_iff in Hinv as [Hall Hnd].
    apply andb_true_iff. split.
    - rewrite forallb_app, Hall. cbn [forallb Db.match_id Db.h_player1_id Db.h_player2_id].
      unfold fallback_id. now rewrite String.eqb_refl.
    - apply distinct_NoDup. apply distinct_NoDup in Hnd.
      rewrite List.map_app. cbn [map Db.match_id].
      eapply Permutation_NoDup; [apply Permutation_cons_append|].
      constructor; [|exact Hnd].
      intros Hx. apply not_true_iff_false in Hex. apply Hex.
      apply in_map_iff in Hx as (h & Hh & Hin).
      apply existsb_exists. exists h. split; [exact Hin|]. now apply String.eqb_eq. }
  split; [exact Hinv'|]. split.
  { intros. apply record_match_detailed_again. }
  intros a b.
  assert (Hlen : (List.length (head_to_head db' a b) <= 2)%nat).
  { unfold head_to_head. rewrite List.length_map.
    rewrite List.length_firstn. etransitivity; [apply Nat.le_min_r|].
    rewrite sorted_by_length.
    set (between := fun h : Db.history => _).
    unfold fallback_history in Hinv'. apply andb_true_iff in Hinv' as [Hall Hnd].
    apply distinct_NoDup in Hnd.
    rewrite <- (List.length_map Db.match_id).
    apply (NoDup_incl_length (l' := [fallback_id a b; fallback_id b a])).
    - now apply NoDup_map_filter.
    - intros x Hx. apply in_map_iff in Hx as (h & <- & Hin).
      apply List.filter_In in Hin as [Hin Hbt].
      rewrite forallb_forall in Hall. apply Hall, String.eqb_eq in Hin.
      rewrite Hin. subst between. cbn beta in Hbt.
      apply orb_true_iff in Hbt as [Hbt|Hbt];
        apply andb_true_iff in Hbt as [->%Z.eqb_eq ->%Z.eqb_eq];
        [left|right; left]; reflexivity. }
  split; [exact Hlen|].
  unfold detect_win_trading, WIN_TRADING_CONSECUTIVE_THRESHOLD.
  destruct (Z.ltb_spec (Z.of_nat (List.length (head_to_head db' a b))) 3); [reflexivity|lia].
Qed.

Lemma fallback_ids_silence_win_trading_witness :
  detect_win_trading
    (record_match_detailed
       (Examples.db_with_history [Examples.history_row "2_1" 2 1 (Some 1) 100])
       Examples.game_1_vs_2 (Some 2) "ranked" 20 (-20) 200) 1 2
  = (false, "").
Proof.
  apply (fallback_ids_silence_win_trading
           (Examples.db_with_history [Examples.history_row "2_1" 2 1 (Some 1) 100])
           Examples.game_1_vs_2 (Some 2) "ranked" 20 (-20) 200).
  - reflexivity.
  - vm_compute. reflexivity.
Defined.

End HistoryFacts.


(** ** Settlement: sizes and signs of the changes *)
Section SettlementBounds.
Import AntiCheat Settlement Ledger.
Local Open Scope string_scope.
Local Open Scope Z_scope.

(** [int(x)] lies between zero and [x]. *)
Lemma py_int_between (x : Q) (lo hi : Z) :
  lo <= 0 <= hi -> (inject_Z lo <= x <= inject_Z hi)%Q ->
  lo <= py_int x <= hi /\
  ((0 <= x)%Q -> 0 <= py_int x) /\ ((x <= 0)%Q -> py_int x <= 0).
Proof.
  destruct x as [n d]. unfold py_int, Qle, inject_Z. cbn [Qnum Qden].
  intros Hz [Hlo Hhi]. rewrite !Z.mul_1_r in *.
  assert (Hd : 0 < Z.pos d) by lia.
  destruct (Z.le_gt_cases 0 n) as [Hn|Hn].
  - rewrite Z.quot_div_nonneg by lia.
    assert (0 <= n / Z.pos d) by (apply Z.div_pos; lia).
    assert (n / Z.pos d <= hi) by (apply Z.div_le_upper_bound; lia).
    split; [lia|]. split; [lia|]. intros Hle. 
    assert (n = 0) by lia. subst n. now rewrite Z.div_0_l by lia.
  - replace n with (- (- n)) by lia. rewrite Z.quot_opp_l by lia.
    rewrite Z.quot_div_nonneg by lia.
    assert (0 <= (- n) / Z.pos d) by (apply Z.div_pos; lia).
    assert ((- n) / Z.pos d <= - lo) by (apply Z.div_le_upper_bound; lia).
    split; [lia|]. split; [intros; lia|intros; lia].
Qed.

(** The rescaling of a delta by a player's own K-factor. *)
Lemma rescaled_change_bounds (c k1 k2 : Z) :
  0 < k1 -> 0 < k2 ->
  - py_int (inject_Z (k1 + k2) / 2)%Q <= c <= py_int (inject_Z (k1 + k2) / 2)%Q ->
  let y := py_int (inject_Z c * (inject_Z k1 / (inject_Z (k1 + k2) / 2)))%Q in
  - k1 <= y <= k1 /\ (0 <= c -> 0 <= y) /\ (c <= 0 -> y <= 0).
Proof.
  intros H1 H2 Hc y. subst y.
  assert (Hs : (0 < inject_Z (k1 + k2))%Q).
  { rewrite <- (Zlt_Qlt 0). lia. }
  assert (Hhalf : 2 * py_int (inject_Z (k1 + k2) / 2)%Q <= k1 + k2).
  { unfold py_int, Qdiv, Qinv, Qmult, inject_Z. cbn [Qnum Qden Z.mul Pos.mul].
    rewrite Z.mul_1_r. rewrite Z.quot_div_nonneg by lia.
    apply Z.mul_div_le. lia. }
  assert (Heq : (inject_Z c * (inject_Z k1 / (inject_Z (k1 + k2) / 2))
                 == inject_Z (2 * c * k1) / inject_Z (k1 + k2))%Q).
  { rewrite !inject_Z_mult. field. intros H0. rewrite H0 in Hs.
    now apply Qlt_irrefl in Hs. }
  assert (Hup : (inject_Z (2 * c * k1) / inject_Z (k1 + k2) <= inject_Z k1)%Q).
  { apply Qle_shift_div_r; [exact Hs|].
    rewrite <- inject_Z_mult, <- Zle_Qle. nia. }
  assert (Hlo : (inject_Z (- k1) <= inject_Z (2 * c * k1) / inject_Z (k1 + k2))%Q).
  { apply Qle_shift_div_l; [exact Hs|].
    rewrite <- inject_Z_mult, <- Zle_Qle. nia. }
  destruct (py_int_between
              (inject_Z c * (inject_Z k1 / (inject_Z (k1 + k2) / 2)))%Q (- k1) k1)
    as (Hb & Hp & Hn); [lia|rewrite Heq; split; assumption|].
  split; [exact Hb|]. split.
  - intros Hc0. apply Hp. rewrite Heq. apply Qle_shift_div_l; [exact Hs|].
    change 0%Q with (inject_Z 0).
    rewrite <- inject_Z_mult, <- Zle_Qle. nia.
  - intros Hc0. apply Hn. rewrite Heq. apply Qle_shift_div_r; [exact Hs|].
    change 0%Q with (inject_Z 0).
    rewrite <- inject_Z_mult, <- Zle_Qle. nia.
Qed.

Lemma streak_bonus_range streak label winner total :
  0 <= calculate_win_streak_bonus streak label winner total <= 4 /\
  (winner = false -> calculate_win_streak_bonus streak label winner total = 0).
Proof.
  rewrite calculate_win_streak_bonus_unfold.
  destruct winner; cbn [negb]; [|split; [lia|reflexivity]].
  split; [|discriminate].
  repeat match goal with
         | |- context [if ?b then _ else _] => destruct b
         end; lia.
Qed.

(** What a settlement computes, in terms of the two career rows that it
    fetches. *)
Lemma settle_ranked_fields db game score chase now s1 db1 s2 db2 :
  Career.get_career_stats db (creator game) = (s1, db1) ->
  Career.get_career_stats db1 (joiner game) = (s2, db2) ->
  let o := settle_ranked db game score chase now in
  let first_is_p1 := bowler game =? creator game in
  let fs := if first_is_p1 then s1 else s2 in
  let ss := if first_is_p1 then s2 else s1 in
  let w := if target game - score - 1 =? 0 then 0 else if chase then 2 else 1 in
  let k1 := get_k_factor_by_rank (Db.rank_tier fs)
              (default 0 (Db.total_ranked_matches fs)) in
  let k2 := get_k_factor_by_rank (Db.rank_tier ss)
              (default 0 (Db.total_ranked_matches ss)) in
  let r1 := rating_or (player1_rating game) (p1_rating game) in
  let r2 := rating_or (player2_rating game) (p2_rating game) in
  let avg := (inject_Z (k1 + k2) / 2)%Q in
  let elo := calculate_elo_change (if first_is_p1 then r1 else r2)
               (if first_is_p1 then r2 else r1) w (py_int avg) in
  let b1 := if negb (Qle_bool avg 0)
            then py_int (inject_Z (fst elo) * (inject_Z k1 / avg))%Q
            else fst elo in
  let b2 := if negb (Qle_bool avg 0)
            then py_int (inject_Z (snd elo) * (inject_Z k2 / avg))%Q
            else snd elo in
  let sb1 := calculate_win_streak_bonus (Db.current_streak fs) (Db.rank_tier fs)
               (w =? 1) (default 0 (Db.total_ranked_matches fs)) in
  let sb2 := calculate_win_streak_bonus (Db.current_streak ss) (Db.rank_tier ss)
               (w =? 2) (default 0 (Db.total_ranked_matches ss)) in
  let f1 := if first_is_p1 then b1 + sb1 else b2 + sb2 in
  let f2 := if first_is_p1 then b2 + sb2 else b1 + sb1 in
  winner o = w /\ first_batsman_k o = k1 /\ second_batsman_k o = k2 /\
  base_change_first o = b1 /\ base_change_second o = b2 /\
  first_streak_bonus o = sb1 /\ second_streak_bonus o = sb2 /\
  final_change_p1 o = f1 /\ final_change_p2 o = f2 /\
  new_rating_p1 o = r1 + f1 /\ new_rating_p2 o = r2 + f2 /\
  new_rank_p1 o = get_rank_from_rating (r1 + f1) /\
  new_rank_p2 o = get_rank_from_rating (r2 + f2).
Proof.
  intros E1 E2 o first_is_p1 fs ss w k1 k2 r1 r2 avg elo b1 b2 sb1 sb2 f1 f2.
  subst o f1 f2 sb1 sb2 b1 b2 elo avg r1 r2 k1 k2 w fs ss first_is_p1.
  unfold settle_ranked. cbv beta zeta. rewrite E1. cbv beta iota. rewrite E2.
  cbv beta iota.
  destruct (calculate_elo_change _ _ _ _) as [c1 c2].
  destruct (calculate_trust_score db2 (creator game)) as [t1 db3].
  destruct (calculate_trust_score db3 (joiner game)) as [t2 db4].
  cbn [winner first_batsman_k second_batsman_k base_change_first
       base_change_second first_streak_bonus second_streak_bonus
       final_change_p1 final_change_p2 new_rating_p1 new_rating_p2
       new_rank_p1 new_rank_p2 fst snd].
  rewrite !py_int_unit.
  split; [reflexivity|]. split; [reflexivity|]. split; [reflexivity|].
  split; [reflexivity|]. split; [reflexivity|]. split; [reflexivity|].
  split; [reflexivity|]. split; [reflexivity|]. split; [reflexivity|].
  split; [reflexivity|]. split; [reflexivity|]. split; reflexivity.
Qed.

Lemma settle_ranked_base_bounds (db : Db.t) (game : finished_game)
    (score : Z) (chase : bool) (now : Z) :
  let o := settle_ranked db game score chase now in
  let first_is_p1 := bowler game =? creator game in
  (16 <= first_batsman_k o <= 48 /\ 16 <= second_batsman_k o <= 48) /\
  (- first_batsman_k o <= base_change_first o <= first_batsman_k o /\
   - second_batsman_k o <= base_change_second o <= second_batsman_k o) /\
  (winner o = 1 -> 0 <= base_change_first o /\ base_change_second o <= 0) /\
  (winner o = 2 -> base_change_first o <= 0 /\ 0 <= base_change_second o) /\
  (winner o = 0 \/ winner o = 1 \/ winner o = 2) /\
  (0 <= first_streak_bonus o <= 4 /\ 0 <= second_streak_bonus o <= 4 /\
   (winner o <> 1 -> first_streak_bonus o = 0) /\
   (winner o <> 2 -> second_streak_bonus o = 0)) /\
  final_change_p1 o
    = (if first_is_p1 then base_change_first o + first_streak_bonus o
       else base_change_second o + second_streak_bonus o) /\
  final_change_p2 o
    = (if first_is_p1 then base_change_second o + second_streak_bonus o
       else base_change_first o + first_streak_bonus o).
Proof.
  intros o first_is_p1.
  destruct (Career.get_career_stats db (creator game)) as [s1 db1] eqn:E1.
  destruct (Career.get_career_stats db1 (joiner game)) as [s2 db2] eqn:E2.
  destruct (settle_ranked_fields db game score chase now s1 db1 s2 db2 E1 E2)
    as (Hw & Hk1 & Hk2 & Hb1 & Hb2 & Hs1 & Hs2 & Hf1 & Hf2 & _).
  fold o in Hw, Hk1, Hk2, Hb1, Hb2, Hs1, Hs2, Hf1, Hf2.
  fold first_is_p1 in Hw, Hk1, Hk2, Hb1, Hb2, Hs1, Hs2, Hf1, Hf2.
  set (fs := if first_is_p1 then s1 else s2) in *.
  set (ss := if first_is_p1 then s2 else s1) in *.
  set (w := if target game - score - 1 =? 0 then 0 else if chase then 2 else 1) in *.
  set (k1 := get_k_factor_by_rank (Db.rank_tier fs) _) in *.
  set (k2 := get_k_factor_by_rank (Db.rank_tier ss) _) in *.
  pose proof (k_factor_bounds (Db.rank_tier fs)
                (default 0 (Db.total_ranked_matches fs))) as K1.
  pose proof (k_factor_bounds (Db.rank_tier ss)
                (default 0 (Db.total_ranked_matches ss))) as K2.
  fold k1 in K1. fold k2 in K2.
  set (avg := (inject_Z (k1 + k2) / 2)%Q) in *.
  assert (Havg : Qle_bool avg 0 = false).
  { apply not_true_iff_false. rewrite Qle_bool_iff. subst avg.
    unfold Qdiv, Qinv, Qmult, Qle, inject_Z. cbn [Qnum Qden Z.mul Pos.mul]. lia. }
  assert (Hk : 0 <= py_int avg).
  { subst avg. unfold py_int, Qdiv, Qinv, Qmult, inject_Z.
    cbn [Qnum Qden Z.mul Pos.mul]. rewrite Z.mul_1_r.
    rewrite Z.quot_div_nonneg by lia. apply Z.div_pos; lia. }
  set (elo := calculate_elo_change _ _ w (py_int avg)) in *.
  pose proof (calculate_elo_change_range
                (if first_is_p1
                 then rating_or (player1_rating game) (p1_rating game)
                 else rating_or (player2_rating game) (p2_rating game))
                (if first_is_p1
                 then rating_or (player2_rating game) (p2_rating game)
                 else rating_or (player1_rating game) (p1_rating game))
                w (py_int avg) Hk) as (B1 & B2 & W1 & W2 & _).
  fold elo in B1, B2, W1, W2. cbv zeta in B1, B2, W1, W2.
  rewrite Havg in Hb1, Hb2, Hf1, Hf2. cbn [negb] in Hb1, Hb2, Hf1, Hf2.
  destruct (rescaled_change_bounds (fst elo) k1 k2 ltac:(lia) ltac:(lia) B1)
    as (R1 & P1 & N1).
  assert (B2' : - py_int (inject_Z (k2 + k1) / 2)%Q <= snd elo
                <= py_int (inject_Z (k2 + k1) / 2)%Q).
  { rewrite (Z.add_comm k2 k1). exact B2. }
  destruct (rescaled_change_bounds (snd elo) k2 k1 ltac:(lia) ltac:(lia) B2')
    as (R2 & P2 & N2).
  rewrite (Z.add_comm k2 k1) in R2, P2, N2. fold avg in R1, P1, N1, R2, P2, N2.
  rewrite <- Hb1 in R1, P1, N1. rewrite <- Hb2 in R2, P2, N2.
  destruct (streak_bonus_range (Db.current_streak fs) (Db.rank_tier fs) (w =? 1)
              (default 0 (Db.total_ranked_matches fs))) as [S1 S1'].
  destruct (streak_bonus_range (Db.current_streak ss) (Db.rank_tier ss) (w =? 2)
              (default 0 (Db.total_ranked_matches ss))) as [S2 S2'].
  rewrite <- Hs1 in S1, S1'. rewrite <- Hs2 in S2, S2'.
  assert (Hw3 : w = 0 \/ w = 1 \/ w = 2).
  { subst w. destruct (_ =? 0); [auto|]. destruct chase; auto. }
  rewrite <- Hb1, <- Hb2, <- Hs1, <- Hs2 in Hf1, Hf2.
  rewrite Hk1, Hk2, Hw.
  split; [split; assumption|]. split; [split; assumption|].
  split; [intros Hw1; destruct (W1 Hw1); split; auto|].
  split; [intros Hw2; destruct (W2 ltac:(lia) ltac:(lia)); split; auto|].
  split; [exact Hw3|]. split; [|split; assumption].
  split; [exact S1|]. split; [exact S2|]. split.
  - intros Hne. apply S1'. now apply Z.eqb_neq.
  - intros Hne. apply S2'. now apply Z.eqb_neq.
Qed.

(** X19: In every ranked settlement both K-factors lie between 16 and 48; a
    player's base change is at most the player's own K-factor in size, a
    streak bonus is 0, 2 or 4 and is paid to a winner only, so no final
    change is below -48 or above 52; the winner of the match never loses
    rating and the loser never gains. *)
Theorem settlement_change_bounded (db : Db.t) (game : finished_game)
    (score : Z) (chase : bool) (now : Z) :
  let o := settle_ranked db game score chase now in
  let first_is_p1 := bowler game =? creator game in
  (16 <= first_batsman_k o <= 48 /\ 16 <= second_batsman_k o <= 48) /\
  (- first_batsman_k o <= base_change_first o <= first_batsman_k o /\
   - second_batsman_k o <= base_change_second o <= second_batsman_k o) /\
  (0 <= first_streak_bonus o <= 4 /\ 0 <= second_streak_bonus o <= 4 /\
   (winner o <> 1 -> first_streak_bonus o = 0) /\
   (winner o <> 2 -> second_streak_bonus o = 0)) /\
  (-48 <= final_change_p1 o <= 52 /\ -48 <= final_change_p2 o <= 52) /\
  (winner o = 1 ->
     if first_is_p1 then 0 <= final_change_p1 o /\ final_change_p2 o <= 0
     else 0 <= final_change_p2 o /\ final_change_p1 o <= 0) /\
  (winner o = 2 ->
     if first_is_p1 then final_change_p1 o <= 0 /\ 0 <= final_change_p2 o
     else final_change_p2 o <= 0 /\ 0 <= final_change_p1 o) /\
  (winner o = 0 \/ winner o = 1 \/ winner o = 2).
Proof.
  intros o first_is_p1.
  destruct (settle_ranked_base_bounds db game score chase now)
    as (K & (B1 & B2) & W1 & W2 & W3 & (S1 & S2 & L1 & L2) & F1 & F2).
  fold o first_is_p1 in K, B1, B2, W1, W2, W3, S1, S2, L1, L2, F1, F2.
  destruct K as [K1 K2].
  split; [split; assumption|]. split; [split; assumption|].
  split; [repeat (split; [assumption|]); assumption|].
  split.
  { rewrite F1, F2. destruct first_is_p1; split; lia. }
  split.
  { intros Hw. destruct (W1 Hw) as [P N].
    assert (second_streak_bonus o = 0) by (apply L2; lia).
    rewrite F1, F2. destruct first_is_p1; lia. }
  split; [|exact W3].
  intros Hw. destruct (W2 Hw) as [N P].
  assert (first_streak_bonus o = 0) by (apply L1; lia).
  rewrite F1, F2. destruct first_is_p1; lia.
Qed.

End SettlementBounds.

(** ** Settlement: what is stored *)
Section SettlementLedger.
Import AntiCheat Settlement Ledger.
Local Open Scope string_scope.
Local Open Scope Z_scope.

Lemma frame_refl db : frame db db.
Proof. repeat split. Qed.

Lemma frame_trans db1 db2 db3 : frame db1 db2 -> frame db2 db3 -> frame db1 db3.
Proof.
  intros (A1 & B1 & C1 & D1) (A2 & B2 & C2 & D2).
  split; [intros u; now rewrite A2|]. split; [congruence|]. split; congruence.
Qed.

Lemma frame_calculate_trust_score db v : frame db (snd (calculate_trust_score db v)).
Proof.
  unfold calculate_trust_score.
  destruct (Db.career_stats db !! v) as [row|] eqn:Hv; [|apply frame_refl].
  cbn [snd]. split; [|repeat split].
  intros u. unfold accounts. cbn [Db.set_career_stats Db.career_stats].
  destruct (decide (v = u)) as [<-|Hne].
  - now rewrite lookup_insert_eq, Hv.
  - now rewrite lookup_insert_ne.
Qed.

Lemma frame_flag db v kind opp text impact :
  frame db (flag_suspicious_activity db v kind opp text impact).
Proof.
  unfold flag_suspicious_activity.
  cbn [Db.set_suspicious_activities Db.career_stats].
  destruct (Db.career_stats db !! v) as [row|] eqn:Hv; [|repeat split].
  split; [|repeat split].
  intros u. unfold accounts. cbn [Db.set_career_stats Db.career_stats].
  destruct (decide (v = u)) as [<-|Hne].
  - now rewrite lookup_insert_eq, Hv.
  - now rewrite lookup_insert_ne.
Qed.

Lemma get_career_stats_row db v s db' :
  Career.get_career_stats db v = (s, db') ->
  Db.career_stats db' !! v = Some s /\
  (forall u, u <> v -> Db.career_stats db' !! u = Db.career_stats db !! u) /\
  (forall u x, Db.career_stats db !! u = Some x -> Db.career_stats db' !! u = Some x) /\
  Db.ranked_matches db' = Db.ranked_matches db /\
  Db.match_history_detailed db' = Db.match_history_detailed db /\
  read_only_tables db' = read_only_tables db.
Proof.
  unfold Career.get_career_stats.
  destruct (Db.career_stats db !! v) as [row|] eqn:Hv; intros [= <- <-].
  - repeat split; auto.
  - cbn [Db.set_career_stats Db.career_stats]. split; [apply lookup_insert_eq|].
    split; [intros u Hne; now rewrite lookup_insert_ne by congruence|].
    split; [|repeat split].
    intros u x Hu. rewrite lookup_insert_ne; [exact Hu|]. intros <-. congruence.
Qed.

(** The database that a settlement leaves: the flags on top of the score
    updates, then the history row, the two career updates and the row of
    [ranked_matches]. *)
Lemma settle_ranked_db db game score chase now s1 db1 s2 db2 :
  Career.get_career_stats db (creator game) = (s1, db1) ->
  Career.get_career_stats db1 (joiner game) = (s2, db2) ->
  let o := settle_ranked db game score chase now in
  let r1 := rating_or (player1_rating game) (p1_rating game) in
  let r2 := rating_or (player2_rating game) (p2_rating game) in
  exists dbh,
    frame db2 dbh /\
    db_after o =
    let db :=
      record_match_detailed dbh game
        (if winner o =? 1 then Some (creator game)
         else if winner o =? 2 then Some (joiner game) else None)
        "ranked" (final_change_p1 o) (final_change_p2 o) now in
    let db :=
      update_career db (creator game) (final_change_p1 o) (new_rank_p1 o)
        (creator_name game)
        (if winner o =? 1 then 1 else 0) (if winner o =? 2 then 1 else 0)
        (if winner o =? 1 then Db.current_streak s1 + 1 else 0)
        (if winner o =? 1 then "win" else "none") in
    let db :=
      update_career db (joiner game) (final_change_p2 o) (new_rank_p2 o)
        (joiner_name game)
        (if winner o =? 2 then 1 else 0) (if winner o =? 1 then 1 else 0)
        (if winner o =? 2 then Db.current_streak s2 + 1 else 0)
        (if winner o =? 2 then "win" else "none") in
    Db.set_ranked_matches db
      (Db.ranked_matches db ++
       [ {| Db.rm_player1_id := creator game;
            Db.rm_player2_id := joiner game;
            Db.rm_winner_id :=
              if winner o =? 1 then creator game else joiner game;
            Db.p1_rating_before := r1;
            Db.p1_rating_after := r1 + final_change_p1 o;
            Db.p1_rating_change := final_change_p1 o;
            Db.p2_rating_before := r2;
            Db.p2_rating_after := r2 + final_change_p2 o;
            Db.p2_rating_change := final_change_p2 o |} ]).
Proof.
  intros E1 E2 o r1 r2. subst o r1 r2.
  unfold settle_ranked. cbv beta zeta. rewrite E1. cbv beta iota. rewrite E2.
  cbv beta iota.
  destruct (calculate_elo_change _ _ _ _) as [c1 c2].
  pose proof (frame_calculate_trust_score db2 (creator game)) as F3.
  destruct (calculate_trust_score db2 (creator game)) as [t1 db3].
  pose proof (frame_calculate_trust_score db3 (joiner game)) as F4.
  destruct (calculate_trust_score db3 (joiner game)) as [t2 db4].
  cbn [snd] in F3, F4.
  cbn [db_after winner final_change_p1 final_change_p2 new_rank_p1 new_rank_p2].
  rewrite !py_int_unit.
  set (dbf := if fst (fst (check_match_patterns db2 (creator game) (joiner game)))
              then _ else db4).
  assert (Ff : frame db2 dbf).
  { apply (frame_trans _ db4); [apply (frame_trans _ db3); assumption|].
    subst dbf. destruct (fst (fst _)); [apply frame_flag|apply frame_refl]. }
  clearbody dbf.
  set (dbg := if fst (fst (check_match_patterns db2 (joiner game) (creator game)))
              then _ else dbf).
  assert (Fg : frame db2 dbg).
  { apply (frame_trans _ dbf); [assumption|].
    subst dbg. destruct (fst (fst _)); [apply frame_flag|apply frame_refl]. }
  clearbody dbg.
  set (dbh := if fst (detect_win_trading db2 (creator game) (joiner game))
              then _ else dbg).
  assert (Fh : frame db2 dbh).
  { apply (frame_trans _ dbg); [assumption|].
    subst dbh. destruct (fst _); [|apply frame_refl].
    eapply frame_trans; apply frame_flag. }
  clearbody dbh.
  exists dbh. split; [exact Fh|reflexivity].
Qed.

Lemma record_match_detailed_frame db game w kind c1 c2 now :
  (forall u, accounts (record_match_detailed db game w kind c1 c2 now) u = accounts db u) /\
  Db.career_stats (record_match_detailed db game w kind c1 c2 now) = Db.career_stats db /\
  Db.ranked_matches (record_match_detailed db game w kind c1 c2 now)
    = Db.ranked_matches db /\
  read_only_tables (record_match_detailed db game w kind c1 c2 now)
    = read_only_tables db.
Proof. unfold record_match_detailed. destruct (existsb _ _); repeat split. Qed.

Lemma record_match_detailed_history db db' game w kind c1 c2 now :
  Db.match_history_detailed db' = Db.match_history_detailed db ->
  Db.match_history_detailed (record_match_detailed db' game w kind c1 c2 now)
  = Db.match_history_detailed (record_match_detailed db game w kind c1 c2 now).
Proof.
  intros Heq. unfold record_match_detailed. rewrite Heq.
  destruct (existsb _ _); cbn [Db.match_history_detailed Db.set_match_history_detailed];
    congruence.
Qed.

Lemma update_career_frame db v change rank name won lost streak kind :
  Db.ranked_matches (update_career db v change rank name won lost streak kind)
    = Db.ranked_matches db /\
  Db.match_history_detailed (update_career db v change rank name won lost streak kind)
    = Db.match_history_detailed db /\
  read_only_tables (update_career db v change rank name won lost streak kind)
    = read_only_tables db /\
  (forall u, u <> v ->
     Db.career_stats (update_career db v change rank name won lost streak kind) !! u
     = Db.career_stats db !! u).
Proof.
  unfold update_career. destruct (Db.career_stats db !! v); [|repeat split].
  repeat split. intros u Hne. cbn [Db.set_career_stats Db.career_stats].
  now rewrite lookup_insert_ne by congruence.
Qed.

Lemma update_career_row db v change rank name won lost streak kind row :
  Db.career_stats db !! v = Some row ->
  Db.career_stats (update_career db v change rank name won lost streak kind) !! v
  = Some {| Db.username := name;
            Db.rating := Db.rating row + change;
            Db.rank_tier := rank;
            Db.total_matches := Db.total_matches row + 1;
            Db.wins := Db.wins row + won;
            Db.losses := Db.losses row + lost;
            Db.current_streak := streak;
            Db.streak_type := kind;
            Db.trust_score := Db.trust_score row;
            Db.rating_suspended := Db.rating_suspended row;
            Db.account_flagged := Db.account_flagged row;
            Db.total_ranked_matches := Db.total_ranked_matches row |}.
Proof.
  intros Hrow. unfold update_career. rewrite Hrow.
  cbn [Db.set_career_stats Db.career_stats]. apply lookup_insert_eq.
Qed.

Lemma accounts_row db u a :
  accounts db u = Some a ->
  exists row, Db.career_stats db !! u = Some row /\ account row = a.
Proof.
  unfold accounts. destruct (Db.career_stats db !! u) as [row|]; [|discriminate].
  intros [= <-]. eauto.
Qed.

(** The rows of the two players after a settlement. *)
Lemma settle_ranked_rows db game score chase now :
  creator game <> joiner game ->
  let o := settle_ranked db game score chase now in
  let s1 := fst (Career.get_career_stats db (creator game)) in
  let s2 := fst (Career.get_career_stats db (joiner game)) in
  accounts (db_after o) (creator game)
    = Some (creator_name game, Db.rating s1 + final_change_p1 o, new_rank_p1 o,
            Db.total_matches s1 + 1,
            Db.wins s1 + (if winner o =? 1 then 1 else 0),
            Db.losses s1 + (if winner o =? 2 then 1 else 0),
            (if winner o =? 1 then Db.current_streak s1 + 1 else 0),
            (if winner o =? 1 then "win" else "none"),
            Db.rating_suspended s1, Db.total_ranked_matches s1) /\
  accounts (db_after o) (joiner game)
    = Some (joiner_name game, Db.rating s2 + final_change_p2 o, new_rank_p2 o,
            Db.total_matches s2 + 1,
            Db.wins s2 + (if winner o =? 2 then 1 else 0),
            Db.losses s2 + (if winner o =? 1 then 1 else 0),
            (if winner o =? 2 then Db.current_streak s2 + 1 else 0),
            (if winner o =? 2 then "win" else "none"),
            Db.rating_suspended s2, Db.total_ranked_matches s2) /\
  (forall u, u <> creator game -> u <> joiner game ->
     accounts (db_after o) u = accounts db u).
Proof.
  intros Hne o s1 s2. subst s1 s2.
  destruct (Career.get_career_stats db (creator game)) as [s1 db1] eqn:E1.
  assert (E2' : fst (Career.get_career_stats db (joiner game))
                = fst (Career.get_career_stats db1 (joiner game))).
  { destruct (get_career_stats_row _ _ _ _ E1) as (_ & Hoth & _).
    unfold Career.get_career_stats.
    rewrite (Hoth (joiner game)) by congruence.
    now destruct (Db.career_stats db !! joiner game). }
  rewrite E2'. clear E2'.
  destruct (Career.get_career_stats db1 (joiner game)) as [s2 db2] eqn:E2.
  cbn [fst].
  destruct (settle_ranked_db db game score chase now s1 db1 s2 db2 E1 E2)
    as (dbh & (Fa & _) & Hdb).
  fold o in Hdb. rewrite Hdb. cbv zeta. clear Hdb.
  destruct (get_career_stats_row _ _ _ _ E1) as (G1 & G1o & G1' & _).
  destruct (get_career_stats_row _ _ _ _ E2) as (G2 & G2o & G2' & _).
  assert (A1 : accounts dbh (creator game) = Some (account s1)).
  { rewrite Fa. unfold accounts. now rewrite (G2' _ _ G1). }
  assert (A2 : accounts dbh (joiner game) = Some (account s2)).
  { rewrite Fa. unfold accounts. now rewrite G2. }
  set (dbr := record_match_detailed dbh _ _ _ _ _ _).
  destruct (record_match_detailed_frame dbh game
              (if winner o =? 1 then Some (creator game)
               else if winner o =? 2 then Some (joiner game) else None)
              "ranked" (final_change_p1 o) (final_change_p2 o) now)
    as (Ra & _).
  fold dbr in Ra.
  rewrite <- Ra in A1, A2.
  apply accounts_row in A1 as (row1 & R1 & Hacc1).
  apply accounts_row in A2 as (row2 & R2 & Hacc2).
  set (dbu := update_career dbr (creator game) _ _ _ _ _ _ _).
  assert (U1 := update_career_row dbr (creator game) (final_change_p1 o)
                  (new_rank_p1 o) (creator_name game)
                  (if winner o =? 1 then 1 else 0) (if winner o =? 2 then 1 else 0)
                  (if winner o =? 1 then Db.current_streak s1 + 1 else 0)
                  (if winner o =? 1 then "win" else "none") row1 R1).
  fold dbu in U1.
  destruct (update_career_frame dbr (creator game) (final_change_p1 o)
              (new_rank_p1 o) (creator_name game)
              (if winner o =? 1 then 1 else 0) (if winner o =? 2 then 1 else 0)
              (if winner o =? 1 then Db.current_streak s1 + 1 else 0)
              (if winner o =? 1 then "win" else "none")) as (_ & _ & _ & U1o).
  fold dbu in U1o.
  assert (R2' : Db.career_stats dbu !! joiner game = Some row2).
  { rewrite U1o by congruence. exact R2. }
  set (dbv := update_career dbu (joiner game) _ _ _ _ _ _ _).
  assert (U2 := update_career_row dbu (joiner game) (final_change_p2 o)
                  (new_rank_p2 o) (joiner_name game)
                  (if winner o =? 2 then 1 else 0) (if winner o =? 1 then 1 else 0)
                  (if winner o =? 2 then Db.current_streak s2 + 1 else 0)
                  (if winner o =? 2 then "win" else "none") row2 R2').
  fold dbv in U2.
  destruct (update_career_frame dbu (joiner game) (final_change_p2 o)
              (new_rank_p2 o) (joiner_name game)
              (if winner o =? 2 then 1 else 0) (if winner o =? 1 then 1 else 0)
              (if winner o =? 2 then Db.current_streak s2 + 1 else 0)
              (if winner o =? 2 then "win" else "none")) as (_ & _ & _ & U2o).
  fold dbv in U2o.
  unfold accounts at 1 2 3.
  cbn [Db.set_ranked_matches Db.career_stats].
  unfold account in Hacc1, Hacc2.
  injection Hacc1 as ? ? ? ? ? ? ? ? ? ?. injection Hacc2 as ? ? ? ? ? ? ? ? ? ?.
  split; [|split].
  - rewrite U2o by congruence. rewrite U1. unfold account.
    cbn [fmap option_fmap option_map
      Db.username Db.rating Db.rank_tier Db.total_matches Db.wins Db.losses
      Db.current_streak Db.streak_type Db.rating_suspended Db.total_ranked_matches].
    congruence.
  - rewrite U2. unfold account.
    cbn [fmap option_fmap option_map
      Db.username Db.rating Db.rank_tier Db.total_matches Db.wins Db.losses
      Db.current_streak Db.streak_type Db.rating_suspended Db.total_ranked_matches].
    congruence.
  - intros u Hu1 Hu2. rewrite U2o, U1o by congruence.
    fold (accounts dbr u). rewrite Ra, Fa. unfold accounts.
    now rewrite G2o, G1o by congruence.
Qed.

(** X20: A settlement books by position.  The creator's row gets the
    creator's final change, one more match, a win when the first batsman
    won and a loss when the chaser won, whoever batted first; the joiner's
    row gets the opposite; the stored tier is the tier of the rating
    snapshot of the game plus the change; suspension flag and the count of
    ranked matches stay; no third player's row changes.  So when the
    joiner batted first and defended the score, the joiner's rating does
    not fall and the creator's does not rise, while the win is booked for
    the creator and the loss for the joiner. *)
Theorem settlement_ledger_by_position (db : Db.t) (game : finished_game)
    (score : Z) (chase : bool) (now : Z)
    (Hne : creator game <> joiner game) :
  let o := settle_ranked db game score chase now in
  let s1 := fst (Career.get_career_stats db (creator game)) in
  let s2 := fst (Career.get_career_stats db (joiner game)) in
  let r1 := rating_or (player1_rating game) (p1_rating game) in
  let r2 := rating_or (player2_rating game) (p2_rating game) in
  accounts (db_after o) (creator game)
    = Some (creator_name game, Db.rating s1 + final_change_p1 o,
            get_rank_from_rating (r1 + final_change_p1 o),
            Db.total_matches s1 + 1,
            Db.wins s1 + (if winner o =? 1 then 1 else 0),
            Db.losses s1 + (if winner o =? 2 then 1 else 0),
            (if winner o =? 1 then Db.current_streak s1 + 1 else 0),
            (if winner o =? 1 then "win" else "none"),
            Db.rating_suspended s1, Db.total_ranked_matches s1) /\
  accounts (db_after o) (joiner game)
    = Some (joiner_name game, Db.rating s2 + final_change_p2 o,
            get_rank_from_rating (r2 + final_change_p2 o),
            Db.total_matches s2 + 1,
            Db.wins s2 + (if winner o =? 2 then 1 else 0),
            Db.losses s2 + (if winner o =? 1 then 1 else 0),
            (if winner o =? 2 then Db.current_streak s2 + 1 else 0),
            (if winner o =? 2 then "win" else "none"),
            Db.rating_suspended s2, Db.total_ranked_matches s2) /\
  (forall u, u <> creator game -> u <> joiner game ->
     accounts (db_after o) u = accounts db u) /\
  (bowler game = joiner game -> winner o = 1 ->
     0 <= final_change_p2 o /\ final_change_p1 o <= 0).
Proof.
  intros o s1 s2 r1 r2.
  destruct (settle_ranked_rows db game score chase now Hne) as (H1 & H2 & H3).
  fold o s1 s2 in H1, H2, H3.
  destruct (Career.get_career_stats db (creator game)) as [c1 db1] eqn:E1.
  destruct (Career.get_career_stats db1 (joiner game)) as [c2 db2] eqn:E2.
  destruct (settle_ranked_fields db game score chase now c1 db1 c2 db2 E1 E2)
    as (_ & _ & _ & _ & _ & _ & _ & Hf1 & Hf2 & _ & _ & Hr1 & Hr2).
  fold o r1 r2 in Hf1, Hf2, Hr1, Hr2.
  rewrite <- Hf1 in Hr1. rewrite <- Hf2 in Hr2.
  rewrite Hr1 in H1. rewrite Hr2 in H2.
  split; [exact H1|]. split; [exact H2|]. split; [exact H3|].
  intros Hb Hw.
  destruct (settle_ranked_base_bounds db game score chase now)
    as (_ & _ & W1 & _ & _ & (S1 & S2 & _ & L2) & F1 & F2).
  fold o in W1, S1, S2, L2, F1, F2.
  destruct (W1 Hw) as [P N].
  assert (second_streak_bonus o = 0) by (apply L2; lia).
  destruct (Z.eqb_spec (bowler game) (creator game)) as [Heq|_]; [congruence|].
  rewrite F1, F2. lia.
Qed.

Lemma settlement_ledger_by_position_witness :
  accounts
    (db_after (settle_ranked Examples.db_suspended MoreExamples.game_joiner_first
                 30 false 500)) 3
  = accounts Examples.db_suspended 3.
Proof.
  destruct (settlement_ledger_by_position Examples.db_suspended
              MoreExamples.game_joiner_first 30 false 500 ltac:(cbn; lia))
    as (_ & _ & Hothers & _).
  apply Hothers; cbn; lia.
Defined.

(** X21: Every settlement adds exactly one row to [ranked_matches]: each
    rating after is the snapshot before plus the final change, and the
    winner column names the creator when the first batsman won and the
    joiner otherwise, a draw included.  The detailed history is what
    [record_match_detailed] makes of the history before, with no winner
    on a draw.  Pattern rows, challenge cooldowns and pending challenges
    are not written. *)
Theorem settlement_appends_one_ranked_row (db : Db.t) (game : finished_game)
    (score : Z) (chase : bool) (now : Z) :
  let o := settle_ranked db game score chase now in
  let r1 := rating_or (player1_rating game) (p1_rating game) in
  let r2 := rating_or (player2_rating game) (p2_rating game) in
  Db.ranked_matches (db_after o)
    = (Db.ranked_matches db ++
       [ {| Db.rm_player1_id := creator game;
            Db.rm_player2_id := joiner game;
            Db.rm_winner_id :=
              if winner o =? 1 then creator game else joiner game;
            Db.p1_rating_before := r1;
            Db.p1_rating_after := r1 + final_change_p1 o;
            Db.p1_rating_change := final_change_p1 o;
            Db.p2_rating_before := r2;
            Db.p2_rating_after := r2 + final_change_p2 o;
            Db.p2_rating_change := final_change_p2 o |} ])%list /\
  Db.match_history_detailed (db_after o)
    = Db.match_history_detailed
        (record_match_detailed db game
           (if winner o =? 1 then Some (creator game)
            else if winner o =? 2 then Some (joiner game) else None)
           "ranked" (final_change_p1 o) (final_change_p2 o) now) /\
  read_only_tables (db_after o) = read_only_tables db.
Proof.
  intros o r1 r2.
  destruct (Career.get_career_stats db (creator game)) as [s1 db1] eqn:E1.
  destruct (Career.get_career_stats db1 (joiner game)) as [s2 db2] eqn:E2.
  destruct (settle_ranked_db db game score chase now s1 db1 s2 db2 E1 E2)
    as (dbh & (_ & Fr & Fh & Fo) & Hdb).
  fold o r1 r2 in Hdb. rewrite Hdb. cbv zeta. clear Hdb.
  destruct (get_career_stats_row _ _ _ _ E1) as (_ & _ & _ & G1r & G1h & G1o).
  destruct (get_career_stats_row _ _ _ _ E2) as (_ & _ & _ & G2r & G2h & G2o).
  set (wid := if winner o =? 1 then Some (creator game)
              else if winner o =? 2 then Some (joiner game) else None).
  set (dbr := record_match_detailed dbh game wid "ranked" _ _ now).
  destruct (record_match_detailed_frame dbh game wid "ranked"
              (final_change_p1 o) (final_change_p2 o) now) as (_ & _ & Rr & Ro).
  fold dbr in Rr, Ro.
  set (dbu := update_career dbr (creator game) _ _ _ _ _ _ _).
  destruct (update_career_frame dbr (creator game) (final_change_p1 o)
              (new_rank_p1 o) (creator_name game)
              (if winner o =? 1 then 1 else 0) (if winner o =? 2 then 1 else 0)
              (if winner o =? 1 then Db.current_streak s1 + 1 else 0)
              (if winner o =? 1 then "win" else "none")) as (Ur & Uh & Uo & _).
  fold dbu in Ur, Uh, Uo.
  set (dbv := update_career dbu (joiner game) _ _ _ _ _ _ _).
  destruct (update_career_frame dbu (joiner game) (final_change_p2 o)
              (new_rank_p2 o) (joiner_name game)
              (if winner o =? 2 then 1 else 0) (if winner o =? 1 then 1 else 0)
              (if winner o =? 2 then Db.current_streak s2 + 1 else 0)
              (if winner o =? 2 then "win" else "none")) as (Vr & Vh & Vo & _).
  fold dbv in Vr, Vh, Vo.
  split; [|split].
  - cbn [Db.set_ranked_matches Db.ranked_matches].
    now rewrite Vr, Ur, Rr, Fr, G2r, G1r.
  - change (Db.match_history_detailed (Db.set_ranked_matches dbv _))
      with (Db.match_history_detailed dbv).
    rewrite Vh, Uh. subst dbr. apply record_match_detailed_history.
    now rewrite Fh, G2h, G1h.
  - change (read_only_tables (Db.set_ranked_matches dbv _))
      with (read_only_tables dbv).
    now rewrite Vo, Uo, Ro, Fo, G2o, G1o.
Qed.

(** X22: No settlement advances [total_ranked_matches].  While both players'
    rows carry fewer than 5 (or no such entry), both K-factors are the
    placement value 48 and no streak bonus is paid, so each final change
    is the base change, at most 48 in size; and after the settlement both
    rows are in placement still. *)
Theorem placement_outlasts_settlement (db : Db.t) (game : finished_game)
    (score : Z) (chase : bool) (now : Z)
    (Hne : creator game <> joiner game)
    (H1 : default 0 (Db.total_ranked_matches
                       (fst (Career.get_career_stats db (creator game)))) < 5)
    (H2 : default 0 (Db.total_ranked_matches
                       (fst (Career.get_career_stats db (joiner game)))) < 5) :
  let o := settle_ranked db game score chase now in
  first_batsman_k o = 48 /\ second_batsman_k o = 48 /\
  first_streak_bonus o = 0 /\ second_streak_bonus o = 0 /\
  -48 <= final_change_p1 o <= 48 /\ -48 <= final_change_p2 o <= 48 /\
  default 0 (Db.total_ranked_matches
               (fst (Career.get_career_stats (db_after o) (creator game)))) < 5 /\
  default 0 (Db.total_ranked_matches
               (fst (Career.get_career_stats (db_after o) (joiner game)))) < 5.
Proof.
  intros o.
  destruct (settle_ranked_rows db game score chase now Hne) as (R1 & R2 & _).
  fold o in R1, R2.
  destruct (settle_ranked_base_bounds db game score chase now)
    as (_ & (B1 & B2) & _).
  fold o in B1, B2.
  destruct (Career.get_career_stats db (creator game)) as [s1 db1] eqn:E1.
  assert (E2' : fst (Career.get_career_stats db (joiner game))
                = fst (Career.get_career_stats db1 (joiner game))).
  { destruct (get_career_stats_row _ _ _ _ E1) as (_ & Hoth & _).
    unfold Career.get_career_stats.
    rewrite (Hoth (joiner game)) by congruence.
    now destruct (Db.career_stats db !! joiner game). }
  rewrite E2' in H2, R2. clear E2'.
  destruct (Career.get_career_stats db1 (joiner game)) as [s2 db2] eqn:E2.
  cbn [fst] in H1, H2, R1, R2.
  destruct (settle_ranked_fields db game score chase now s1 db1 s2 db2 E1 E2)
    as (_ & Hk1 & Hk2 & _ & _ & Hs1 & Hs2 & Hf1 & Hf2 & _).
  fold o in Hk1, Hk2, Hs1, Hs2, Hf1, Hf2.
  assert (Hplace : forall label t, t < 5 -> get_k_factor_by_rank label t = 48).
  { intros label t Ht. unfold get_k_factor_by_rank.
    destruct (Z.ltb_spec t 5); [reflexivity|lia]. }
  assert (Hnone : forall streak label w t, t < 5 ->
            calculate_win_streak_bonus streak label w t = 0).
  { intros streak label w t Ht. rewrite calculate_win_streak_bonus_unfold.
    destruct (negb w); [reflexivity|].
    destruct (Z.ltb_spec t 5); [reflexivity|lia]. }
  assert (K1 : first_batsman_k o = 48).
  { rewrite Hk1. apply Hplace. destruct (bowler game =? creator game); assumption. }
  assert (K2 : second_batsman_k o = 48).
  { rewrite Hk2. apply Hplace. destruct (bowler game =? creator game); assumption. }
  assert (S1 : first_streak_bonus o = 0).
  { rewrite Hs1. apply Hnone. destruct (bowler game =? creator game); assumption. }
  assert (S2 : second_streak_bonus o = 0).
  { rewrite Hs2. apply Hnone. destruct (bowler game =? creator game); assumption. }
  rewrite K1 in B1. rewrite K2 in B2.
  split; [exact K1|]. split; [exact K2|]. split; [exact S1|]. split; [exact S2|].
  destruct (settle_ranked_fields db game score chase now s1 db1 s2 db2 E1 E2)
    as (_ & _ & _ & Hb1 & Hb2 & _).
  fold o in Hb1, Hb2.
  rewrite <- Hb1, <- Hb2, <- Hs1, <- Hs2 in Hf1, Hf2.
  split; [rewrite Hf1; destruct (bowler game =? creator game); lia|].
  split; [rewrite Hf2; destruct (bowler game =? creator game); lia|].
  apply accounts_row in R1 as (row1 & G1 & A1).
  apply accounts_row in R2 as (row2 & G2 & A2).
  unfold account in A1, A2.
  injection A1 as ? ? ? ? ? ? ? ? ? T1. injection A2 as ? ? ? ? ? ? ? ? ? T2.
  unfold Career.get_career_stats. rewrite G1, G2. cbn [fst].
  rewrite T1, T2. split; assumption.
Qed.

Lemma placement_outlasts_settlement_witness :
  first_batsman_k
    (settle_ranked MoreExamples.db_placement Examples.game_1_vs_2 30 false 500) = 48.
Proof.
  apply (placement_outlasts_settlement MoreExamples.db_placement
           Examples.game_1_vs_2 30 false 500).
  - cbn. lia.
  - vm_compute. reflexivity.
  - vm_compute. reflexivity.
Defined.

End SettlementLedger.

(** ** Settlement: the audit trail and the applied change *)
Section SettlementAudit.
Import Py Rating AntiCheat Settlement Ledger.
Local Open Scope string_scope.
Local Open Scope Z_scope.

(** *** What the anti-cheat steps leave in the database *)

Lemma activities_get_career_stats db v :
  Db.suspicious_activities (snd (Career.get_career_stats db v))
  = Db.suspicious_activities db.
Proof.
  unfold Career.get_career_stats. now destruct (Db.career_stats db !! v).
Qed.

Lemma activities_calculate_trust_score db v :
  Db.suspicious_activities (snd (calculate_trust_score db v))
  = Db.suspicious_activities db.
Proof.
  unfold calculate_trust_score. now destruct (Db.career_stats db !! v).
Qed.

Lemma activities_flag db v kind opp text impact :
  Db.suspicious_activities (flag_suspicious_activity db v kind opp text impact)
  = (Db.suspicious_activities db ++
     [ {| Db.a_user_id := v; Db.activity_type := kind; Db.a_opponent_id := opp;
          Db.details := text; Db.trust_score_impact := impact;
          Db.cleared := false |} ])%list.
Proof.
  unfold flag_suspicious_activity.
  cbn [Db.set_suspicious_activities Db.career_stats].
  now destruct (Db.career_stats db !! v).
Qed.

Lemma activities_record db game w kind c1 c2 now :
  Db.suspicious_activities (record_match_detailed db game w kind c1 c2 now)
  = Db.suspicious_activities db.
Proof. unfold record_match_detailed. now destruct (existsb _ _). Qed.

Lemma activities_update_career db v change rank name won lost streak kind :
  Db.suspicious_activities (update_career db v change rank name won lost streak kind)
  = Db.suspicious_activities db.
Proof. unfold update_career. now destruct (Db.career_stats db !! v). Qed.

Lemma trust_calculate_trust_score db v u :
  Db.trust_score <$> Db.career_stats (snd (calculate_trust_score db v)) !! u
  = if decide (v = u)
    then (fun _ => fst (calculate_trust_score db v))
           <$> (Db.trust_score <$> Db.career_stats db !! u)
    else Db.trust_score <$> Db.career_stats db !! u.
Proof.
  unfold calculate_trust_score.
  destruct (Db.career_stats db !! v) as [row|] eqn:Hv.
  - cbn [fst snd Db.set_career_stats Db.career_stats].
    destruct (decide (v = u)) as [<-|Hne].
    + now rewrite lookup_insert_eq, Hv.
    + now rewrite lookup_insert_ne.
  - cbn [fst snd]. destruct (decide (v = u)) as [<-|Hne]; [now rewrite Hv|reflexivity].
Qed.

Lemma trust_flag db v kind opp text impact u :
  Db.trust_score <$>
    Db.career_stats (flag_suspicious_activity db v kind opp text impact) !! u
  = if decide (v = u)
    then (fun t => Z.max 0 (t + impact))
           <$> (Db.trust_score <$> Db.career_stats db !! u)
    else Db.trust_score <$> Db.career_stats db !! u.
Proof.
  unfold flag_suspicious_activity.
  cbn [Db.set_suspicious_activities Db.career_stats].
  destruct (Db.career_stats db !! v) as [row|] eqn:Hv.
  - cbn [Db.set_career_stats Db.career_stats].
    destruct (decide (v = u)) as [<-|Hne].
    + now rewrite lookup_insert_eq, Hv.
    + now rewrite lookup_insert_ne.
  - cbn [Db.set_suspicious_activities Db.career_stats].
    destruct (decide (v = u)) as [<-|Hne]; [now rewrite Hv|reflexivity].
Qed.

Lemma trust_record db game w kind c1 c2 now u :
  Db.trust_score <$>
    Db.career_stats (record_match_detailed db game w kind c1 c2 now) !! u
  = Db.trust_score <$> Db.career_stats db !! u.
Proof. unfold record_match_detailed. now destruct (existsb _ _). Qed.

Lemma trust_update_career db v change rank name won lost streak kind u :
  Db.trust_score <$>
    Db.career_stats (update_career db v change rank name won lost streak kind) !! u
  = Db.trust_score <$> Db.career_stats db !! u.
Proof.
  unfold update_career.
  destruct (Db.career_stats db !! v) as [row|] eqn:Hv; [|reflexivity].
  cbn [Db.set_career_stats Db.career_stats].
  destruct (decide (v = u)) as [<-|Hne].
  - now rewrite lookup_insert_eq, Hv.
  - now rewrite lookup_insert_ne.
Qed.

(** The score of one player does not depend on the score stored for
    another. *)
Lemma calculate_trust_score_after db v u :
  fst (calculate_trust_score (snd (calculate_trust_score db v)) u)
  = fst (calculate_trust_score db u).
Proof.
  unfold calculate_trust_score at 2.
  destruct (Db.career_stats db !! v) as [row|] eqn:Hv; [|reflexivity].
  cbn [snd]. unfold calculate_trust_score.
  cbn [Db.set_career_stats Db.career_stats Db.match_patterns
       Db.suspicious_activities].
  destruct (decide (v = u)) as [<-|Hne].
  - now rewrite lookup_insert_eq, Hv.
  - rewrite lookup_insert_ne by exact Hne.
    now destruct (Db.career_stats db !! u).
Qed.

(** The average of two K-factors is positive, so the rescaling of the
    settlement always applies. *)
Lemma average_k_positive tier1 total1 tier2 total2 :
  Qle_bool
    (inject_Z (get_k_factor_by_rank tier1 total1 + get_k_factor_by_rank tier2 total2)
     / 2)%Q 0 = false.
Proof.
  pose proof (k_factor_bounds tier1 total1) as K1.
  pose proof (k_factor_bounds tier2 total2) as K2.
  apply not_true_iff_false. rewrite Qle_bool_iff.
  unfold Qdiv, Qinv, Qmult, Qle, inject_Z. cbn [Qnum Qden Z.mul Pos.mul]. lia.
Qed.

(** The audit trail of a settlement: the flag records and the trust
    scores that it leaves, in terms of the database after the two career
    fetches. *)
Lemma settle_ranked_audit db game score chase now s1 db1 s2 db2 :
  Career.get_career_stats db (creator game) = (s1, db1) ->
  Career.get_career_stats db1 (joiner game) = (s2, db2) ->
  let o := settle_ranked db game score chase now in
  let p1 := creator game in
  let p2 := joiner game in
  let check_p1 := check_match_patterns db2 p1 p2 in
  let check_p2 := check_match_patterns db2 p2 p1 in
  let trading := detect_win_trading db2 p1 p2 in
  let dbt := snd (calculate_trust_score (snd (calculate_trust_score db2 p1)) p2) in
  let dbf :=
    if fst (fst check_p1)
    then flag_suspicious_activity dbt p1 "opponent_frequency" (Some p2)
           (inl (snd (fst check_p1))) ADJ_excessive_rematches
    else dbt in
  let dbg :=
    if fst (fst check_p2)
    then flag_suspicious_activity dbf p2 "opponent_frequency" (Some p1)
           (inl (snd (fst check_p2))) ADJ_excessive_rematches
    else dbf in
  let dbh :=
    if fst trading
    then
      flag_suspicious_activity
        (flag_suspicious_activity dbg p1 "win_trading" (Some p2)
           (inr ("Win trading detected: " +:+ snd trading)) ADJ_alternating_wins)
        p2 "win_trading" (Some p1)
        (inr ("Win trading detected: " +:+ snd trading)) ADJ_alternating_wins
    else dbg in
  (pattern_p1 o = check_p1 /\ pattern_p2 o = check_p2 /\ win_trading o = trading /\
   fetched_multiplier_p1 o = get_rating_multiplier db2 p1 /\
   fetched_multiplier_p2 o = get_rating_multiplier db2 p2 /\
   trust_p1 o = fst (calculate_trust_score db2 p1) /\
   trust_p2 o = fst (calculate_trust_score db2 p2)) /\
  (multiplier_p1 o == 1 /\ multiplier_p2 o == 1 /\ trust_mult_p1 o == 1 /\
   trust_mult_p2 o == 1 /\ pattern_mult o == 1)%Q /\
  Db.suspicious_activities (db_after o) = Db.suspicious_activities dbh /\
  (forall u, Db.trust_score <$> Db.career_stats (db_after o) !! u
             = Db.trust_score <$> Db.career_stats dbh !! u).
Proof.
  intros E1 E2 o p1 p2 check_p1 check_p2 trading dbt dbf dbg dbh.
  subst o dbh dbg dbf dbt trading check_p2 check_p1 p2 p1.
  unfold settle_ranked. cbv beta zeta. rewrite E1. cbv beta iota. rewrite E2.
  cbv beta iota.
  destruct (calculate_elo_change _ _ _ _) as [c1 c2].
  pose proof (calculate_trust_score_after db2 (creator game) (joiner game)) as Ht2.
  destruct (calculate_trust_score db2 (creator game)) as [t1 db3].
  cbn [fst snd] in Ht2 |- *.
  destruct (calculate_trust_score db3 (joiner game)) as [t2 db4].
  cbn [fst snd] in Ht2 |- *.
  cbn [pattern_p1 pattern_p2 win_trading fetched_multiplier_p1
       fetched_multiplier_p2 trust_p1 trust_p2 multiplier_p1 multiplier_p2
       trust_mult_p1 trust_mult_p2 pattern_mult db_after].
  split; [repeat split; exact Ht2|].
  split; [repeat split|].
  split.
  - cbn [Db.set_ranked_matches Db.suspicious_activities].
    now rewrite !activities_update_career, activities_record.
  - intros u. cbn [Db.set_ranked_matches Db.career_stats].
    now rewrite !trust_update_career, trust_record.
Qed.

Lemma get_career_stats_twice db u v s1 db1 :
  u <> v ->
  Career.get_career_stats db u = (s1, db1) ->
  fst (Career.get_career_stats db1 v) = fst (Career.get_career_stats db v).
Proof.
  intros Hne E1.
  destruct (get_career_stats_row _ _ _ _ E1) as (_ & Hoth & _).
  unfold Career.get_career_stats.
  rewrite (Hoth v) by congruence.
  now destruct (Db.career_stats db !! v).
Qed.

Lemma activities_fetched db v s db' :
  Career.get_career_stats db v = (s, db') ->
  Db.suspicious_activities db' = Db.suspicious_activities db.
Proof.
  intros E. rewrite <- (activities_get_career_stats db v). now rewrite E.
Qed.

(** The final changes of a settlement, in terms of the two career rows
    that it fetches. *)
Lemma settle_ranked_changes db game score chase now s1 db1 s2 db2 :
  Career.get_career_stats db (creator game) = (s1, db1) ->
  Career.get_career_stats db1 (joiner game) = (s2, db2) ->
  let o := settle_ranked db game score chase now in
  let first_is_p1 := bowler game =? creator game in
  let fs := if first_is_p1 then s1 else s2 in
  let ss := if first_is_p1 then s2 else s1 in
  let w := if target game - score - 1 =? 0 then 0 else if chase then 2 else 1 in
  let r1 := rating_or (player1_rating game) (p1_rating game) in
  let r2 := rating_or (player2_rating game) (p2_rating game) in
  let k1 := get_k_factor_by_rank (Db.rank_tier fs)
              (default 0 (Db.total_ranked_matches fs)) in
  let k2 := get_k_factor_by_rank (Db.rank_tier ss)
              (default 0 (Db.total_ranked_matches ss)) in
  let avg := (inject_Z (k1 + k2) / 2)%Q in
  let elo := calculate_elo_change (if first_is_p1 then r1 else r2)
               (if first_is_p1 then r2 else r1) w (py_int avg) in
  let base_first := py_int (inject_Z (fst elo) * (inject_Z k1 / avg))%Q in
  let base_second := py_int (inject_Z (snd elo) * (inject_Z k2 / avg))%Q in
  let bonus_first :=
    calculate_win_streak_bonus (Db.current_streak fs) (Db.rank_tier fs)
      (w =? 1) (default 0 (Db.total_ranked_matches fs)) in
  let bonus_second :=
    calculate_win_streak_bonus (Db.current_streak ss) (Db.rank_tier ss)
      (w =? 2) (default 0 (Db.total_ranked_matches ss)) in
  winner o = w /\
  final_change_p1 o
    = (if first_is_p1 then base_first + bonus_first else base_second + bonus_second) /\
  final_change_p2 o
    = (if first_is_p1 then base_second + bonus_second else base_first + bonus_first).
Proof.
  intros E1 E2.
  pose proof (settle_ranked_fields db game score chase now s1 db1 s2 db2 E1 E2) as H.
  cbv zeta in H |- *.
  destruct H as (Hw & _ & _ & _ & _ & _ & _ & Hf1 & Hf2 & _).
  rewrite average_k_positive in Hf1, Hf2. cbn [negb] in Hf1, Hf2.
  split; [exact Hw|]. split; assumption.
Qed.

(** What a settlement logs: the flag records that it appends ... *)
Lemma settle_ranked_flags db game score chase now s1 db1 s2 db2 :
  Career.get_career_stats db (creator game) = (s1, db1) ->
  Career.get_career_stats db1 (joiner game) = (s2, db2) ->
  let o := settle_ranked db game score chase now in
  let p1 := creator game in
  let p2 := joiner game in
  let check_p1 := check_match_patterns db2 p1 p2 in
  let check_p2 := check_match_patterns db2 p2 p1 in
  let trading := detect_win_trading db2 p1 p2 in
  let flag (user opponent : Z) (kind : string) (details : Db.reason + string)
      (impact : Z) : Db.activity :=
    {| Db.a_user_id := user; Db.activity_type := kind;
       Db.a_opponent_id := Some opponent; Db.details := details;
       Db.trust_score_impact := impact; Db.cleared := false |} in
  let flags :=
    ((if fst (fst check_p1)
      then [ flag p1 p2 "opponent_frequency" (inl (snd (fst check_p1)))
               ADJ_excessive_rematches ]
      else []) ++
     (if fst (fst check_p2)
      then [ flag p2 p1 "opponent_frequency" (inl (snd (fst check_p2)))
               ADJ_excessive_rematches ]
      else []) ++
     (if fst trading
      then [ flag p1 p2 "win_trading"
               (inr ("Win trading detected: " +:+ snd trading)) ADJ_alternating_wins;
             flag p2 p1 "win_trading"
               (inr ("Win trading detected: " +:+ snd trading)) ADJ_alternating_wins ]
      else []))%list in
  Db.suspicious_activities (db_after o)
    = (Db.suspicious_activities db ++ flags)%list.
Proof.
  intros E1 E2.
  pose proof (settle_ranked_audit db game score chase now s1 db1 s2 db2 E1 E2) as H.
  cbv zeta in H |- *.
  destruct H as (_ & _ & Hact & _).
  assert (Hact0 : Db.suspicious_activities db2 = Db.suspicious_activities db).
  { rewrite (activities_fetched _ _ _ _ E2). apply (activities_fetched _ _ _ _ E1). }
  rewrite Hact. clear Hact.
  destruct (fst (fst (check_match_patterns db2 (creator game) (joiner game))));
    destruct (fst (fst (check_match_patterns db2 (joiner game) (creator game))));
    destruct (fst (detect_win_trading db2 (creator game) (joiner game)));
    rewrite ?activities_flag, ?activities_calculate_trust_score, Hact0;
    rewrite <- ?List.app_assoc; cbn [app]; rewrite ?List.app_nil_r;
    reflexivity.
Qed.

(** ... and the trust scores that it stores: the score computed for each
    player, lowered by the flags that this settlement raises against the
    player. *)
Lemma settle_ranked_trust db game score chase now s1 db1 s2 db2 :
  creator game <> joiner game ->
  Career.get_career_stats db (creator game) = (s1, db1) ->
  Career.get_career_stats db1 (joiner game) = (s2, db2) ->
  let o := settle_ranked db game score chase now in
  let p1 := creator game in
  let p2 := joiner game in
  let check_p1 := check_match_patterns db2 p1 p2 in
  let check_p2 := check_match_patterns db2 p2 p1 in
  let trading := detect_win_trading db2 p1 p2 in
  let lowered (flagged : bool) (trust : Z) : Z :=
    let trust :=
      if flagged then Z.max 0 (trust + ADJ_excessive_rematches) else trust in
    if fst trading then Z.max 0 (trust + ADJ_alternating_wins) else trust in
  Db.trust_score <$> Db.career_stats (db_after o) !! p1
    = Some (lowered (fst (fst check_p1)) (fst (calculate_trust_score db2 p1))) /\
  Db.trust_score <$> Db.career_stats (db_after o) !! p2
    = Some (lowered (fst (fst check_p2)) (fst (calculate_trust_score db2 p2))).
Proof.
  intros Hne E1 E2.
  pose proof (settle_ranked_audit db game score chase now s1 db1 s2 db2 E1 E2) as H.
  cbv zeta in H |- *.
  destruct H as (_ & _ & _ & Htrust).
  destruct (get_career_stats_row _ _ _ _ E1) as (G1 & _).
  destruct (get_career_stats_row _ _ _ _ E2) as (G2 & _ & G2' & _).
  assert (Hrow1 : Db.career_stats db2 !! creator game = Some s1) by auto.
  rewrite !Htrust. clear Htrust.
  destruct (fst (fst (check_match_patterns db2 (creator game) (joiner game))));
    destruct (fst (fst (check_match_patterns db2 (joiner game) (creator game))));
    destruct (fst (detect_win_trading db2 (creator game) (joiner game)));
    split;
    rewrite ?trust_flag, ?trust_calculate_trust_score, ?Hrow1, ?G2;
    repeat match goal with
           | |- context [decide (?a = ?a)] =>
               destruct (decide (a = a)); [|congruence]
           | |- context [decide (?a = ?b)] =>
               destruct (decide (a = b)); [congruence|]
           end;
    rewrite ?calculate_trust_score_after;
    reflexivity.
Qed.

(** The changes that a settlement enters in [ranked_matches]. *)
Lemma settle_ranked_entered db game score chase now :
  let o := settle_ranked db game score chase now in
  map (fun row => (Db.p1_rating_change row, Db.p2_rating_change row))
    (Db.ranked_matches (db_after o))
  = (map (fun row => (Db.p1_rating_change row, Db.p2_rating_change row))
       (Db.ranked_matches db) ++ [ (final_change_p1 o, final_change_p2 o) ])%list.
Proof.
  intros o.
  destruct (Career.get_career_stats db (creator game)) as [s1 db1] eqn:E1.
  destruct (Career.get_career_stats db1 (joiner game)) as [s2 db2] eqn:E2.
  destruct (settle_ranked_db db game score chase now s1 db1 s2 db2 E1 E2)
    as (dbh & (_ & Fr & _) & Hdb).
  fold o in Hdb. rewrite Hdb. cbv zeta. clear Hdb.
  cbn [Db.set_ranked_matches Db.ranked_matches].
  repeat match goal with
         | |- context [Db.ranked_matches (update_career ?d ?v ?c ?r ?n ?a ?b ?s ?k)] =>
             rewrite (proj1 (update_career_frame d v c r n a b s k))
         end.
  match goal with
  | |- context [Db.ranked_matches (record_match_detailed ?d ?g ?w ?k ?c1 ?c2 ?t)] =>
      rewrite (proj1 (proj2 (proj2 (record_match_detailed_frame d g w k c1 c2 t))))
  end.
  destruct (get_career_stats_row _ _ _ _ E1) as (_ & _ & _ & G1r & _).
  destruct (get_career_stats_row _ _ _ _ E2) as (_ & _ & _ & G2r & _).
  rewrite Fr, G2r, G1r, map_app. reflexivity.
Qed.

(** The ratings that a settlement stores. *)
Lemma settle_ranked_ratings db game score chase now s1 db1 s2 db2 :
  creator game <> joiner game ->
  Career.get_career_stats db (creator game) = (s1, db1) ->
  Career.get_career_stats db1 (joiner game) = (s2, db2) ->
  let o := settle_ranked db game score chase now in
  Db.rating <$> Db.career_stats (db_after o) !! creator game
    = Some (Db.rating s1 + final_change_p1 o) /\
  Db.rating <$> Db.career_stats (db_after o) !! joiner game
    = Some (Db.rating s2 + final_change_p2 o).
Proof.
  intros Hne E1 E2 o.
  destruct (settle_ranked_rows db game score chase now Hne) as (R1 & R2 & _).
  fold o in R1, R2. cbv zeta in R1, R2.
  rewrite <- (get_career_stats_twice db _ _ s1 db1 Hne E1) in R2.
  rewrite E1 in R1. rewrite E2 in R2. cbn [fst] in R1, R2.
  apply accounts_row in R1 as (row1 & G1 & A1).
  apply accounts_row in R2 as (row2 & G2 & A2).
  unfold account in A1, A2.
  injection A1 as _ A1 _ _ _ _ _ _ _ _. injection A2 as _ A2 _ _ _ _ _ _ _ _.
  split; [rewrite G1; cbn; now rewrite A1|rewrite G2; cbn; now rewrite A2].
Qed.

(** C5: in every ranked settlement the pattern checks in both directions,
    the win-trading check, the experience multipliers and the trust
    scores of both players are computed, on the database as the two
    career fetches leave it, and they are logged: each check that fires
    leaves its flag record.  The multipliers that are applied are all
    1.0: each player's final rating change is the base ELO change (the
    delta of [calculate_elo_change] at the average K-factor, rescaled by
    the player's own K-factor) plus the player's streak bonus, whatever
    the checks found, and that change is what the row of
    [ranked_matches] gets.  For two distinct players, the stored trust
    score of each is the computed one, lowered by the flags of this
    settlement, and the stored rating of each is the rating before plus
    the final change. *)
Theorem anti_cheat_computed_not_applied
    (db : Db.t) (game : finished_game) (score : Z) (chase : bool) (now : Z) :
  let o := settle_ranked db game score chase now in
  let checked := db_fetched db game in
  let p1 := creator game in
  let p2 := joiner game in
  let s1 := fst (Career.get_career_stats db p1) in
  let s2 := fst (Career.get_career_stats (snd (Career.get_career_stats db p1)) p2) in
  let first_is_p1 := bowler game =? p1 in
  let fs := if first_is_p1 then s1 else s2 in
  let ss := if first_is_p1 then s2 else s1 in
  let w := if target game - score - 1 =? 0 then 0 else if chase then 2 else 1 in
  let r1 := rating_or (player1_rating game) (p1_rating game) in
  let r2 := rating_or (player2_rating game) (p2_rating game) in
  let k1 := get_k_factor_by_rank (Db.rank_tier fs)
              (default 0 (Db.total_ranked_matches fs)) in
  let k2 := get_k_factor_by_rank (Db.rank_tier ss)
              (default 0 (Db.total_ranked_matches ss)) in
  let avg := (inject_Z (k1 + k2) / 2)%Q in
  let elo := calculate_elo_change (if first_is_p1 then r1 else r2)
               (if first_is_p1 then r2 else r1) w (py_int avg) in
  let base_first := py_int (inject_Z (fst elo) * (inject_Z k1 / avg))%Q in
  let base_second := py_int (inject_Z (snd elo) * (inject_Z k2 / avg))%Q in
  let bonus_first :=
    calculate_win_streak_bonus (Db.current_streak fs) (Db.rank_tier fs)
      (w =? 1) (default 0 (Db.total_ranked_matches fs)) in
  let bonus_second :=
    calculate_win_streak_bonus (Db.current_streak ss) (Db.rank_tier ss)
      (w =? 2) (default 0 (Db.total_ranked_matches ss)) in
  let change_p1 :=
    if first_is_p1 then base_first + bonus_first else base_second + bonus_second in
  let change_p2 :=
    if first_is_p1 then base_second + bonus_second else base_first + bonus_first in
  let check_p1 := check_match_patterns checked p1 p2 in
  let check_p2 := check_match_patterns checked p2 p1 in
  let trading := detect_win_trading checked p1 p2 in
  let flag (user opponent : Z) (kind : string) (details : Db.reason + string)
      (impact : Z) : Db.activity :=
    {| Db.a_user_id := user; Db.activity_type := kind;
       Db.a_opponent_id := Some opponent; Db.details := details;
       Db.trust_score_impact := impact; Db.cleared := false |} in
  let flags :=
    ((if fst (fst check_p1)
      then [ flag p1 p2 "opponent_frequency" (inl (snd (fst check_p1)))
               ADJ_excessive_rematches ]
      else []) ++
     (if fst (fst check_p2)
      then [ flag p2 p1 "opponent_frequency" (inl (snd (fst check_p2)))
               ADJ_excessive_rematches ]
      else []) ++
     (if fst trading
      then [ flag p1 p2 "win_trading"
               (inr ("Win trading detected: " +:+ snd trading)) ADJ_alternating_wins;
             flag p2 p1 "win_trading"
               (inr ("Win trading detected: " +:+ snd trading)) ADJ_alternating_wins ]
      else []))%list in
  let lowered (flagged : bool) (trust : Z) : Z :=
    let trust :=
      if flagged then Z.max 0 (trust + ADJ_excessive_rematches) else trust in
    if fst trading then Z.max 0 (trust + ADJ_alternating_wins) else trust in
  handle_game_end db game score chase now
    = (if ranked_match game || is_ranked game then Some o else None) /\
  (pattern_p1 o = check_p1 /\ pattern_p2 o = check_p2 /\ win_trading o = trading /\
   fetched_multiplier_p1 o = get_rating_multiplier checked p1 /\
   fetched_multiplier_p2 o = get_rating_multiplier checked p2 /\
   trust_p1 o = fst (calculate_trust_score checked p1) /\
   trust_p2 o = fst (calculate_trust_score checked p2)) /\
  Db.suspicious_activities (db_after o)
    = (Db.suspicious_activities db ++ flags)%list /\
  (multiplier_p1 o == 1 /\ multiplier_p2 o == 1 /\ trust_mult_p1 o == 1 /\
   trust_mult_p2 o == 1 /\ pattern_mult o == 1)%Q /\
  (winner o = w /\ final_change_p1 o = change_p1 /\ final_change_p2 o = change_p2) /\
  map (fun row => (Db.p1_rating_change row, Db.p2_rating_change row))
    (Db.ranked_matches (db_after o))
  = (map (fun row => (Db.p1_rating_change row, Db.p2_rating_change row))
       (Db.ranked_matches db) ++ [ (change_p1, change_p2) ])%list /\
  (p1 <> p2 ->
   s2 = fst (Career.get_career_stats db p2) /\
   Db.trust_score <$> Db.career_stats (db_after o) !! p1
     = Some (lowered (fst (fst check_p1)) (trust_p1 o)) /\
   Db.trust_score <$> Db.career_stats (db_after o) !! p2
     = Some (lowered (fst (fst check_p2)) (trust_p2 o)) /\
   Db.rating <$> Db.career_stats (db_after o) !! p1 = Some (Db.rating s1 + change_p1) /\
   Db.rating <$> Db.career_stats (db_after o) !! p2 = Some (Db.rating s2 + change_p2)).
Proof.
  cbv zeta. unfold db_fetched.
  split; [reflexivity|].
  pose proof (settle_ranked_entered db game score chase now) as Hrows.
  destruct (Career.get_career_stats db (creator game)) as [c1 db1] eqn:E1.
  cbn [fst snd].
  pose proof (fun Hne => get_career_stats_twice db (creator game) (joiner game)
                          c1 db1 Hne E1) as Htwice.
  destruct (Career.get_career_stats db1 (joiner game)) as [c2 db2] eqn:E2.
  cbn [fst snd] in Htwice |- *.
  pose proof (settle_ranked_audit db game score chase now c1 db1 c2 db2 E1 E2)
    as (Hcomputed & Hunit & _).
  pose proof (settle_ranked_flags db game score chase now c1 db1 c2 db2 E1 E2)
    as Hflags.
  pose proof (settle_ranked_changes db game score chase now c1 db1 c2 db2 E1 E2)
    as (Hw & Hf1 & Hf2).
  cbv zeta in Hcomputed, Hunit, Hflags, Hw, Hf1, Hf2, Hrows.
  split; [exact Hcomputed|].
  split; [exact Hflags|].
  split; [exact Hunit|].
  split; [split; [exact Hw|split; [exact Hf1|exact Hf2]]|].
  rewrite <- Hf1, <- Hf2.
  split; [exact Hrows|].
  intros Hne.
  pose proof (settle_ranked_trust db game score chase now c1 db1 c2 db2 Hne E1 E2)
    as Htrust.
  pose proof (settle_ranked_ratings db game score chase now c1 db1 c2 db2 Hne E1 E2)
    as (Hr1 & Hr2).
  cbv zeta in Htrust, Hr1, Hr2.
  destruct Hcomputed as (_ & _ & _ & _ & _ & Ht1 & Ht2).
  rewrite Ht1, Ht2.
  split; [now rewrite (Htwice Hne)|].
  split; [exact (proj1 Htrust)|]. split; [exact (proj2 Htrust)|].
  split; [exact Hr1|exact Hr2].
Qed.

Lemma anti_cheat_computed_not_applied_witness :
  let o := settle_ranked AuditExamples.db_rematch Examples.game_1_vs_2 30 false 500 in
  fst (fst (pattern_p1 o)) = true /\
  (fetched_multiplier_p1 o == 0.3)%Q /\
  trust_p1 o = 12 /\
  Db.trust_score <$> Db.career_stats (db_after o) !! 1 = Some 0 /\
  final_change_p1 o = 24 /\
  Db.rating <$> Db.career_stats (db_after o) !! 1 = Some 1024.
Proof.
  cbv zeta.
  destruct (anti_cheat_computed_not_applied AuditExamples.db_rematch
              Examples.game_1_vs_2 30 false 500)
    as (_ & (Hp1 & _ & _ & Hm1 & _ & Ht1 & _) & _ & _ & (_ & Hf1 & _) & _ & Hstored).
  destruct (Hstored ltac:(cbn; lia)) as (_ & Hs1 & _ & Hr1 & _).
  assert (H24 : final_change_p1
                  (settle_ranked AuditExamples.db_rematch Examples.game_1_vs_2
                     30 false 500) = 24).
  { unfold settle_ranked. cbv beta zeta.
    run_career_fetch. run_career_fetch. run_elo_arguments.
    rewrite calculate_elo_change_equal by lia. vm_compute. reflexivity. }
  split; [rewrite Hp1; vm_compute; reflexivity|].
  split; [rewrite Hm1; vm_compute; reflexivity|].
  split; [rewrite Ht1; vm_compute; reflexivity|].
  split; [etransitivity; [exact Hs1|]; rewrite Ht1; vm_compute; reflexivity|].
  split; [exact H24|].
  etransitivity; [exact Hr1|]. rewrite <- Hf1, H24. vm_compute. reflexivity.
Defined.

End SettlementAudit.


(** ** The matchmaking attempt *)
Section MatchAttempt.
Import Queue QueueOps RankedCommand QueueSpec.
Local Open Scope string_scope.
Local Open Scope Z_scope.

(** The three ways [create_ranked_match] ends. *)
Lemma create_ranked_match_cases st player1 player2 chat rnd :
  let out := create_ranked_match st player1 player2 chat rnd in
  let dequeued :=
    queue_del (queue_del (ranked_queue st) (pd_user_id player1)) (pd_user_id player2) in
  if in_any_game (games st) (pd_user_id player1)
     || in_any_game (games st) (pd_user_id player2)
  then out = (None, st)
  else
    ranked_queue (snd out) = dequeued /\
    match games st !! pretty chat with
    | Some _ => fst out = None /\ games (snd out) = games st
    | None =>
      fst out = Some ("R" +:+ pretty rnd) /\
      exists g,
        games (snd out) = <[pretty chat := g]> (games st) /\
        creator g = Some (IdInt (pd_user_id player1)) /\
        joiner g = Some (IdInt (pd_user_id player2)) /\
        player1_rating g = Some (pd_rating player1) /\
        player2_rating g = Some (pd_rating player2) /\
        Queue.ranked_match g = true
    end.
Proof.
  intros out dequeued. subst out dequeued. unfold create_ranked_match.
  rewrite either_in_game_spec.
  destruct (in_any_game (games st) (pd_user_id player1)
            || in_any_game (games st) (pd_user_id player2)); [reflexivity|].
  cbn [remove_from_ranked_queue games ranked_queue].
  destruct (games st !! pretty chat); cbn [fst snd games ranked_queue].
  - repeat split.
  - split; [reflexivity|]. split; [reflexivity|].
    eexists. split; [reflexivity|]. repeat split.
Qed.

(** X23: One turn of [periodic_matchmaking_check].  The loop goes on exactly
    while the player is queued and the search finds nobody, and then
    nothing changes.  When the search finds an opponent the loop ends,
    whatever [create_ranked_match] answers: if some game stores the
    player's integer id as creator or joiner nothing changes, so the
    player stays queued with no check running; otherwise both players are
    taken off the queue and, unless a game already runs under the chat id,
    the game is stored under the chat id with the player as creator, the
    opponent as joiner and the ratings of their queue entries as
    snapshots.  A game of the unranked flow, which stores
    [str(user.id)], does not hold the match back. *)
Theorem periodic_check_step_outcomes (st : state) (db : Db.t)
    (now user_id chat_id rnd : Z) :
  let out := periodic_matchmaking_check_step st db now user_id chat_id rnd in
  (in_queue (ranked_queue st) user_id = false -> out = (CheckOver, st)) /\
  (fst out = CheckContinues <->
     exists entry,
       queue_get (ranked_queue st) user_id = Some entry /\
       find_ranked_opponent st db now user_id (rating entry) = None) /\
  (fst out = CheckContinues -> snd out = st) /\
  (forall entry opponent,
     queue_get (ranked_queue st) user_id = Some entry ->
     find_ranked_opponent st db now user_id (rating entry) = Some opponent ->
     (holds_int_id (games st) user_id -> out = (CheckMatched None, st)) /\
     (~ holds_int_id (games st) user_id ->
      in_queue (ranked_queue (snd out)) user_id = false /\
      in_queue (ranked_queue (snd out)) (pd_user_id opponent) = false /\
      match games st !! pretty chat_id with
      | Some _ => fst out = CheckMatched None /\ games (snd out) = games st
      | None =>
        fst out = CheckMatched (Some ("R" +:+ pretty rnd)) /\
        exists g,
          games (snd out) = <[pretty chat_id := g]> (games st) /\
          creator g = Some (IdInt user_id) /\
          joiner g = Some (IdInt (pd_user_id opponent)) /\
          player1_rating g = Some (rating entry) /\
          player2_rating g = Some (pd_rating opponent)
      end)).
Proof.
  intros out. subst out. unfold periodic_matchmaking_check_step.
  destruct (queue_get (ranked_queue st) user_id) as [entry|] eqn:Hget.
  2:{ split; [reflexivity|]. split; [split; [discriminate|intros (? & [=] & _)]|].
      split; [discriminate|]. intros ? ? [=]. }
  assert (Hin : in_queue (ranked_queue st) user_id = true)
    by (apply queue_get_in_queue; rewrite Hget; eauto).
  destruct (find_ranked_opponent st db now user_id (rating entry))
    as [opponent|] eqn:Hfind.
  2:{ cbn [fst snd]. split; [congruence|].
      split; [split; [intros _; exists entry; auto|reflexivity]|].
      split; [reflexivity|]. intros ? ? [= <-] Hf. congruence. }
  cbv zeta.
  set (me := {| pd_user_id := user_id; pd_username := username entry;
                pd_rating := rating entry; pd_rank_tier := rank_tier entry;
                pd_message := None |}).
  pose proof (create_ranked_match_cases st me opponent chat_id rnd) as Hc.
  cbv zeta in Hc.
  destruct (search_queue_in_queue _ _ _ _ _ _ Hfind) as (_ & Hfree & _).
  destruct (create_ranked_match st me opponent chat_id rnd) as [mid st'].
  cbn [fst snd] in *.
  split; [congruence|]. split.
  { split; [discriminate|]. intros (e & [= <-] & Hnone). congruence. }
  split; [discriminate|].
  intros entry0 opponent0 [= <-] Hf. rewrite Hfind in Hf. injection Hf as <-.
  change (pd_user_id me) with user_id in Hc. rewrite Hfree, orb_false_r in Hc.
  pose proof (in_any_game_holds_int_id (games st) user_id) as Hint.
  destruct (in_any_game (games st) user_id).
  { injection Hc as -> ->. split; [reflexivity|].
    intros Hno. exfalso. apply Hno, Hint. reflexivity. }
  split; [intros Hyes; apply Hint in Hyes; discriminate|]. intros _.
  destruct Hc as [Hq Hg]. rewrite Hq.
  split; [now rewrite !in_queue_del, Z.eqb_refl, andb_false_r|].
  split; [now rewrite in_queue_del, Z.eqb_refl|].
  destruct (games st !! pretty chat_id);
    [destruct Hg as [-> Hg]; split; [reflexivity|exact Hg]|].
  destruct Hg as (Hid & g & Hg & Hcr & Hjo & Hr1 & Hr2 & _).
  split; [now rewrite Hid|]. exists g. repeat split; assumption.
Qed.

Lemma periodic_check_step_outcomes_witness :
  in_active_game (games QueueExamples.waiting_in_unranked_game) 11 = true /\
  fst (periodic_matchmaking_check_step QueueExamples.waiting_in_unranked_game
         Db.empty 40 11 (-1001) 4242)
  = CheckMatched (Some "R4242").
Proof.
  destruct (periodic_check_step_outcomes QueueExamples.waiting_in_unranked_game
              Db.empty 40 11 (-1001) 4242) as (_ & _ & _ & Hfound).
  destruct (Hfound (Examples.waiting "first" 900 10)
              (opponent_of 12 (Examples.waiting "second" 1100 20))
              ltac:(vm_compute; reflexivity) ltac:(vm_compute; reflexivity))
    as (_ & Hmade).
  destruct Hmade as (_ & _ & Hid & _);
    [apply in_any_game_free; vm_compute; reflexivity|].
  split; [vm_compute; reflexivity|exact Hid].
Defined.

(** X24: [/ranked], to its end.  A refusal is the refusal of the admission
    checks and leaves the matchmaking state alone.  An admitted player
    for whom the search finds nobody gets a search task and waits.  If it
    finds an opponent and no game stores the player's integer id as
    creator or joiner, the match starts at once: both leave the queue and
    the game is stored under the chat id, the player as creator with the
    stored rating, the opponent as joiner with the rating of the queue
    entry.  If some game does store the player's integer id (a ranked
    game of another chat or a challenge game, which the admission does
    not test), the creation fails and the player stays queued with no
    search task started for them.  A game of the unranked flow, which stores
    [str(user.id)], does not hold the match back. *)
Theorem ranked_command_outcomes (st : state) (db : Db.t)
    (now user_id chat_id : Z) (name : string) (message rnd : Z) :
  let out := ranked st db now user_id chat_id name message rnd in
  let entry := Entry.ranked st db now user_id chat_id name message in
  let admitted := snd (fst entry) in
  let stats := fst (Career.get_career_stats db user_id) in
  snd out = snd entry /\
  (forall reply, fst (fst out) = Refused reply <->
     fst (fst entry) = reply /\ reply <> Entry.Searching) /\
  (fst (fst entry) <> Entry.Searching -> snd (fst out) = st) /\
  (fst (fst entry) = Entry.Searching ->
     match find_ranked_opponent admitted (snd entry) now user_id (Db.rating stats) with
     | None =>
       fst (fst out) = SearchStarted /\
       ranked_queue (snd (fst out)) = ranked_queue admitted /\
       games (snd (fst out)) = games st /\
       queue_search_tasks (snd (fst out)) = queue_search_tasks st ∪ {[ user_id ]}
     | Some opponent =>
       (holds_int_id (games st) user_id ->
        fst (fst out) = MatchCreationFailed /\
        snd (fst out) = admitted /\
        in_queue (ranked_queue (snd (fst out))) user_id = true /\
        queue_search_tasks (snd (fst out)) = queue_search_tasks st) /\
       (~ holds_int_id (games st) user_id ->
        fst (fst out) = MatchStarted ("R" +:+ pretty rnd) /\
        in_queue (ranked_queue (snd (fst out))) user_id = false /\
        in_queue (ranked_queue (snd (fst out))) (pd_user_id opponent) = false /\
        exists g,
          games (snd (fst out)) = <[pretty chat_id := g]> (games st) /\
          creator g = Some (IdInt user_id) /\
          joiner g = Some (IdInt (pd_user_id opponent)) /\
          player1_rating g = Some (Db.rating stats) /\
          player2_rating g = Some (pd_rating opponent))
     end).
Proof.
  intros out entry admitted stats. subst out entry admitted stats.
  unfold ranked, Entry.ranked.
  destruct (games st !! pretty chat_id) eqn:Hchat.
  { cbn [fst snd]. split; [reflexivity|]. split.
    - intros reply. split; [intros [= <-]; split; [reflexivity|discriminate]|].
      intros [<- _]. reflexivity.
    - split; [reflexivity|discriminate]. }
  destruct (in_queue (ranked_queue st) user_id) eqn:Hq.
  { cbn [fst snd]. split; [reflexivity|]. split.
    - intros reply. split; [intros [= <-]; split; [reflexivity|discriminate]|].
      intros [<- _]. reflexivity.
    - split; [reflexivity|discriminate]. }
  destruct (match user_queue_cooldown st !! user_id with
            | Some last => now - last <? QUEUE_JOIN_COOLDOWN
            | None => false
            end).
  { cbn [fst snd]. split; [reflexivity|]. split.
    - intros reply. split; [intros [= <-]; split; [reflexivity|discriminate]|].
      intros [<- _]. reflexivity.
    - split; [reflexivity|discriminate]. }
  destruct (Career.get_career_stats db user_id) as [stats db1]. cbn [fst].
  destruct (Db.trust_score stats <? AntiCheat.SUSPEND_TRUST_SCORE).
  { cbn [fst snd]. split; [reflexivity|]. split.
    - intros reply. split; [intros [= <-]; split; [reflexivity|discriminate]|].
      intros [<- _]. reflexivity.
    - split; [reflexivity|discriminate]. }
  destruct (Db.rating_suspended stats).
  { cbn [fst snd]. split; [reflexivity|]. split.
    - intros reply. split; [intros [= <-]; split; [reflexivity|discriminate]|].
      intros [<- _]. reflexivity.
    - split; [reflexivity|discriminate]. }
  unfold add_to_ranked_queue. rewrite Hq. cbn [negb fst snd].
  cbn [games ranked_queue queue_search_tasks user_queue_cooldown ranked_queue_rows].
  set (admitted := {| games := games st |}).
  destruct (find_ranked_opponent admitted db1 now user_id (Db.rating stats))
    as [opponent|] eqn:Hfind.
  2:{ cbn [fst snd games ranked_queue queue_search_tasks].
      split; [reflexivity|]. split.
      - intros reply. split; [discriminate|]. intros [<- Hne]. congruence.
      - split; [congruence|]. intros _. repeat split. }
  set (me := {| pd_user_id := user_id; pd_username := name;
                pd_rating := Db.rating stats; pd_rank_tier := Db.rank_tier stats;
                pd_message := None |}).
  pose proof (create_ranked_match_cases admitted me opponent chat_id rnd) as Hc.
  cbv zeta in Hc.
  destruct (search_queue_in_queue _ _ _ _ _ _ Hfind) as (_ & Hfree & _).
  change (games admitted) with (games st) in Hc, Hfree.
  change (pd_user_id me) with user_id in Hc. rewrite Hfree, orb_false_r in Hc.
  destruct (create_ranked_match admitted me opponent chat_id rnd) as [mid st'].
  cbn [fst snd] in Hc.
  assert (Hin : in_queue (ranked_queue admitted) user_id = true).
  { apply queue_get_in_queue. subst admitted. cbn [ranked_queue].
    rewrite queue_get_app_new by exact Hq. eauto. }
  pose proof (in_any_game_holds_int_id (games st) user_id) as Hint.
  destruct (in_any_game (games st) user_id).
  - injection Hc as -> ->. cbn [fst snd].
    split; [reflexivity|]. split.
    + intros reply. split; [discriminate|]. intros [<- Hne]. congruence.
    + split; [congruence|]. intros _. split.
      * intros _. repeat split. exact Hin.
      * intros Hno. exfalso. apply Hno, Hint. reflexivity.
  - destruct Hc as [Hqueue Hg]. rewrite Hchat in Hg.
    destruct Hg as (-> & g & Hg & Hcr & Hjo & Hr1 & Hr2 & _). cbn [fst snd].
    split; [reflexivity|]. split.
    + intros reply. split; [discriminate|]. intros [<- Hne]. congruence.
    + split; [congruence|]. intros _. split.
      * intros Hyes. apply Hint in Hyes. discriminate.
      * intros _. split; [reflexivity|]. rewrite Hqueue.
        split; [now rewrite !in_queue_del, Z.eqb_refl, andb_false_r|].
        split; [now rewrite in_queue_del, Z.eqb_refl|].
        exists g. repeat split; assumption.
Qed.

Lemma ranked_command_outcomes_witness :
  in_active_game (games QueueExamples.waiting_in_unranked_game) 15 = true /\
  fst (fst (ranked QueueExamples.waiting_in_unranked_game Db.empty 40 15 (-1001)
              "C" 7 4242))
  = MatchStarted "R4242".
Proof.
  destruct (ranked_command_outcomes QueueExamples.waiting_in_unranked_game
              Db.empty 40 15 (-1001) "C" 7 4242) as (_ & _ & _ & Hadmitted).
  specialize (Hadmitted ltac:(vm_compute; reflexivity)).
  change (find_ranked_opponent _ _ _ _ _)
    with (Some (opponent_of 11 (Examples.waiting "first" 900 10))) in Hadmitted.
  destruct Hadmitted as (_ & Hmade).
  destruct Hmade as (Hid & _);
    [apply in_any_game_free; vm_compute; reflexivity|].
  split; [vm_compute; reflexivity|exact Hid].
Defined.

End MatchAttempt.


(** ** Sending a challenge *)
Section ChallengeFacts.
Import Queue QueueOps RankInfo ChallengeOps Challenge ChallengeCommand AntiCheat Ledger.
Local Open Scope string_scope.
Local Open Scope Z_scope.

(** Of the results of [check_match_patterns] only the one of the 24-hour
    rule carries a ['recent'] entry. *)
Lemma check_match_patterns_recent db player opponent :
  let out := check_match_patterns db player opponent in
  (fst (fst out) && (default 0 (pd_recent (snd out)) >=? SUSPICIOUS_OPPONENT_FREQUENCY)
   = true <->
   exists pattern,
     Db.match_patterns db !! (player, opponent) = Some pattern /\
     5 <= Db.matches_last_24h pattern).
Proof.
  intros out. subst out.
  unfold check_match_patterns, SUSPICIOUS_OPPONENT_FREQUENCY.
  destruct (Db.match_patterns db !! (player, opponent)) as [pattern|].
  2:{ cbn. split; [discriminate|intros (? & [=] & _)]. }
  destruct (Z.geb_spec (Db.matches_last_24h pattern) 5) as [H24|H24].
  { cbn [fst snd pd_recent andb]. unfold default. cbn [from_option]. unfold Datatypes.id.
    split; [intros _; eauto|intros _].
    destruct (Z.geb_spec (Db.matches_last_24h pattern) 5); [reflexivity|lia]. }
  assert (Hno : forall out : bool * Db.reason * pattern_data,
            pd_recent (snd out) = None ->
            (fst (fst out) && (default 0 (pd_recent (snd out)) >=? 5) = true <->
             exists pattern0, Some pattern = Some pattern0 /\
                              5 <= Db.matches_last_24h pattern0)).
  { intros out Hnone. rewrite Hnone. unfold default. cbn [from_option].
    change (0 >=? 5) with false. rewrite andb_false_r.
    split; [discriminate|intros (p & [= <-] & ?); lia]. }
  apply Hno.
  repeat match goal with
         | |- context [match ?x with _ => _ end] => destruct x
         end; reflexivity.
Qed.

Lemma get_career_stats_patterns db v :
  Db.match_patterns (snd (Career.get_career_stats db v)) = Db.match_patterns db /\
  Db.pending_challenges (snd (Career.get_career_stats db v)) = Db.pending_challenges db.
Proof.
  unfold Career.get_career_stats.
  destruct (Db.career_stats db !! v); split; reflexivity.
Qed.

(** X25: [/challenge] sends a challenge exactly when the chat is a group, the
    command replies to a message of another user who is no bot, the
    challenger's stored trust score is at least 10 and the challenger is
    not rating-suspended, the pair has no pattern row with 5 or more
    matches in the last 24 hours, the stored tiers are at most 2 apart,
    both players are available (the target after the challenger's check)
    and the drawn id is not in use.  The target's trust score and
    suspension are not looked at, and of the pattern rules only the
    24-hour one refuses.  A sent challenge is stored as "pending" under
    its id with the two players; the target can decline it, nobody else
    can, and the timeout task leaves it as it is.  Once the two fetches
    have run, both players have a career row, sent or not. *)
Theorem challenge_admission (st : state) (db : Db.t) (now user_id : Z)
    (username : string) (is_private : bool) (reply_to : option target_user)
    (rnd : Z) :
  let out := challenge st db now user_id username is_private reply_to rnd in
  let challenger_stats := fst (Career.get_career_stats db user_id) in
  let db1 := snd (Career.get_career_stats db user_id) in
  (forall challenge_id,
     fst (fst out) = ChallengeSent challenge_id <->
     is_private = false /\
     exists target,
       reply_to = Some target /\
       t_id target <> user_id /\ t_is_bot target = false /\
       SUSPEND_TRUST_SCORE <= Db.trust_score challenger_stats /\
       Db.rating_suspended challenger_stats = false /\
       (forall pattern,
          Db.match_patterns db !! (user_id, t_id target) = Some pattern ->
          Db.matches_last_24h pattern < 5) /\
       get_rank_tier_distance (Db.rank_tier challenger_stats)
         (Db.rank_tier (fst (Career.get_career_stats db1 (t_id target)))) <= 2 /\
       fst (is_player_available st now user_id) = true /\
       fst (is_player_available (snd (is_player_available st now user_id)) now
              (t_id target)) = true /\
       challenge_id = "CH" +:+ pretty rnd /\
       Db.pending_challenges db !! challenge_id = None) /\
  (forall challenge_id target,
     fst (fst out) = ChallengeSent challenge_id -> reply_to = Some target ->
     Db.pending_challenges (snd out) !! challenge_id
       = Some {| Db.challenger_id := user_id; Db.target_id := t_id target;
                 Db.challenger_name := username; Db.target_name := t_name target;
                 Db.status := "pending" |} /\
     (forall other, other <> challenge_id ->
        Db.pending_challenges (snd out) !! other = Db.pending_challenges db !! other) /\
     fst (handle_challenge_decline (snd out) challenge_id (t_id target)) = Declined /\
     (forall presser, presser <> t_id target ->
        handle_challenge_decline (snd out) challenge_id presser = (NotForYou, snd out)) /\
     (forall challenger target',
        challenge_timeout_task (snd out) challenge_id challenger target'
          = (snd out, None))) /\
  (forall target,
     is_private = false -> reply_to = Some target ->
     t_id target <> user_id -> t_is_bot target = false ->
     is_Some (Db.career_stats (snd out) !! user_id) /\
     is_Some (Db.career_stats (snd out) !! t_id target)).
Proof.
  intros out challenger_stats db1. subst out challenger_stats db1.
  unfold challenge.
  destruct is_private.
  { cbn [fst snd]. split; [|split].
    - intros cid. split; [discriminate|intros ([=] & _)].
    - intros ? ? [=].
    - intros ? [=]. }
  destruct reply_to as [target|].
  2:{ cbn [fst snd]. split; [|split].
      - intros cid. split; [discriminate|intros (_ & ? & [=] & _)].
      - intros ? ? [=].
      - intros ? _ [=]. }
  cbv zeta.
  destruct (Z.eqb_spec (t_id target) user_id) as [Hself|Hself].
  { cbn [fst snd]. split; [|split].
    - intros cid. split; [discriminate|].
      intros (_ & t & [= <-] & Hne & _). contradiction.
    - intros ? ? [=].
    - intros ? _ [= <-] Hne. contradiction. }
  destruct (t_is_bot target) eqn:Hbot.
  { cbn [fst snd]. split; [|split].
    - intros cid. split; [discriminate|].
      intros (_ & t & [= <-] & _ & Hb & _). congruence.
    - intros ? ? [=].
    - intros ? _ [= <-] _ Hb. congruence. }
  pose proof (get_career_stats_present db user_id) as P1.
  pose proof (get_career_stats_patterns db user_id) as [M1 Q1].
  destruct (Career.get_career_stats db user_id) as [cs db1]. cbn [fst snd] in *.
  pose proof (get_career_stats_present db1 (t_id target)) as P2.
  pose proof (get_career_stats_patterns db1 (t_id target)) as [M2 Q2].
  assert (P1' : is_Some (Db.career_stats
                           (snd (Career.get_career_stats db1 (t_id target))) !! user_id)).
  { destruct P1 as [row Hrow]. exists row.
    unfold Career.get_career_stats.
    destruct (Db.career_stats db1 !! t_id target) eqn:Ht; cbn [snd]; [exact Hrow|].
    cbn [Db.set_career_stats Db.career_stats].
    rewrite lookup_insert_ne; [exact Hrow|]. congruence. }
  destruct (Career.get_career_stats db1 (t_id target)) as [ts db2] eqn:E2.
  cbn [fst snd] in *.
  rewrite M1 in M2. rewrite Q1 in Q2.
  assert (Rows : forall out : challenge_reply * state,
            forall t, Some target = Some t ->
            is_Some (Db.career_stats (snd (out, db2)) !! user_id) /\
            is_Some (Db.career_stats (snd (out, db2)) !! t_id t)).
  { intros out t [= <-]. cbn [snd]. split; assumption. }
  unfold SUSPEND_TRUST_SCORE.
  destruct (Z.ltb_spec (Db.trust_score cs) 10) as [Htrust|Htrust].
  { cbn [fst]. split; [|split].
    - intros cid. split; [discriminate|].
      intros (_ & t & [= <-] & _ & _ & ? & _). lia.
    - intros ? ? [=].
    - intros t _ Ht _ _. now apply Rows. }
  destruct (Db.rating_suspended cs) eqn:Hsusp.
  { cbn [fst]. split; [|split].
    - intros cid. split; [discriminate|].
      intros (_ & t & [= <-] & _ & _ & _ & ? & _). congruence.
    - intros ? ? [=].
    - intros t _ Ht _ _. now apply Rows. }
  pose proof (check_match_patterns_recent db2 user_id (t_id target)) as Hrecent.
  cbv zeta in Hrecent. rewrite M2 in Hrecent.
  destruct (check_match_patterns db2 user_id (t_id target)) as [[suspicious reason] pattern].
  cbn [fst snd] in Hrecent.
  destruct (suspicious && _) eqn:Hblock.
  { cbn [fst]. split; [|split].
    - intros cid. split; [discriminate|].
      intros (_ & t & [= <-] & _ & _ & _ & _ & Hpat & _).
      destruct Hrecent as [Hrec _]. destruct (Hrec eq_refl) as (p & Hp & H5).
      specialize (Hpat p Hp). lia.
    - intros ? ? [=].
    - intros t _ Ht _ _. now apply Rows. }
  assert (Hquiet : forall p, Db.match_patterns db !! (user_id, t_id target) = Some p ->
                     Db.matches_last_24h p < 5).
  { intros p Hp. destruct (Z.lt_ge_cases (Db.matches_last_24h p) 5) as [|H5]; [assumption|].
    destruct Hrecent as [_ Hrec]. discriminate Hrec. eauto. }
  destruct (Z.gtb_spec (get_rank_tier_distance (Db.rank_tier cs) (Db.rank_tier ts)) 2)
    as [Hfar|Hnear].
  { cbn [fst]. split; [|split].
    - intros cid. split; [discriminate|].
      intros (_ & t & [= <-] & _ & _ & _ & _ & _ & Hd & _).
      rewrite E2 in Hd. cbn [fst] in Hd. lia.
    - intros ? ? [=].
    - intros t _ Ht _ _. now apply Rows. }
  destruct (is_player_available st now user_id) as [a1 st1].
  cbn [fst snd].
  destruct a1; cbn [negb].
  2:{ cbn [fst]. split; [|split].
      - intros cid. split; [discriminate|].
        intros (_ & t & [= <-] & _ & _ & _ & _ & _ & _ & ? & _). discriminate.
      - intros ? ? [=].
      - intros t _ Ht _ _. now apply Rows. }
  destruct (is_player_available st1 now (t_id target)) as [a2 st2] eqn:A2.
  destruct a2; cbn [negb].
  2:{ cbn [fst]. split; [|split].
      - intros cid. split; [discriminate|].
        intros (_ & t & [= <-] & _ & _ & _ & _ & _ & _ & _ & Ha & _).
        rewrite A2 in Ha. discriminate.
      - intros ? ? [=].
      - intros t _ Ht _ _. now apply Rows. }
  rewrite Q2.
  destruct (Db.pending_challenges db !! ("CH" +:+ pretty rnd)) as [old|] eqn:Hfresh.
  { cbn [fst]. split; [|split].
    - intros cid. split; [discriminate|].
      intros (_ & t & [= <-] & _ & _ & _ & _ & _ & _ & _ & _ & -> & ?). congruence.
    - intros ? ? [=].
    - intros t _ Ht _ _. now apply Rows. }
  cbn [fst snd]. split; [|split].
  - intros cid. split.
    + intros [= <-]. split; [reflexivity|]. exists target.
      rewrite E2, A2. cbn [fst].
      repeat (split; [first [reflexivity|assumption|lia]|]). assumption.
    + intros (_ & t & _ & _ & _ & _ & _ & _ & _ & _ & _ & -> & _). reflexivity.
  - intros cid t [= <-] [= <-].
    set (row := {| Db.challenger_id := user_id; Db.target_id := t_id target;
                   Db.challenger_name := username; Db.target_name := t_name target;
                   Db.status := "pending" |}).
    set (db3 := Db.set_pending_challenges db2 _).
    assert (Hrow : Db.pending_challenges db3 !! ("CH" +:+ pretty rnd) = Some row)
      by apply lookup_insert_eq.
    split; [exact Hrow|]. split.
    { intros other Hne. subst db3. cbn [Db.set_pending_challenges Db.pending_challenges].
      now rewrite lookup_insert_ne by congruence. }
    split.
    { unfold handle_challenge_decline. rewrite Hrow. cbn [Db.target_id Db.status row].
      now rewrite Z.eqb_refl. }
    split.
    { intros presser Hne. unfold handle_challenge_decline. rewrite Hrow.
      cbn [Db.target_id row].
      destruct (Z.eqb_spec presser (t_id target)); [contradiction|reflexivity]. }
    intros challenger target'.
    apply (challenge_timeout_task_idle _ _ _ _ row Hrow). cbn. auto.
  - intros t _ [= <-] _ _. cbn [Db.set_pending_challenges Db.career_stats].
    split; assumption.
Qed.

End ChallengeFacts.
